(** * Extraction-and-processing pipeline of job-bot

    A shallow embedding of the job pipeline:
    - [services/job_processor_service.py]: [extract_job_data],
      [_should_attempt_fallback], [_playwright_path];
    - [services/playwright_scraper_service.py]: [detect_unavailable_in_text],
      [playwright_scrape_job];
    - [services/duplicate_checker_service.py]: [check_if_job_exists];
    - [app/tasks.py]: [process_job_pipeline], [process_job_task];
    - [app/routes.py]: [add_job].

    Every external collaborator (Crawl4AI, Playwright navigation, the LLM
    services, the PDF compiler, Supabase, Notion) is an oracle: its outcome is
    read from an environment record, and each call is recorded in a trace.
    A computation returns a Python-like outcome (a value or a raised
    exception) together with the trace of the calls and progress updates it
    performed, in order.  *)

From Stdlib Require Import String Ascii ZArith List Bool Lia Sorted.
Import ListNotations.
Open Scope string_scope.
Open Scope Z_scope.
Open Scope list_scope.

(** ** Python string helpers (ASCII model of [str]) *)

Definition lower_ascii (c : ascii) : ascii :=
  let n := nat_of_ascii c in
  if (65 <=? n)%nat && (n <=? 90)%nat then ascii_of_nat (n + 32) else c.

(** [s.lower()] *)
Fixpoint lower (s : string) : string :=
  match s with
  | EmptyString => EmptyString
  | String c s' => String (lower_ascii c) (lower s')
  end.

Fixpoint prefixb (p s : string) : bool :=
  match p, s with
  | EmptyString, _ => true
  | String _ _, EmptyString => false
  | String a p', String b s' => Ascii.eqb a b && prefixb p' s'
  end.

(** Python's [sub in s]. *)
Fixpoint contains (sub s : string) : bool :=
  match s with
  | EmptyString => prefixb sub EmptyString
  | String _ s' => prefixb sub s || contains sub s'
  end.

(** [str.isspace] on one character: \t \n \v \f \r, the separators
    0x1c-0x1f and the space. *)
Definition is_space (c : ascii) : bool :=
  let n := nat_of_ascii c in
  ((9 <=? n)%nat && (n <=? 13)%nat) || ((28 <=? n)%nat && (n <=? 32)%nat).

Fixpoint lstrip (s : string) : string :=
  match s with
  | EmptyString => EmptyString
  | String c s' => if is_space c then lstrip s' else s
  end.

Fixpoint rev_string (s : string) : string :=
  match s with
  | EmptyString => EmptyString
  | String c s' => (rev_string s' ++ String c EmptyString)%string
  end.

(** [s.strip()] *)
Definition strip (s : string) : string :=
  rev_string (lstrip (rev_string (lstrip s))).

(** [s[:n]] *)
Definition take (n : nat) (s : string) : string := substring 0 n s.

Definition digit_char (d : Z) : ascii := ascii_of_nat (48 + Z.to_nat d).

Fixpoint digits_of (fuel : nat) (n : Z) (acc : string) : string :=
  match fuel with
  | O => acc
  | S f =>
      let acc' := String (digit_char (n mod 10)) acc in
      if n <? 10 then acc' else digits_of f (n / 10) acc'
  end.

(** [str(n)] for a Python [int]. *)
Definition Z_to_string (z : Z) : string :=
  let fuel := S (Z.to_nat (Z.log2 (Z.abs z))) in
  if z <? 0 then ("-" ++ digits_of fuel (- z) "")%string
  else digits_of fuel z "".

(** Truthiness of [d.get(k)] for an optional string value. *)
Definition truthy_str (o : option string) : bool :=
  match o with
  | Some s => negb (String.eqb s "")
  | None => false
  end.

(** ** Exceptions

    [JobUnavailableError] and [VisaRestrictedError] are the classes of
    [services/crawl4ai_service.py]; [PwJobUnavailableError] is the class of
    the same name in [services/playwright_scraper_service.py]. Every other
    exception is described by its class name. *)

Inductive exn_class :=
| JobUnavailableError
| VisaRestrictedError
| PwJobUnavailableError
| OtherError (name : string).

Record exn := Exn { exn_cls : exn_class; exn_msg : string }.

(** [type(e).__name__] *)
Definition type_name (c : exn_class) : string :=
  match c with
  | JobUnavailableError | PwJobUnavailableError => "JobUnavailableError"
  | VisaRestrictedError => "VisaRestrictedError"
  | OtherError n => n
  end.

(** [Exception(msg)] *)
Definition Exception_ (msg : string) : exn := Exn (OtherError "Exception") msg.

(** ** Traces of collaborator calls and progress reports *)

Inductive collaborator :=
| NotionQuery
| Crawl4aiExtract
| PlaywrightNavigate (attempt : nat)
| LlmNormalizeJobData
| EvaluateJobMatch
| TailorResume
| CompileResumeToPdf
| UploadPdfToSupabase (document_type : string)
| TailorCoverLetter
| CompileCoverLetterToPdf
| SaveJobToNotion.

Inductive event :=
| Call (c : collaborator)
| UpdateState (stage : string) (progress : Z).

Inductive result (A : Type) :=
| Ok (a : A)
| Err (e : exn).
Arguments Ok {A} a.
Arguments Err {A} e.

(** A computation: its outcome and the events it emitted, in order. *)
Definition M (A : Type) : Type := (result A * list event)%type.

Definition ret {A} (a : A) : M A := (Ok a, []).
Definition raise {A} (e : exn) : M A := (Err e, []).

Definition bind {A B} (m : M A) (k : A -> M B) : M B :=
  match m with
  | (Ok a, t1) => match k a with (r, t2) => (r, t1 ++ t2) end
  | (Err e, t1) => (Err e, t1)
  end.

(** [try: m except ...: h(e)] *)
Definition try_except {A} (m : M A) (h : exn -> M A) : M A :=
  match m with
  | (Ok a, t1) => (Ok a, t1)
  | (Err e, t1) => match h e with (r, t2) => (r, t1 ++ t2) end
  end.

Definition emit (ev : event) : M unit := (Ok tt, [ev]).

(** A call to a collaborator whose outcome is [o]. *)
Definition call {A} (c : collaborator) (o : result A) : M A := (o, [Call c]).

(** [task.update_state(state="PROCESSING", meta={"stage": s, "progress": p})] *)
Definition update_state (s : string) (p : Z) : M unit := emit (UpdateState s p).

Notation "x <- m ;; k" := (bind m (fun x => k))
  (at level 61, m at next level, right associativity).
Notation "m ;;; k" := (bind m (fun _ => k))
  (at level 61, right associativity).

Definition outcome {A} (m : M A) : result A := fst m.
Definition trace {A} (m : M A) : list event := snd m.

(** ** Data passed between the stages *)

(** The normalized job dict; a [None] field is a missing key. *)
Record job := {
  j_url : option string;
  job_title : option string;
  company_name : option string;
  job_description : option string;
  extraction_method : option string }.

(** [normalized["extraction_method"] = m] *)
Definition with_method (m : string) (j : job) : job :=
  {| j_url := j_url j; job_title := job_title j; company_name := company_name j;
     job_description := job_description j; extraction_method := Some m |}.

(** The dict returned by [playwright_scrape_job]. *)
Record raw_scrape := { raw_url : string; raw_text : string; raw_title : string }.

(** What one navigation attempt of [playwright_scrape_job] yields:
    [page.goto] raising the built-in [TimeoutError]; any other exception
    raised during the attempt (also a built-in timeout after navigation:
    both only record [last_error]); or a loaded page with its HTTP status
    ([None] when [page.goto] returns no response), body text and title. *)
Inductive nav_outcome :=
| NavTimeout (e : exn)
| NavRaises (e : exn)
| NavLoaded (status : option Z) (text title : string).

(** One result page of the Notion query: reading its properties raises, or
    the position title text, the company rich text, the page url and id. *)
Inductive page_info :=
| PageRaises (e : exn)
| PageProps (position_title company_text page_url page_id : option string).

(** [response.json()] and [data.get("results", [])]. *)
Inductive json_body :=
| JsonRaises (e : exn)
| JsonResults (results : list page_info).

(** The Notion lookup: credentials unset, [client.post] raising
    ([httpx.RequestError] or any other exception), or a response. *)
Inductive lookup_outcome :=
| MissingCredentials
| PostRaises (e : exn)
| Responded (status_code : Z) (text : string) (body : json_body).

(** The dict returned by [check_if_job_exists]. *)
Record dup_result := {
  exists_ : bool;
  message : option string;
  error : option string;
  notion_url : option string;
  notion_page_id : option string;
  dup_job_title : option string }.

Record evaluation := { match_score : option Z }.

(** [evaluation.get("match_score", 0)] *)
Definition score_of (ev : evaluation) : Z :=
  match match_score ev with Some s => s | None => 0 end.

(** A tailoring result dict: whether it is empty, and its
    ["tailored_content"] entry. *)
Record doc := { doc_empty : bool; tailored_content : option string }.

Record upload_result := { public_url : option string }.

(** The outcomes of every collaborator of one task execution. *)
Record env := {
  env_lookup : lookup_outcome;
  env_crawl : string -> result job;
  env_nav : nat -> nav_outcome;
  env_normalize : raw_scrape -> result job;
  env_evaluate : result evaluation;
  env_tailor_resume : result doc;
  env_compile_resume : result string;
  env_upload_resume : result upload_result;
  env_tailor_cover_letter : result doc;
  env_compile_cover_letter : result string;
  env_upload_cover_letter : result upload_result;
  env_save_notion : result string }.

(** ** [detect_unavailable_in_text] (playwright_scraper_service.py) *)

Definition unavailable_patterns : list (string * string) :=
  [("position has been filled", "Position already filled");
   ("this job is no longer available", "Job posting closed");
   ("posting has expired", "Posting expired");
   ("job posting is no longer active", "Job no longer active");
   ("position is no longer open", "Position closed");
   ("this position has been closed", "Position closed");
   ("sorry, this job is no longer accepting applications",
    "No longer accepting applications");
   ("this opportunity is no longer available", "Opportunity closed");
   ("error 404", "Page not found (404)");
   ("http 404", "Page not found (404)");
   ("404 not found", "Page not found (404)");
   ("404 error", "Page not found (404)")].

Definition job_indicators : list string :=
  ["responsibilities"; "requirements"; "qualifications"; "about the role";
   "what you'll do"; "job description"; "apply now"; "skills"; "experience"].

Fixpoint scan_patterns (text text_lower title_lower : string)
    (ps : list (string * string)) : option string :=
  match ps with
  | [] => None
  | (pattern, reason) :: ps' =>
      if contains pattern text_lower || contains pattern title_lower then
        if contains "404" pattern then
          if contains pattern (take 500 text_lower) then Some reason
          else if (String.length text <? 500)%nat then Some reason
          else scan_patterns text text_lower title_lower ps'
        else Some reason
      else scan_patterns text text_lower title_lower ps'
  end.

Definition detect_unavailable_in_text (text title : string)
    : bool * option string :=
  if String.eqb text "" || (String.length (strip text) <? 100)%nat then
    (true, Some "Page content too short or empty")
  else
    let text_lower := lower text in
    let title_lower := lower title in
    match scan_patterns text text_lower title_lower unavailable_patterns with
    | Some reason => (true, Some reason)
    | None =>
        let has_job_content :=
          existsb (fun i => contains i text_lower) job_indicators in
        if negb has_job_content && (String.length text <? 800)%nat then
          (true, Some "No job description found - possibly removed or expired")
        else (false, None)
    end.

(** ** [playwright_scrape_job] *)

Definition max_retries : nat := 3.

Definition str_opt (o : option string) : string :=
  match o with Some s => s | None => "None" end.

Definition str_last_error (o : option exn) : string :=
  match o with Some e => exn_msg e | None => "None" end.

(** The [for attempt in range(max_retries)] loop, [remaining] iterations
    left. *)
Fixpoint scrape_loop (nav : nat -> nav_outcome) (url : string)
    (attempt remaining : nat) (last_error : option exn) : M raw_scrape :=
  match remaining with
  | O =>
      raise (Exception_ ("Scraping failed after 3 attempts: "
                         ++ str_last_error last_error))
  | S rem =>
      let next le := scrape_loop nav url (S attempt) rem le in
      o <- call (PlaywrightNavigate attempt) (Ok (nav attempt)) ;;
      match o with
      | NavTimeout e =>
          (* inner handler: [continue] before the last attempt, else
             re-raise to the outer [except TimeoutError] *)
          if (attempt <? max_retries - 1)%nat then next last_error
          else next (Some e)
      | NavRaises e =>
          match exn_cls e with
          | PwJobUnavailableError => raise e
          | _ => next (Some e)
          end
      | NavLoaded status text title =>
          match status with
          | Some s =>
              if 400 <=? s then
                if s =? 404 then
                  raise (Exn PwJobUnavailableError "HTTP 404 - Page not found")
                else if s =? 410 then
                  raise (Exn PwJobUnavailableError "HTTP 410 - Page gone")
                else next (Some (Exception_ ("HTTP " ++ Z_to_string s)))
              else
                match detect_unavailable_in_text text title with
                | (true, reason) => raise (Exn PwJobUnavailableError (str_opt reason))
                | (false, _) =>
                    ret {| raw_url := url; raw_text := text; raw_title := title |}
                end
          | None =>
              match detect_unavailable_in_text text title with
              | (true, reason) => raise (Exn PwJobUnavailableError (str_opt reason))
              | (false, _) =>
                  ret {| raw_url := url; raw_text := text; raw_title := title |}
              end
          end
      end
  end.

Definition playwright_scrape_job (nav : nat -> nav_outcome) (url : string)
    : M raw_scrape :=
  scrape_loop nav url 0 max_retries None.

(** ** [_should_attempt_fallback] (job_processor_service.py) *)

Definition fallback_patterns : list string :=
  ["timeout"; "timed out"; "connection"; "network"; "incomplete extraction";
   "missing required fields"; "no content extracted"; "empty";
   "failed on navigating"].

Definition retriable_errors : list string :=
  ["TimeoutError"; "NetworkError"; "ConnectionError"; "RuntimeError"].

Definition should_attempt_fallback (error : exn) : bool :=
  let error_str := lower (exn_msg error) in
  let error_type := type_name (exn_cls error) in
  if existsb (fun pattern => contains pattern error_str) fallback_patterns
  then true
  else if existsb (String.eqb error_type) retriable_errors then true
  else false.

(** ** [_playwright_path] *)

Definition playwright_path (E : env) (url : string) : M job :=
  try_except
    (raw_scraped <-
       try_except (playwright_scrape_job (env_nav E) url)
         (fun e => match exn_cls e with
                   | PwJobUnavailableError =>
                       raise (Exn JobUnavailableError (exn_msg e))
                   | _ => raise e
                   end) ;;
     normalized <- call LlmNormalizeJobData (env_normalize E raw_scraped) ;;
     ret (with_method "playwright+llm" normalized))
    (fun e => match exn_cls e with
              | JobUnavailableError => raise e
              | _ => raise (Exception_ ("Playwright extraction failed: "
                                        ++ exn_msg e))
              end).

(** ** [extract_job_data] *)

(** The body of the fast-path [try] block. *)
Definition crawl4ai_fast_path (E : env) (url : string) : M job :=
  normalized <- call Crawl4aiExtract (env_crawl E url) ;;
  if negb (truthy_str (job_title normalized))
     || negb (truthy_str (job_description normalized))
  then raise (Exception_ "Incomplete extraction - missing critical fields")
  else ret (with_method "crawl4ai" normalized).

Definition extract_job_data (E : env) (url : string) (force_playwright : bool)
    : M job :=
  if force_playwright then playwright_path E url
  else
    try_except (crawl4ai_fast_path E url)
      (fun e => match exn_cls e with
                | JobUnavailableError | VisaRestrictedError => raise e
                | _ => if should_attempt_fallback e then playwright_path E url
                       else raise e
                end).

(** ** [check_if_job_exists] (duplicate_checker_service.py) *)

Definition missing_credentials_msg : string :=
  "❌ Missing NOTION_API_KEY or NOTION_DATABASE_ID environment variable.".

(** [{"exists": False, "error": msg}] *)
Definition dup_error (msg : string) : dup_result :=
  {| exists_ := false; message := None; error := Some msg; notion_url := None;
     notion_page_id := None; dup_job_title := None |}.

Definition dup_found (position_title company_text page_url page_id : option string)
    : dup_result :=
  let job_title :=
    match position_title with Some t => t | None => "Unknown Position" end in
  let company :=
    match company_text with Some c => c | None => "" end in
  let full_title :=
    if String.eqb company "" then job_title
    else (job_title ++ " @ " ++ company)%string in
  {| exists_ := true; message := Some ("Job already exists: " ++ full_title)%string;
     error := None; notion_url := page_url; notion_page_id := page_id;
     dup_job_title := Some full_title |}.

Definition dup_new : dup_result :=
  {| exists_ := false; message := Some "Job URL is new"; error := None;
     notion_url := None; notion_page_id := None; dup_job_title := None |}.

(** Both handlers ([except httpx.RequestError] and [except Exception])
    return [{"exists": False, "error": str(e)}]. *)
Definition check_if_job_exists (lk : lookup_outcome) : M dup_result :=
  match lk with
  | MissingCredentials => ret (dup_error missing_credentials_msg)
  | PostRaises e =>
      try_except (call NotionQuery (Err e))
        (fun e => ret (dup_error (exn_msg e)))
  | Responded status_code text body =>
      try_except
        (call NotionQuery (Ok tt) ;;;
         if status_code =? 200 then
           match body with
           | JsonRaises e => raise e
           | JsonResults [] => ret dup_new
           | JsonResults (PageRaises e :: _) => raise e
           | JsonResults (PageProps pt ct pu pid :: _) => ret (dup_found pt ct pu pid)
           end
         else ret (dup_error text))
        (fun e => ret (dup_error (exn_msg e)))
  end.

(** ** [process_job_pipeline] (app/tasks.py) *)

(** [d[key]] on a dict whose entry is [o]: [KeyError] when missing. *)
Definition getitem {A} (key : string) (o : option A) : M A :=
  match o with
  | Some v => ret v
  | None => raise (Exn (OtherError "KeyError") ("'" ++ key ++ "'"))
  end.

(** [if resume_data:] on an optional dict. *)
Definition truthy_doc (o : option doc) : bool :=
  match o with Some d => negb (doc_empty d) | None => false end.

Definition is_some {A} (o : option A) : bool :=
  match o with Some _ => true | None => false end.

(** [f"Match score {match_score}% ≤ 70 threshold"] *)
Definition threshold_reason (score : Z) : string :=
  ("Match score " ++ Z_to_string score ++ "% ≤ 70 threshold")%string.

(** The final success response; the preview dicts are not modelled. *)
Record success := {
  s_extraction_method : option string;
  s_notion : string;
  resume_tailored : bool;
  resume_pdf_generated : bool;
  resume_pdf_url : option string;
  resume_reason : option string;
  cover_letter_tailored : bool;
  cover_letter_pdf_generated : bool;
  cover_letter_pdf_url : option string;
  cover_letter_reason : option string }.

Inductive response :=
| RDuplicate (message notion_url notion_page_id job_title : option string)
| RUnavailable (url reason : string)
| RVisaRestricted (url reason : string)
| RSuccess (s : success).

(** [result["status"]] *)
Definition status (r : response) : string :=
  match r with
  | RDuplicate _ _ _ _ => "duplicate"
  | RUnavailable _ _ => "unavailable"
  | RVisaRestricted _ _ => "visa_restricted"
  | RSuccess _ => "success"
  end.

Definition build_success (normalized : job) (notion_result : string) (score : Z)
    (resume_data : option doc) (resume_url : option string)
    (cover_letter_data : option doc) (cover_letter_url : option string) : success :=
  let rt := truthy_doc resume_data in
  let ct := truthy_doc cover_letter_data in
  {| s_extraction_method := extraction_method normalized;
     s_notion := notion_result;
     resume_tailored := rt;
     resume_pdf_generated := if rt then is_some resume_url else false;
     resume_pdf_url := if rt then resume_url else None;
     resume_reason := if rt then None else Some (threshold_reason score);
     cover_letter_tailored := ct;
     cover_letter_pdf_generated := if ct then is_some cover_letter_url else false;
     cover_letter_pdf_url := if ct then cover_letter_url else None;
     cover_letter_reason := if ct then None else Some (threshold_reason score) |}.

Section Pipeline.

(** How a stage boundary is reported: [task.update_state] in the Celery
    task; the HTTP route of [app/routes.py] runs the same sequence of
    stages with no report. *)
Variable report : string -> Z -> M unit.

(** Resume generation: returns [(resume_data, resume_pdf_url)]. *)
Definition resume_stage (E : env) : M (option doc * option string) :=
  report "tailoring_resume" 45 ;;;
  try_except
    (resume_data <- call TailorResume (env_tailor_resume E) ;;
     report "compiling_resume_pdf" 55 ;;;
     try_except
       (content <- getitem "tailored_content" (tailored_content resume_data) ;;
        resume_pdf_bytes <- call CompileResumeToPdf (env_compile_resume E) ;;
        up <- call (UploadPdfToSupabase "resume") (env_upload_resume E) ;;
        resume_pdf_url <- getitem "public_url" (public_url up) ;;
        ret (Some resume_data, Some resume_pdf_url))
       (fun _ => ret (Some resume_data, None)))
    (fun _ => ret (None, None)).

(** Cover letter generation: returns
    [(cover_letter_data, cover_letter_pdf_url)]. *)
Definition cover_letter_stage (E : env) : M (option doc * option string) :=
  report "tailoring_cover_letter" 65 ;;;
  try_except
    (cover_letter_data <- call TailorCoverLetter (env_tailor_cover_letter E) ;;
     report "compiling_cover_letter_pdf" 75 ;;;
     try_except
       (content <- getitem "tailored_content" (tailored_content cover_letter_data) ;;
        cl_pdf_bytes <- call CompileCoverLetterToPdf (env_compile_cover_letter E) ;;
        up <- call (UploadPdfToSupabase "cover_letter") (env_upload_cover_letter E) ;;
        cover_letter_pdf_url <- getitem "public_url" (public_url up) ;;
        ret (Some cover_letter_data, Some cover_letter_pdf_url))
       (fun _ => ret (Some cover_letter_data, None)))
    (fun _ => ret (None, None)).

(** Stage 4: both tailoring stages when [match_score > 70]. *)
Definition tailoring (E : env) (match_score : Z)
    : M ((option doc * option string) * (option doc * option string)) :=
  if 70 <? match_score then
    r <- resume_stage E ;;
    c <- cover_letter_stage E ;;
    ret (r, c)
  else ret ((None, None), (None, None)).

(** Stage 5: save to Notion, then build the final response. *)
Definition persistence_stage (E : env) (normalized : job) (match_score : Z)
    (docs : (option doc * option string) * (option doc * option string))
    : M response :=
  match docs with
  | ((resume_data, resume_pdf_url), (cover_letter_data, cover_letter_pdf_url)) =>
      report "saving_to_notion" 85 ;;;
      u <- getitem "url" (j_url normalized) ;;
      t <- getitem "job_title" (job_title normalized) ;;
      c <- getitem "company_name" (company_name normalized) ;;
      notion_result <- call SaveJobToNotion (env_save_notion E) ;;
      report "complete" 100 ;;;
      ret (RSuccess (build_success normalized notion_result match_score
                       resume_data resume_pdf_url
                       cover_letter_data cover_letter_pdf_url))
  end.

(** Stages 3 to 5, after a successful extraction. *)
Definition after_extraction (E : env) (normalized : job) : M response :=
  report "evaluating" 35 ;;;
  jd <- getitem "job_description" (job_description normalized) ;;
  evaluation <- call EvaluateJobMatch (env_evaluate E) ;;
  let match_score := score_of evaluation in
  docs <- tailoring E match_score ;;
  persistence_stage E normalized match_score docs.

(** Stage 2: extraction, with the business outcomes as early returns. *)
Definition extraction_stage (E : env) (url : string) (force_playwright : bool)
    : M response :=
  report "extracting" 20 ;;;
  extracted <-
    try_except
      (normalized <- extract_job_data E url force_playwright ;;
       ret (inr normalized))
      (fun e => match exn_cls e with
                | JobUnavailableError => ret (inl (RUnavailable url (exn_msg e)))
                | VisaRestrictedError => ret (inl (RVisaRestricted url (exn_msg e)))
                | _ => raise e
                end) ;;
  match extracted with
  | inl early => ret early
  | inr normalized => after_extraction E normalized
  end.

Definition pipeline (E : env) (url : string) (force_playwright : bool)
    : M response :=
  report "duplicate_check" 10 ;;;
  duplicate_check <- check_if_job_exists (env_lookup E) ;;
  if exists_ duplicate_check then
    ret (RDuplicate (message duplicate_check) (notion_url duplicate_check)
           (notion_page_id duplicate_check) (dup_job_title duplicate_check))
  else extraction_stage E url force_playwright.

End Pipeline.

Definition process_job_pipeline : env -> string -> bool -> M response :=
  pipeline update_state.

(** ** [process_job_task]: the Celery task state it ends in *)

Inductive task_state :=
| SUCCESS (r : response)
| FAILURE (e : exn).

(** The wrapper reports [starting] at progress 0, runs the pipeline and
    returns its result; an exception is logged and re-raised, which Celery
    records as [FAILURE]. *)
Definition process_job_task (E : env) (url : string) (force_playwright : bool)
    : task_state * list event :=
  match update_state "starting" 0 ;;; process_job_pipeline E url force_playwright with
  | (Ok r, t) => (SUCCESS r, t)
  | (Err e, t) => (FAILURE e, t)
  end.

(** ** [add_job] (app/routes.py, [POST /jobs/add]) *)

Inductive http_response :=
| HttpOk (body : response)
| HttpError (status_code : Z) (detail : string).

Definition no_report (s : string) (p : Z) : M unit := ret tt.

(** The route runs the pipeline inside the request; any exception becomes
    [HTTPException(status_code=500, detail=str(e))]. *)
Definition add_job (E : env) (url : string) (force_playwright : bool)
    : M http_response :=
  try_except
    (r <- pipeline no_report E url force_playwright ;; ret (HttpOk r))
    (fun e => ret (HttpError 500 (exn_msg e))).

(** ** Reading traces *)

Definition is_navigation (ev : event) : bool :=
  match ev with Call (PlaywrightNavigate _) => true | _ => false end.

Definition is_normalization (ev : event) : bool :=
  match ev with Call LlmNormalizeJobData => true | _ => false end.

Definition is_call (ev : event) : bool :=
  match ev with Call _ => true | UpdateState _ _ => false end.

(** Calls made before Stage 3: the Notion query and the extraction
    collaborators. *)
Definition is_extraction_call (ev : event) : bool :=
  match ev with
  | Call NotionQuery | Call Crawl4aiExtract | Call (PlaywrightNavigate _)
  | Call LlmNormalizeJobData => true
  | _ => false
  end.

(** Calls to the tailoring, PDF compilation and upload collaborators. *)
Definition is_tailoring_call (ev : event) : bool :=
  match ev with
  | Call TailorResume | Call TailorCoverLetter | Call CompileResumeToPdf
  | Call CompileCoverLetterToPdf | Call (UploadPdfToSupabase _) => true
  | _ => false
  end.

(** The stage boundaries reported in a trace, with their progress. *)
Definition stages_of (t : list event) : list (string * Z) :=
  flat_map (fun ev => match ev with
                      | UpdateState s p => [(s, p)]
                      | Call _ => []
                      end) t.

(** The nine stage boundaries of [process_job_pipeline], in order. *)
Definition pipeline_stages : list (string * Z) :=
  [("duplicate_check", 10); ("extracting", 20); ("evaluating", 35);
   ("tailoring_resume", 45); ("compiling_resume_pdf", 55);
   ("tailoring_cover_letter", 65); ("compiling_cover_letter_pdf", 75);
   ("saving_to_notion", 85); ("complete", 100)].

(** [l] is a subsequence of [L]. *)
Inductive subseq {A : Type} : list A -> list A -> Prop :=
| subseq_nil : subseq [] []
| subseq_skip x l L : subseq l L -> subseq l (x :: L)
| subseq_take x l L : subseq l L -> subseq (x :: l) (x :: L).

Definition stage_eqb (x y : string * Z) : bool :=
  String.eqb (fst x) (fst y) && Z.eqb (snd x) (snd y).

(** A greedy test for [subseq] on stage lists. *)
Fixpoint subseqb (l L : list (string * Z)) : bool :=
  match l, L with
  | [], _ => true
  | _ :: _, [] => false
  | x :: l', y :: L' => if stage_eqb x y then subseqb l' L' else subseqb l L'
  end.

(** The lookups that fail in [check_if_job_exists]: missing credentials,
    a raising request, a non-200 answer, a body that is not JSON, or a
    first page whose properties cannot be read. *)
Definition lookup_failed (lk : lookup_outcome) : bool :=
  match lk with
  | MissingCredentials | PostRaises _ => true
  | Responded status_code _ body =>
      negb (status_code =? 200) ||
      match body with
      | JsonRaises _ | JsonResults (PageRaises _ :: _) => true
      | JsonResults _ => false
      end
  end.

(** ** Sample collaborator outcomes *)

Definition sample_job : job :=
  {| j_url := Some "https://jobs.example.com/42"; job_title := Some "Backend Engineer";
     company_name := Some "Acme"; job_description := Some "Build and run services.";
     extraction_method := None |}.

Definition sample_doc : doc :=
  {| doc_empty := false; tailored_content := Some "\documentclass{article}" |}.

Definition sample_page_text : string :=
  "About the role: you will design, build and operate backend services. Responsibilities: APIs, data pipelines. Requirements: 3+ years of experience with Python.".

(** A navigation that loads the sample posting. *)
Definition nav_ok (attempt : nat) : nav_outcome :=
  NavLoaded (Some 200) sample_page_text "Backend Engineer - Acme".

(** A navigation whose every attempt answers HTTP 503. *)
Definition nav_503 (attempt : nat) : nav_outcome :=
  NavLoaded (Some 503) "Service Unavailable" "503 Service Unavailable".

(** An environment where the Notion query finds nothing and every other
    collaborator succeeds, except for the outcomes given. *)
Definition sample_env (crawl : result job) (nav : nat -> nav_outcome) (score : Z)
    (tailor_resume : result doc) (notion : result string) : env :=
  {| env_lookup := Responded 200 "{}" (JsonResults []);
     env_crawl := fun _ => crawl;
     env_nav := nav;
     env_normalize := fun _ => Ok sample_job;
     env_evaluate := Ok {| match_score := Some score |};
     env_tailor_resume := tailor_resume;
     env_compile_resume := Ok "%PDF-1.5 resume";
     env_upload_resume := Ok {| public_url := Some "https://cdn.example.com/resume.pdf" |};
     env_tailor_cover_letter := Ok sample_doc;
     env_compile_cover_letter := Ok "%PDF-1.5 cover letter";
     env_upload_cover_letter :=
       Ok {| public_url := Some "https://cdn.example.com/cover_letter.pdf" |};
     env_save_notion := notion |}.

Definition sample_url : string := "https://jobs.example.com/42".

(** Exceptions as [crawl4ai_extract] raises them. *)
Definition crawl_connection_reset : exn :=
  Exception_ "Crawl4AI extraction failed: Crawl failed: net::ERR_CONNECTION_RESET".

Definition crawl_unexpected_type : exn :=
  Exception_ "Crawl4AI extraction failed: Unexpected parsed type: <class 'int'>".

Definition crawl_position_filled : exn :=
  Exn JobUnavailableError "Position already filled".

Definition resume_llm_error : exn :=
  Exn (OtherError "RateLimitError") "Rate limit reached for gpt-4o".

Definition notion_save_error : exn :=
  Exception_ "Notion save failed: body failed validation".

(** A navigation that loads a posting the employer has closed. *)
Definition nav_closed (attempt : nat) : nav_outcome :=
  NavLoaded (Some 200) (sample_page_text ++ " Update: this job is no longer available.")
    "Backend Engineer - Acme".

(** [E] with the Notion lookup answering [lk]. *)
Definition with_lookup (lk : lookup_outcome) (E : env) : env :=
  {| env_lookup := lk;
     env_crawl := env_crawl E;
     env_nav := env_nav E;
     env_normalize := env_normalize E;
     env_evaluate := env_evaluate E;
     env_tailor_resume := env_tailor_resume E;
     env_compile_resume := env_compile_resume E;
     env_upload_resume := env_upload_resume E;
     env_tailor_cover_letter := env_tailor_cover_letter E;
     env_compile_cover_letter := env_compile_cover_letter E;
     env_upload_cover_letter := env_upload_cover_letter E;
     env_save_notion := env_save_notion E |}.

(** The Celery state recorded for a pipeline outcome. *)
Definition to_task (r : result response) : task_state :=
  match r with Ok r => SUCCESS r | Err e => FAILURE e end.

(** * The services around the pipeline *)

(** ** More of Python's [str]: [replace], [count], [split] *)

(** [s.replace(old, new)]: non-overlapping occurrences, left to right;
    [skip] characters of a match are still to be dropped. *)
Fixpoint replace_from (old new : string) (skip : nat) (s : string) : string :=
  match s with
  | EmptyString => if String.eqb old "" then new else EmptyString
  | String c s' =>
      match skip with
      | S k => replace_from old new k s'
      | O =>
          if prefixb old s then
            if String.eqb old "" then (new ++ String c (replace_from old new 0 s'))%string
            else (new ++ replace_from old new (String.length old - 1) s')%string
          else String c (replace_from old new 0 s')
      end
  end.

Definition replace_str (old new s : string) : string := replace_from old new 0 s.

(** [s.count(sub)] *)
Fixpoint count_from (sub : string) (skip : nat) (s : string) : nat :=
  match s with
  | EmptyString => if String.eqb sub "" then 1 else 0
  | String c s' =>
      match skip with
      | S k => count_from sub k s'
      | O =>
          if prefixb sub s then S (count_from sub (String.length sub - 1) s')
          else count_from sub 0 s'
      end
  end%nat.

Definition count_str (sub s : string) : nat := count_from sub 0 s.

(** [s.split(sep)] for a one-character separator. *)
Fixpoint split_char (sep : ascii) (s : string) : list string :=
  match s with
  | EmptyString => [EmptyString]
  | String c s' =>
      if Ascii.eqb c sep then EmptyString :: split_char sep s'
      else match split_char sep s' with
           | h :: t => String c h :: t
           | [] => [String c EmptyString]
           end
  end.

(** [s[i:i+n]] *)
Definition slice_len (i n : nat) (s : string) : string := substring i n s.

(** [range(start, stop, step)] for [step > 0]. *)
Definition range_step (start stop step : nat) : list nat :=
  map (fun k => start + k * step)%nat (seq 0 ((stop - start + step - 1) / step)).

(** ** JSON values and dicts *)

(** A value decoded by [json.loads] (numbers are integers). *)
Local Unset Elimination Schemes.
Inductive pyval :=
| PNone
| PBool (b : bool)
| PInt (z : Z)
| PStr (s : string)
| PList (l : list pyval)
| PDict (d : list (string * pyval)).
Local Set Elimination Schemes.

Definition pydict : Type := list (string * pyval).

(** [bool(v)] *)
Definition truthy (v : pyval) : bool :=
  match v with
  | PNone => false
  | PBool b => b
  | PInt z => negb (z =? 0)
  | PStr s => negb (String.eqb s "")
  | PList l => match l with [] => false | _ => true end
  | PDict d => match d with [] => false | _ => true end
  end.

(** [type(v).__name__] *)
Definition py_type_name (v : pyval) : string :=
  match v with
  | PNone => "NoneType"
  | PBool _ => "bool"
  | PInt _ => "int"
  | PStr _ => "str"
  | PList _ => "list"
  | PDict _ => "dict"
  end.

(** [str(type(v))] *)
Definition class_repr (v : pyval) : string :=
  "<class '" ++ py_type_name v ++ "'>".

(** [v.attr] on a value without that attribute. *)
Definition attr_error (v : pyval) (attr : string) : exn :=
  Exn (OtherError "AttributeError")
      ("'" ++ py_type_name v ++ "' object has no attribute '" ++ attr ++ "'").

(** [str(v)]; the [repr] of a list or dict is given by [repr]. *)
Definition py_str (repr : pyval -> string) (v : pyval) : string :=
  match v with
  | PNone => "None"
  | PBool true => "True"
  | PBool false => "False"
  | PInt z => Z_to_string z
  | PStr s => s
  | PList _ | PDict _ => repr v
  end.

(** [d.get(k)]; [None] when the key is missing. *)
Fixpoint dict_get (d : pydict) (k : string) : option pyval :=
  match d with
  | [] => None
  | (k', v) :: d' => if String.eqb k k' then Some v else dict_get d' k
  end.

(** [d.get(k, default)] *)
Definition get_or (d : pydict) (k : string) (default : pyval) : pyval :=
  match dict_get d k with Some v => v | None => default end.

(** [d[k] = v] *)
Fixpoint dict_set (d : pydict) (k : string) (v : pyval) : pydict :=
  match d with
  | [] => [(k, v)]
  | (k', v') :: d' =>
      if String.eqb k k' then (k, v) :: d' else (k', v') :: dict_set d' k v
  end.

(** [k in d] *)
Definition has_key (d : pydict) (k : string) : bool := is_some (dict_get d k).

Definition is_json_decode_error (e : exn) : bool :=
  match exn_cls e with
  | OtherError n => String.eqb n "JSONDecodeError"
  | _ => false
  end.

(** ** [services/crawl4ai_service.py]

    The debug files the service writes are assumed to be written. *)

Module Crawl4aiService.

(** [(normalized.get(k) or "").lower()] *)
Definition lower_or_empty (v : option pyval) : result string :=
  match v with
  | Some v =>
      if truthy v then
        match v with
        | PStr s => Ok (lower s)
        | _ => Err (attr_error v "lower")
        end
      else Ok ""
  | None => Ok ""
  end.

Definition restricted_terms : list string :=
  ["no visa sponsorship"; "must have work authorization"; "authorized to work";
   "locals only"; "work permit required"; "no relocation support"].

Definition known_countries : list string :=
  ["singapore"; "malaysia"; "australia"; "usa"; "uk"; "canada"].

Definition infer_visa_feasibility (normalized : pydict) (user_country : string)
    : result string :=
  match lower_or_empty (dict_get normalized "location") with
  | Err e => Err e
  | Ok loc =>
      match lower_or_empty (dict_get normalized "job_description") with
      | Err e => Err e
      | Ok desc =>
          if contains (lower user_country) loc then Ok "eligible"
          else if existsb (fun term => contains term desc) restricted_terms
          then Ok "restricted"
          else if existsb (fun country => contains country loc) known_countries
          then Ok "possible"
          else Ok "unknown"
      end
  end.

Definition unavailable_patterns : list (string * string) :=
  [("position has been filled", "Position already filled");
   ("this job is no longer available", "Job posting closed");
   ("posting has expired", "Posting expired");
   ("job posting is no longer active", "Job no longer active");
   ("position is no longer open", "Position closed");
   ("this position has been closed", "Position closed");
   ("404", "Page not found (404)");
   ("page not found", "Page not found");
   ("sorry, this job is no longer accepting applications",
    "No longer accepting applications");
   ("this opportunity is no longer available", "Opportunity closed")].

Definition job_indicators : list string :=
  ["responsibilities"; "requirements"; "qualifications"; "about the role";
   "what you'll do"; "job description"; "apply now"].

(** [markdown] is [None] when the crawler produced none. *)
Definition detect_job_unavailable (markdown : option string) (url : string)
    : bool * option string :=
  match markdown with
  | None => (true, Some "Page content too short or empty")
  | Some markdown =>
      if String.eqb markdown "" || (String.length (strip markdown) <? 100)%nat then
        (true, Some "Page content too short or empty")
      else
        let markdown_lower := lower markdown in
        match find (fun pr => contains (fst pr) markdown_lower) unavailable_patterns with
        | Some (_, reason) => (true, Some reason)
        | None =>
            let has_job_content :=
              existsb (fun indicator => contains indicator markdown_lower)
                job_indicators in
            if negb has_job_content && (String.length markdown <? 500)%nat then
              (true, Some "No job description found - possibly removed or expired")
            else (false, None)
        end
  end.

(** The [CrawlResult] of [crawler.arun]: [success], [error_message],
    [markdown], [extracted_content] and [metadata] ([None] when unset). *)
Record crawl_result := {
  cr_success : bool;
  cr_error_message : option string;
  cr_markdown : option string;
  cr_extracted_content : pyval;
  cr_metadata : option pydict }.

(** Starting the crawler or [crawler.arun] raises, or a result comes back. *)
Inductive crawl_outcome :=
| CrawlRaises (e : exn)
| Crawled (r : crawl_result).

(** [if not normalized.get("visa_feasibility"): normalized["visa_feasibility"]
    = infer_visa_feasibility(normalized)] *)
Definition ensure_visa_feasibility (normalized : pydict) : result pydict :=
  if truthy (get_or normalized "visa_feasibility" PNone) then Ok normalized
  else
    match infer_visa_feasibility normalized "Indonesia" with
    | Ok v => Ok (dict_set normalized "visa_feasibility" (PStr v))
    | Err e => Err e
    end.

Definition is_restricted (v : pyval) : bool :=
  match v with PStr s => String.eqb s "restricted" | _ => false end.

Section Extract.

(** [json.loads] on a string, and the [repr] of a list or dict. *)
Variable json_loads : string -> result pyval.
Variable repr : pyval -> string.

(** The checks on the extracted dict, from [job_available] on. *)
Definition check_normalized (url : string) (r : crawl_result) (normalized : pydict)
    : result pydict :=
  if negb (truthy (get_or normalized "job_available" (PBool true))) then
    Err (Exn JobUnavailableError
           (py_str repr (get_or normalized "unavailable_reason"
                           (PStr "Job posting no longer available"))))
  else if negb (truthy (get_or normalized "job_title" PNone))
          || negb (truthy (get_or normalized "job_description" PNone)) then
    Err (Exception_ ("Missing required fields. Got: "
                     ++ repr (PList (map (fun kv => PStr (fst kv)) normalized))))
  else
    let normalized := dict_set normalized "url" (PStr url) in
    match cr_metadata r with
    | None => Err (attr_error PNone "get")
    | Some metadata =>
        let normalized :=
          dict_set normalized "source_title" (get_or metadata "title" (PStr "")) in
        match ensure_visa_feasibility normalized with
        | Err e => Err e
        | Ok normalized =>
            if is_restricted (get_or normalized "visa_feasibility" PNone) then
              Err (Exn VisaRestrictedError
                     "Job requires work authorization/visa sponsorship not available")
            else Ok normalized
        end
    end.

(** [json.loads(extracted) if isinstance(extracted, str) else extracted] *)
Definition parse_extracted (extracted : pyval) : result pyval :=
  match extracted with PStr s => json_loads s | v => Ok v end.

(** The body of the [try] block, once the crawler returned [r]. *)
Definition crawl_body (url : string) (r : crawl_result) : result pydict :=
  if negb (cr_success r) then
    Err (Exception_ ("Crawl failed: " ++ str_opt (cr_error_message r)))
  else
    match detect_job_unavailable (cr_markdown r) url with
    | (true, unavailable_reason) =>
        Err (Exn JobUnavailableError (str_opt unavailable_reason))
    | (false, _) =>
        let extracted := cr_extracted_content r in
        if negb (truthy extracted) then Err (Exception_ "No content extracted")
        else
          match parse_extracted extracted with
          | Err e => Err e
          | Ok parsed =>
              let normalized :=
                match parsed with
                | PList [] => Err (Exception_ "LLM returned empty array.")
                | PList (first :: _) => Ok first
                | PDict _ => Ok parsed
                | v => Err (Exception_ ("Unexpected parsed type: " ++ class_repr v))
                end in
              match normalized with
              | Err e => Err e
              | Ok (PDict normalized) => check_normalized url r normalized
              | Ok v => Err (Exception_ ("Normalized is not a dict: " ++ class_repr v))
              end
          end
    end.

Definition crawl4ai_extract (url : string) (o : crawl_outcome) : result pydict :=
  let body := match o with
              | CrawlRaises e => Err e
              | Crawled r => crawl_body url r
              end in
  match body with
  | Ok normalized => Ok normalized
  | Err e =>
      match exn_cls e with
      | JobUnavailableError | VisaRestrictedError => Err e
      | _ => Err (Exception_ ("Crawl4AI extraction failed: " ++ exn_msg e))
      end
  end.

End Extract.

End Crawl4aiService.

(** ** [services/llm_normalization_service.py] *)

Module LlmNormalizationService.

(** Its [infer_visa_feasibility] has the same body as the one of
    [crawl4ai_service.py]. *)
Definition infer_visa_feasibility := Crawl4aiService.infer_visa_feasibility.

(** The chat completion call raises, or returns its message content
    ([None] when the message has none). *)
Inductive llm_response :=
| LlmRaises (e : exn)
| LlmContent (content : option string).

(** Removing markdown code fences. *)
Definition strip_fences (content : string) : string :=
  if prefixb "```json" content then
    strip (replace_str "```" "" (replace_str "```json" "" content))
  else if prefixb "```" content then strip (replace_str "```" "" content)
  else content.

Definition required_fields : list string :=
  ["job_title"; "company_name"; "job_description"].

(** The dict of both fallbacks. *)
Definition fallback_dict (url source_title job_description : string) : pydict :=
  [("url", PStr url);
   ("job_title", PStr (if String.eqb source_title "" then "Unknown Position"
                       else source_title));
   ("company_name", PNone);
   ("location", PNone);
   ("work_mode", PNone);
   ("job_description", PStr job_description);
   ("source_title", PStr source_title);
   ("visa_feasibility", PStr "unknown")].

Section Normalize.

Variable json_loads : string -> result pyval.
Variable repr : pyval -> string.

(** From [missing_fields] to the optional fields, on [json.loads]'s value. *)
Definition complete_normalized (url source_title : string) (parsed : pyval)
    : result pydict :=
  match parsed with
  | PDict normalized =>
      let missing_fields :=
        filter (fun f => negb (truthy (get_or normalized f PNone))) required_fields in
      match missing_fields with
      | _ :: _ =>
          Err (Exception_ ("LLM output missing required fields: "
                           ++ repr (PList (map PStr missing_fields))))
      | [] =>
          let normalized := dict_set normalized "url" (PStr url) in
          let normalized := dict_set normalized "source_title" (PStr source_title) in
          match Crawl4aiService.ensure_visa_feasibility normalized with
          | Err e => Err e
          | Ok normalized =>
              let normalized :=
                if has_key normalized "location" then normalized
                else dict_set normalized "location" PNone in
              let normalized :=
                if has_key normalized "work_mode" then normalized
                else dict_set normalized "work_mode" PNone in
              Ok normalized
          end
      end
  | v => Err (attr_error v "get")
  end.

Definition llm_normalize_job_data (raw : raw_scrape) (response : llm_response)
    : pydict :=
  let url := raw_url raw in
  let source_title := raw_title raw in
  let raw_text := raw_text raw in
  let attempt :=
    match response with
    | LlmRaises e => Err e
    | LlmContent None => Err (attr_error PNone "strip")
    | LlmContent (Some content) =>
        let content := strip_fences (strip content) in
        match json_loads content with
        | Err e =>
            if is_json_decode_error e
            then Ok (fallback_dict url source_title raw_text)
            else Err e
        | Ok parsed => complete_normalized url source_title parsed
        end
    end in
  match attempt with
  | Ok normalized => normalized
  | Err _ =>
      fallback_dict url source_title
        (if String.eqb raw_text "" then "Unable to extract job description"
         else raw_text)
  end.

End Normalize.

End LlmNormalizationService.

(** The keys and values every dict of [llm_normalize_job_data] has. *)
Definition normalized_shape (url source_title : string) (d : pydict) : Prop :=
  dict_get d "url" = Some (PStr url) /\
  dict_get d "source_title" = Some (PStr source_title) /\
  truthy (get_or d "job_title" PNone) = true /\
  truthy (get_or d "visa_feasibility" PNone) = true /\
  has_key d "company_name" = true /\ has_key d "job_description" = true /\
  has_key d "location" = true /\ has_key d "work_mode" = true.

(** ** [determine_visa_status] (services/llm_evaluation_service.py) *)

Definition or_empty (o : option string) : string :=
  match o with Some s => s | None => "" end.

Definition restriction_keywords : list string :=
  ["citizens only"; "citizenship required"; "no visa sponsorship";
   "must be authorized to work"; "cannot provide sponsorship";
   "permanent resident only"; "security clearance required"].

Definition determine_visa_status (location work_mode : option string)
    (job_text : string) : string :=
  let location_lower := lower (or_empty location) in
  let work_mode_lower := lower (or_empty work_mode) in
  let job_text_lower := lower job_text in
  if contains "indonesia" location_lower then "no_restriction"
  else if existsb (String.eqb work_mode_lower) ["remote"; "hybrid"]
          && (contains "indonesia" job_text_lower
              || contains "indonesian" job_text_lower)
  then "no_restriction"
  else if existsb (fun keyword => contains keyword job_text_lower)
            restriction_keywords
  then "explicit_restriction"
  else if truthy_str location
          && negb (existsb (String.eqb location_lower) ["remote"; "unknown"; ""])
  then "may_need_sponsorship"
  else "no_restriction".

(** A value of [visa_guidance]: the triple-quoted block holding the
    [visa_warning] line. *)
Definition guidance_entry (visa_warning : string) : string :=
  let nl := String (ascii_of_nat 10) EmptyString in
  let dq := String (ascii_of_nat 34) EmptyString in
  nl ++ "        " ++ dq ++ "visa_warning" ++ dq ++ ": " ++ dq ++ visa_warning ++ dq
  ++ nl ++ "        ".

(** The [visa_guidance] dict of [evaluate_job_match]. *)
Definition visa_guidance (location : option string) : list (string * string) :=
  [("no_restriction",
    guidance_entry
      "✅ No visa restriction - role is based in Indonesia or open to Indonesian applicants.");
   ("may_need_sponsorship",
    guidance_entry
      ("⚠️ May require visa sponsorship - role is based in "
       ++ (if truthy_str location then or_empty location else "another country")
       ++ ". Confirm sponsorship availability before applying.")%string);
   ("explicit_restriction",
    guidance_entry
      "🚫 Visa restriction detected - role explicitly requires citizenship or work authorization. As an Indonesian citizen, this may disqualify your application.")].

(** [d[k]] on an association list. *)
Fixpoint assoc_get (k : string) (d : list (string * string)) : option string :=
  match d with
  | [] => None
  | (k', v) :: d' => if String.eqb k k' then Some v else assoc_get k d'
  end.

(** [visa_guidance[determine_visa_status(location, work_mode, job_text)]] *)
Definition visa_guidance_for (location work_mode : option string) (job_text : string)
    : M string :=
  getitem (determine_visa_status location work_mode job_text)
    (assoc_get (determine_visa_status location work_mode job_text)
       (visa_guidance location)).

(** ** [fix_latex_escaping] *)

(** One turn of the [for placeholder, latex_escape in replacements.items()]
    loop. *)
Definition replace_if_present (latex_content : string) (pr : string * string)
    : string :=
  let (placeholder, latex_escape) := pr in
  if (0 <? count_str placeholder latex_content)%nat
  then replace_str placeholder latex_escape latex_content
  else latex_content.

Module LlmResumeService.

Definition replacements : list (string * string) :=
  [("__AMP__", " \& "); ("__PCT__", "\% "); ("__HASH__", " \#");
   ("__DOLLAR__", " \$")].

Definition fix_latex_escaping (latex_content : string) : string :=
  let latex_content := replace_str "\__PCT__" "__PCT__" latex_content in
  let latex_content := replace_str "\__AMP__" "__AMP__" latex_content in
  let latex_content := replace_str "\__HASH__" "__HASH__" latex_content in
  let latex_content := replace_str "\__DOLLAR__" "__DOLLAR__" latex_content in
  fold_left replace_if_present replacements latex_content.

End LlmResumeService.

Module LlmCoverLetterService.

Definition replacements : list (string * string) :=
  [("__APOS__", "'"); ("__AMP__", " \& "); ("__PCT__", "\% ");
   ("__HASH__", " \#"); ("__DOLLAR__", " \$")].

Definition fix_latex_escaping (latex_content : string) : string :=
  let latex_content := replace_str "\__APOS__" "__APOS__" latex_content in
  let latex_content := replace_str "\__PCT__" "__PCT__" latex_content in
  let latex_content := replace_str "\__AMP__" "__AMP__" latex_content in
  let latex_content := replace_str "\__HASH__" "__HASH__" latex_content in
  let latex_content := replace_str "\__DOLLAR__" "__DOLLAR__" latex_content in
  fold_left replace_if_present replacements latex_content.

End LlmCoverLetterService.

(** ** [upload_pdf_to_supabase] (services/supabase_upload_service.py) *)

(** [\w] on an ASCII character: a letter, a digit or [_]. *)
Definition is_word_char (c : ascii) : bool :=
  let n := nat_of_ascii c in
  ((48 <=? n)%nat && (n <=? 57)%nat) || ((65 <=? n)%nat && (n <=? 90)%nat)
  || ((97 <=? n)%nat && (n <=? 122)%nat) || (n =? 95)%nat.

Fixpoint string_filter (f : ascii -> bool) (s : string) : string :=
  match s with
  | EmptyString => EmptyString
  | String c s' => if f c then String c (string_filter f s') else string_filter f s'
  end.

(** The nested [sanitize]: strip, spaces to [_], then
    [re.sub(r"[^\w\-]", "", s)]. *)
Definition sanitize (s : string) : string :=
  string_filter (fun c => is_word_char c || Ascii.eqb c "-")
    (replace_str " " "_" (strip s)).

(** [x or default] for an optional string. *)
Definition or_default (o : option string) (default : string) : string :=
  if truthy_str o then or_empty o else default.

(** The object path: [timestamp] is [strftime("%Y%m%d")] and [unique_id]
    [uuid4().hex[:4]]. *)
Definition upload_filename (filename_prefix : string) (position company : option string)
    (timestamp unique_id : string) : string :=
  filename_prefix ++ "_" ++ sanitize (or_default position "role") ++ "_"
  ++ sanitize (or_default company "company") ++ "_" ++ timestamp ++ "_"
  ++ unique_id ++ ".pdf".

(** The parameters of [upload_pdf_to_supabase]. *)
Definition upload_pdf_to_supabase_params : list string :=
  ["pdf_bytes"; "position"; "company"; "filename_prefix"; "bucket_name"].

(** Binding keyword arguments to a function's parameters: [TypeError] on the
    first keyword it does not have. *)
Definition bind_kwargs (fname : string) (params kwargs : list string) : result unit :=
  match find (fun k => negb (existsb (String.eqb k) params)) kwargs with
  | Some k =>
      Err (Exn (OtherError "TypeError")
             (fname ++ "() got an unexpected keyword argument '" ++ k ++ "'"))
  | None => Ok tt
  end.

(** The keywords of the upload calls in [process_job_pipeline]. *)
Definition pipeline_upload_kwargs : list string :=
  ["pdf_bytes"; "position"; "company"; "document_type"].

(** The upload outcomes once the call's arguments are bound. *)
Definition upload_as_called (o : result upload_result) : result upload_result :=
  match bind_kwargs "upload_pdf_to_supabase" upload_pdf_to_supabase_params
          pipeline_upload_kwargs with
  | Err e => Err e
  | Ok _ => o
  end.

Definition with_uploads_as_called (E : env) : env :=
  {| env_lookup := env_lookup E; env_crawl := env_crawl E; env_nav := env_nav E;
     env_normalize := env_normalize E; env_evaluate := env_evaluate E;
     env_tailor_resume := env_tailor_resume E;
     env_compile_resume := env_compile_resume E;
     env_upload_resume := upload_as_called (env_upload_resume E);
     env_tailor_cover_letter := env_tailor_cover_letter E;
     env_compile_cover_letter := env_compile_cover_letter E;
     env_upload_cover_letter := upload_as_called (env_upload_cover_letter E);
     env_save_notion := env_save_notion E |}.

(** ** [save_job_to_notion] (services/notion_service.py) *)

(** [job_data["title"]] as [process_job_pipeline] builds it. *)
Definition notion_title (job_title company_name : string) : string :=
  job_title ++ " @ " ++ company_name.

(** [title.split("@")[-1].strip() if "@" in title else "Unknown"] *)
Definition notion_company (title : string) : string :=
  if contains "@" title then strip (last (split_char "@" title) "") else "Unknown".

(** [title.split("@")[0].strip() if "@" in title else title] *)
Definition notion_job_name (title : string) : string :=
  if contains "@" title then strip (hd "" (split_char "@" title)) else title.

Definition chunk_size : nat := 1900.

(** The rich-text items of the tailored-content code block:
    [tailored_content[i : i + chunk_size]] for [i] in
    [range(0, len(tailored_content), chunk_size)]. *)
Definition content_chunks (tailored_content : string) : list string :=
  map (fun i => slice_len i chunk_size tailored_content)
    (range_step 0 (String.length tailored_content) chunk_size).

(** ** Sample inputs of the services *)

(** A page that [detect_job_unavailable] accepts. *)
Definition sample_markdown : string :=
  "# Data Engineer at Acme. About the role: you will build data pipelines. Responsibilities: ingestion, modelling. Requirements: Python and SQL.".

Definition sample_job_dict : pydict :=
  [("job_title", PStr "Data Engineer"); ("company_name", PStr "Acme");
   ("location", PStr "Jakarta, Indonesia");
   ("job_description", PStr "Build and run data pipelines.")].

(** [json.loads] on the two documents the samples use; anything else is
    rejected. *)
Definition sample_loads (s : string) : result pyval :=
  if String.eqb s "job" then Ok (PDict sample_job_dict)
  else if String.eqb s "42" then Ok (PInt 42)
  else Err (Exn (OtherError "JSONDecodeError") "Expecting value: line 1 column 1 (char 0)").

Definition sample_repr (v : pyval) : string := py_type_name v.

Definition sample_crawl (markdown : option string) (extracted : pyval) : Crawl4aiService.crawl_result :=
  {| Crawl4aiService.cr_success := true; Crawl4aiService.cr_error_message := None;
     Crawl4aiService.cr_markdown := markdown;
     Crawl4aiService.cr_extracted_content := extracted;
     Crawl4aiService.cr_metadata := Some [("title", PStr "Data Engineer - Acme")] |}.

Fixpoint str_repeat (n : nat) (s : string) : string :=
  match n with O => EmptyString | S n' => s ++ str_repeat n' s end.

(** A tailored LaTeX document longer than one chunk. *)
Definition sample_latex : string :=
  str_repeat 60 "\item Built streaming pipelines in Python. ".

(** ** Character classes *)

Fixpoint all_chars (f : ascii -> bool) (s : string) : bool :=
  match s with
  | EmptyString => true
  | String c s' => f c && all_chars f s'
  end.

Definition ascii_text (s : string) : bool :=
  all_chars (fun c => (nat_of_ascii c <? 128)%nat) s.

(** [c] is one of the characters of [p]. *)
Definition char_in (c : ascii) (p : string) : bool :=
  existsb (Ascii.eqb c) (list_ascii_of_string p).

(** No character of [r] occurs in [p]. *)
Definition no_char_of (p r : string) : bool :=
  forallb (fun c => negb (char_in c p)) (list_ascii_of_string r).

(** Every placeholder in [ps] is non-empty, and every replacement of [l]
    is non-empty and shares no character with any of them. *)
Definition separated (ps : list string) (l : list (string * string)) : bool :=
  forallb (fun p => negb (String.eqb p "")) ps &&
  forallb (fun pr => negb (String.eqb (snd pr) "") &&
                     forallb (fun p => no_char_of p (snd pr)) ps) l.

Definition sample_cover_letter_tex : string :=
  "\documentclass{letter} \begin{document} Dear hiring team, \end{document}".

(** * Properties *)

(** ** The writer/exception monad *)

Lemma bind_eq {A B} (m : M A) (k : A -> M B) :
  bind m k =
    match fst m with
    | Ok a => (fst (k a), snd m ++ snd (k a))
    | Err e => (Err e, snd m)
    end.
Proof. destruct m as [[a|e] t]; simpl; [destruct (k a)|]; reflexivity. Qed.

Lemma try_except_eq {A} (m : M A) (h : exn -> M A) :
  try_except m h =
    match fst m with
    | Ok a => (Ok a, snd m)
    | Err e => (fst (h e), snd m ++ snd (h e))
    end.
Proof. destruct m as [[a|e] t]; simpl; [|destruct (h e)]; reflexivity. Qed.

Lemma update_state_bind {A} s p (k : unit -> M A) :
  bind (update_state s p) k = (fst (k tt), UpdateState s p :: snd (k tt)).
Proof. rewrite bind_eq. reflexivity. Qed.

Lemma no_report_bind {A} s p (k : unit -> M A) :
  bind (no_report s p) k = k tt.
Proof. rewrite bind_eq. simpl. destruct (k tt); reflexivity. Qed.

(** ** Extraction *)

Lemma fast_path_trace E url :
  snd (crawl4ai_fast_path E url) = [Call Crawl4aiExtract].
Proof.
  unfold crawl4ai_fast_path. rewrite bind_eq. simpl.
  destruct (env_crawl E url) as [j|e]; simpl; [|reflexivity].
  destruct (_ || _); reflexivity.
Qed.

(** What [extract_job_data] does once the fast path has raised [e]. *)
Lemma extract_after_fast_error E url e :
  fst (crawl4ai_fast_path E url) = Err e ->
  extract_job_data E url false =
    match exn_cls e with
    | JobUnavailableError | VisaRestrictedError => (Err e, [Call Crawl4aiExtract])
    | _ =>
        if should_attempt_fallback e
        then (fst (playwright_path E url),
              Call Crawl4aiExtract :: snd (playwright_path E url))
        else (Err e, [Call Crawl4aiExtract])
    end.
Proof.
  intros H. unfold extract_job_data. rewrite try_except_eq, H, fast_path_trace.
  destruct (exn_cls e); simpl; try reflexivity;
    destruct (should_attempt_fallback e); reflexivity.
Qed.

Lemma fast_path_err_of_crawl E url e :
  env_crawl E url = Err e -> fst (crawl4ai_fast_path E url) = Err e.
Proof. intros H. unfold crawl4ai_fast_path. rewrite bind_eq. simpl. now rewrite H. Qed.

(** ** The duplicate check never raises *)

Lemma check_if_job_exists_total lk :
  exists d, fst (check_if_job_exists lk) = Ok d /\
    (snd (check_if_job_exists lk) = [] \/
     snd (check_if_job_exists lk) = [Call NotionQuery]).
Proof.
  destruct lk as [|e|code text body]; simpl; eauto.
  destruct (code =? 200); simpl; eauto.
  destruct body as [e|[|[e|pt ct pu pid] rest]]; simpl; eauto.
Qed.

(** ** The task wrapper *)

Lemma process_job_task_eq E url f :
  process_job_task E url f =
    (match fst (process_job_pipeline E url f) with
     | Ok r => SUCCESS r
     | Err e => FAILURE e
     end,
     UpdateState "starting" 0 :: snd (process_job_pipeline E url f)).
Proof.
  unfold process_job_task. rewrite update_state_bind.
  destruct (process_job_pipeline E url f) as [[r|e] t]; reflexivity.
Qed.

(** The pipeline after a duplicate check that found nothing. *)
Lemma pipeline_not_duplicate E url f :
  (exists d, fst (check_if_job_exists (env_lookup E)) = Ok d /\ exists_ d = false
     /\ process_job_pipeline E url f =
        (fst (extraction_stage update_state E url f),
         UpdateState "duplicate_check" 10 :: snd (check_if_job_exists (env_lookup E))
           ++ snd (extraction_stage update_state E url f)))
  \/
  (exists r, process_job_pipeline E url f =
     (Ok r, UpdateState "duplicate_check" 10 :: snd (check_if_job_exists (env_lookup E)))).
Proof.
  unfold process_job_pipeline, pipeline. rewrite update_state_bind, bind_eq.
  destruct (check_if_job_exists_total (env_lookup E)) as (d & Hd & _).
  rewrite Hd. destruct (exists_ d) eqn:Ex.
  - right. eexists. simpl. rewrite app_nil_r. reflexivity.
  - left. exists d. auto.
Qed.

(** The extraction stage, by the outcome of [extract_job_data]. *)
Lemma extraction_stage_eq report E url f :
  (forall s p, fst (report s p) = Ok tt) ->
  extraction_stage report E url f =
    (match fst (extract_job_data E url f) with
     | Ok n => fst (after_extraction report E n)
     | Err e =>
         match exn_cls e with
         | JobUnavailableError => Ok (RUnavailable url (exn_msg e))
         | VisaRestrictedError => Ok (RVisaRestricted url (exn_msg e))
         | _ => Err e
         end
     end,
     snd (report "extracting" 20) ++ snd (extract_job_data E url f) ++
     match fst (extract_job_data E url f) with
     | Ok n => snd (after_extraction report E n)
     | Err _ => []
     end).
Proof.
  intros Hrep. unfold extraction_stage. rewrite bind_eq, Hrep.
  rewrite bind_eq, try_except_eq, bind_eq.
  destruct (extract_job_data E url f) as [[n|e] t]; simpl.
  - rewrite app_nil_r. reflexivity.
  - destruct (exn_cls e); simpl; rewrite ?app_nil_r; reflexivity.
Qed.

Lemma snd_bind_prefix {A B} (m : M A) (k : A -> M B) :
  exists t, snd (bind m k) = snd m ++ t.
Proof.
  rewrite bind_eq. destruct (fst m); simpl; eexists; [reflexivity|].
  rewrite app_nil_r. reflexivity.
Qed.

Lemma snd_try_prefix {A} (m : M A) (h : exn -> M A) :
  exists t, snd (try_except m h) = snd m ++ t.
Proof.
  rewrite try_except_eq. destruct (fst m); simpl; eexists; [|reflexivity].
  rewrite app_nil_r. reflexivity.
Qed.

Lemma scrape_loop_first nav url a r le :
  exists t, snd (scrape_loop nav url a (S r) le) = Call (PlaywrightNavigate a) :: t.
Proof. cbn [scrape_loop]. rewrite bind_eq. eexists. reflexivity. Qed.

Lemma starts_bind {A B} ev (m : M A) (k : A -> M B) :
  (exists t, snd m = ev :: t) -> exists t, snd (bind m k) = ev :: t.
Proof.
  intros [t Ht]. destruct (snd_bind_prefix m k) as [t' ->]. rewrite Ht.
  eexists. reflexivity.
Qed.

Lemma starts_try {A} ev (m : M A) (h : exn -> M A) :
  (exists t, snd m = ev :: t) -> exists t, snd (try_except m h) = ev :: t.
Proof.
  intros [t Ht]. destruct (snd_try_prefix m h) as [t' ->]. rewrite Ht.
  eexists. reflexivity.
Qed.

(** The slow path always starts with the first navigation attempt. *)
Lemma playwright_path_first E url :
  exists t, snd (playwright_path E url) = Call (PlaywrightNavigate 0) :: t.
Proof.
  unfold playwright_path. apply starts_try, starts_bind, starts_try.
  apply scrape_loop_first.
Qed.

Lemma should_attempt_fallback_spec e :
  should_attempt_fallback e = true <->
  (exists pattern, In pattern fallback_patterns
                   /\ contains pattern (lower (exn_msg e)) = true)
  \/ In (type_name (exn_cls e)) retriable_errors.
Proof.
  unfold should_attempt_fallback.
  destruct (existsb (fun pattern => contains pattern (lower (exn_msg e)))
              fallback_patterns) eqn:Hp.
  - split; [intros _; left; apply existsb_exists; exact Hp|reflexivity].
  - destruct (existsb (String.eqb (type_name (exn_cls e))) retriable_errors) eqn:Ht.
    + split; [intros _; right|reflexivity].
      apply existsb_exists in Ht as (x & Hx & Heq).
      apply String.eqb_eq in Heq. subst. exact Hx.
    + split; [discriminate|]. intros [H|H].
      * apply existsb_exists in H. congruence.
      * assert (existsb (String.eqb (type_name (exn_cls e))) retriable_errors = true)
          by (apply existsb_exists; exists (type_name (exn_cls e));
              split; [exact H| apply String.eqb_refl]).
        congruence.
Qed.

(** ** C1 *)

(** C1: when the fast path raises a business outcome ([JobUnavailableError]
    or [VisaRestrictedError]) and [force_playwright] is false,
    [extract_job_data] re-raises that very exception after the single fast
    path call, with no fallback call; and a task run that reached the fast
    path ends in [SUCCESS] with status ["unavailable"], resp.
    ["visa_restricted"]. *)
Theorem business_outcome_no_fallback E url e :
  env_crawl E url = Err e ->
  exn_cls e = JobUnavailableError \/ exn_cls e = VisaRestrictedError ->
  extract_job_data E url false = (Err e, [Call Crawl4aiExtract]) /\
  (In (Call Crawl4aiExtract) (snd (process_job_task E url false)) ->
   exists r, fst (process_job_task E url false) = SUCCESS r /\
     status r = match exn_cls e with
                | JobUnavailableError => "unavailable"
                | _ => "visa_restricted"
                end).
Proof.
  intros Hc Hb.
  pose proof (extract_after_fast_error _ _ _ (fast_path_err_of_crawl _ _ _ Hc)) as Hx.
  assert (Hext : extract_job_data E url false = (Err e, [Call Crawl4aiExtract]))
    by (rewrite Hx; destruct Hb as [Hb|Hb]; rewrite Hb; reflexivity).
  split; [exact Hext|]. intros Hin.
  rewrite process_job_task_eq in *. simpl in Hin.
  destruct (pipeline_not_duplicate E url false) as [(d & Hd & Hex & Hp) | (r & Hp)].
  - rewrite Hp. rewrite extraction_stage_eq by (intros; reflexivity).
    rewrite Hext. simpl. destruct Hb as [Hb|Hb]; rewrite Hb; eexists; split; reflexivity.
  - rewrite Hp in Hin. simpl in Hin.
    destruct (check_if_job_exists_total (env_lookup E)) as (d & _ & [Ht|Ht]);
      rewrite Ht in Hin; simpl in Hin; intuition discriminate.
Qed.

(** ** C2 *)

(** C2: for every error [e] other than a business outcome raised by the fast
    path, [extract_job_data] runs the slow path (once) if
    [_should_attempt_fallback e] holds and otherwise re-raises [e] with no
    fallback; the slow path is entered iff the predicate holds; and the
    predicate holds iff the lower-cased message contains one of the listed
    patterns or the class name is one of the listed retriable ones. *)
Theorem fallback_iff_recoverable E url e :
  fst (crawl4ai_fast_path E url) = Err e ->
  exn_cls e <> JobUnavailableError -> exn_cls e <> VisaRestrictedError ->
  (should_attempt_fallback e = true ->
     extract_job_data E url false =
       (fst (playwright_path E url),
        Call Crawl4aiExtract :: snd (playwright_path E url))) /\
  (should_attempt_fallback e = false ->
     extract_job_data E url false = (Err e, [Call Crawl4aiExtract])) /\
  (In (Call (PlaywrightNavigate 0)) (snd (extract_job_data E url false)) <->
     should_attempt_fallback e = true) /\
  (should_attempt_fallback e = true <->
     (exists pattern, In pattern fallback_patterns
                      /\ contains pattern (lower (exn_msg e)) = true)
     \/ In (type_name (exn_cls e)) retriable_errors).
Proof.
  intros Hf Hju Hvr.
  pose proof (extract_after_fast_error _ _ _ Hf) as Hx.
  assert (Hx' : extract_job_data E url false =
                if should_attempt_fallback e
                then (fst (playwright_path E url),
                      Call Crawl4aiExtract :: snd (playwright_path E url))
                else (Err e, [Call Crawl4aiExtract]))
    by (rewrite Hx; destruct (exn_cls e); congruence).
  split; [|split; [|split]].
  - intros H. rewrite Hx', H. reflexivity.
  - intros H. rewrite Hx', H. reflexivity.
  - rewrite Hx'. destruct (should_attempt_fallback e); simpl.
    + split; [reflexivity|intros _].
      destruct (playwright_path_first E url) as [t ->]. simpl. auto.
    + split; [|discriminate]. intros [H|[]]. discriminate.
  - apply should_attempt_fallback_spec.
Qed.

(** ** The Playwright scraper *)

Lemma detect_false_none text title r :
  detect_unavailable_in_text text title = (false, r) -> r = None.
Proof.
  unfold detect_unavailable_in_text. cbv zeta.
  destruct (_ || _); [discriminate|].
  destruct (scan_patterns _ _ _ _); [discriminate|].
  destruct (_ && _); congruence.
Qed.

(** One loop iteration: the navigation call, then either the end of the
    scrape or the next iteration. *)
Lemma scrape_step nav url a r le :
  exists rest, snd (scrape_loop nav url a (S r) le) = Call (PlaywrightNavigate a) :: rest
    /\ (rest = [] \/ exists le', rest = snd (scrape_loop nav url (S a) r le')).
Proof.
  cbn [scrape_loop]. rewrite bind_eq. simpl. eexists; split; [reflexivity|].
  destruct (nav a) as [e|e|[s|] text title]; simpl;
    repeat match goal with
           | |- context [match ?x with _ => _ end] => destruct x
           end; simpl; first [left; reflexivity | right; eexists; reflexivity].
Qed.

(** The scrape makes at most [r] navigation attempts and nothing else. *)
Lemma scrape_loop_navigations nav url : forall r a le,
  (length (snd (scrape_loop nav url a r le)) <= r)%nat /\
  forallb is_navigation (snd (scrape_loop nav url a r le)) = true.
Proof.
  induction r as [|r IH]; intros a le; [simpl; split; [lia|reflexivity]|].
  destruct (scrape_step nav url a r le) as (rest & -> & [->|(le' & ->)]).
  - simpl. split; [lia|reflexivity].
  - destruct (IH (S a) le') as [H1 H2]. simpl. rewrite H2. split; [lia|reflexivity].
Qed.

(** A page handed back by the scrape has passed the availability check. *)
Lemma scrape_loop_ok nav url : forall r a le raw,
  fst (scrape_loop nav url a r le) = Ok raw ->
  detect_unavailable_in_text (raw_text raw) (raw_title raw) = (false, None).
Proof.
  induction r as [|r IH]; intros a le raw H; [discriminate|].
  cbn [scrape_loop] in H. rewrite bind_eq in H. simpl in H.
  destruct (nav a) as [e|e|[s|] text title]; simpl in H;
    repeat match goal with
           | H : context [match ?x with _ => _ end] |- _ =>
               let Hx := fresh "Hx" in destruct x eqn:Hx
           end; simpl in H; try discriminate; try (eapply IH; exact H).
  all: injection H as <-; simpl; subst;
       match goal with
       | Hd : detect_unavailable_in_text _ _ = (false, ?r) |- _ =>
           rewrite Hd; f_equal; exact (detect_false_none _ _ _ Hd)
       end.
Qed.

(** The availability check raises at the attempt that loads an unavailable
    page. *)
Lemma scrape_loop_detects nav url a r le status text title reason :
  nav a = NavLoaded status text title ->
  match status with Some s => s < 400 | None => True end ->
  detect_unavailable_in_text text title = (true, reason) ->
  scrape_loop nav url a (S r) le =
    (Err (Exn PwJobUnavailableError (str_opt reason)), [Call (PlaywrightNavigate a)]).
Proof.
  intros Hn Hs Hd. cbn [scrape_loop]. rewrite bind_eq. simpl. rewrite Hn.
  destruct status as [s|]; simpl.
  - replace (400 <=? s) with false by lia. rewrite Hd. reflexivity.
  - rewrite Hd. reflexivity.
Qed.

(** ** The slow path *)

Lemma playwright_path_eq E url :
  playwright_path E url =
    (match fst (playwright_scrape_job (env_nav E) url) with
     | Ok raw =>
         match env_normalize E raw with
         | Ok n => Ok (with_method "playwright+llm" n)
         | Err e =>
             match exn_cls e with
             | JobUnavailableError => Err e
             | _ => Err (Exception_ ("Playwright extraction failed: " ++ exn_msg e))
             end
         end
     | Err e =>
         match exn_cls e with
         | PwJobUnavailableError => Err (Exn JobUnavailableError (exn_msg e))
         | JobUnavailableError => Err e
         | _ => Err (Exception_ ("Playwright extraction failed: " ++ exn_msg e))
         end
     end,
     snd (playwright_scrape_job (env_nav E) url) ++
     match fst (playwright_scrape_job (env_nav E) url) with
     | Ok _ => [Call LlmNormalizeJobData]
     | Err _ => []
     end).
Proof.
  unfold playwright_path. rewrite try_except_eq, bind_eq, try_except_eq.
  destruct (playwright_scrape_job (env_nav E) url) as [[raw|e] t]; simpl.
  - destruct (env_normalize E raw) as [n|e]; simpl.
    + reflexivity.
    + destruct (exn_cls e) eqn:Hc; simpl; rewrite ?Hc; simpl;
        rewrite ?app_nil_r, <- ?app_assoc; reflexivity.
  - destruct (exn_cls e) eqn:Hc; simpl; rewrite ?Hc; simpl;
      rewrite ?app_nil_r; reflexivity.
Qed.

(** Errors of the slow path: the unavailable signal or a plain
    [Exception]. *)
Lemma playwright_path_errors E url e :
  fst (playwright_path E url) = Err e ->
  exn_cls e = JobUnavailableError \/ exn_cls e = OtherError "Exception".
Proof.
  rewrite playwright_path_eq. simpl.
  destruct (fst (playwright_scrape_job (env_nav E) url)) as [raw|e0].
  - destruct (env_normalize E raw) as [n|e1]; [discriminate|].
    destruct (exn_cls e1) eqn:Hc; intros H; injection H as <-; simpl; auto.
  - destruct (exn_cls e0) eqn:Hc; intros H; injection H as <-; simpl; auto.
Qed.

Lemma navigations_only t :
  forallb is_navigation t = true ->
  filter is_navigation t = t /\ filter is_normalization t = [].
Proof.
  induction t as [|ev t IH]; simpl; [auto|].
  intros H. apply andb_true_iff in H as [H1 H2].
  destruct ev as [c|s p]; [|discriminate].
  destruct c; try discriminate. simpl.
  destruct (IH H2) as [-> ->]. auto.
Qed.

(** A run that reached the fast path ends in the state the extraction stage
    gives. *)
Lemma task_after_fast_path E url :
  In (Call Crawl4aiExtract) (snd (process_job_task E url false)) ->
  fst (process_job_task E url false) =
    match fst (extraction_stage update_state E url false) with
    | Ok r => SUCCESS r
    | Err e => FAILURE e
    end.
Proof.
  intros Hin. rewrite process_job_task_eq in *. simpl in Hin.
  destruct (pipeline_not_duplicate E url false) as [(d & Hd & Hex & Hp) | (r & Hp)].
  - rewrite Hp. reflexivity.
  - rewrite Hp in Hin. simpl in Hin.
    destruct (check_if_job_exists_total (env_lookup E)) as (d & _ & [Ht|Ht]);
      rewrite Ht in Hin; simpl in Hin; intuition discriminate.
Qed.

(** ** C3 *)

(** C3 (counterexample): after a recoverable fast-path failure
    ([net::ERR_CONNECTION_RESET]) the slow path is not tried only once: the
    scraper inside it navigates three times (each answering HTTP 503)
    before the task fails. *)
Lemma fallback_scrape_retried :
  snd (extract_job_data (sample_env (Err crawl_connection_reset) nav_503 85
                           (Ok sample_doc) (Ok "page-1")) sample_url false) =
    [Call Crawl4aiExtract; Call (PlaywrightNavigate 0);
     Call (PlaywrightNavigate 1); Call (PlaywrightNavigate 2)] /\
  fst (process_job_task (sample_env (Err crawl_connection_reset) nav_503 85
                           (Ok sample_doc) (Ok "page-1")) sample_url false) =
    FAILURE (Exception_ "Playwright extraction failed: Scraping failed after 3 attempts: HTTP 503").
Proof. split; vm_compute; reflexivity. Qed.

(** C3 (amended): after a recoverable fast-path failure, [extract_job_data]
    enters [_playwright_path] exactly once (its trace is the fast path call
    followed by one run of the slow path); inside it the scraper makes at
    most [max_retries] = 3 navigation attempts and normalization runs at most
    once; the slow path fails only with the unavailable signal or a plain
    [Exception], and a technical failure of it makes a task that reached the
    fast path end in [FAILURE]. *)
Theorem fallback_single_invocation E url e :
  fst (crawl4ai_fast_path E url) = Err e ->
  exn_cls e <> JobUnavailableError -> exn_cls e <> VisaRestrictedError ->
  should_attempt_fallback e = true ->
  snd (extract_job_data E url false) = Call Crawl4aiExtract :: snd (playwright_path E url) /\
  (length (filter is_navigation (snd (extract_job_data E url false))) <= max_retries)%nat /\
  (length (filter is_normalization (snd (extract_job_data E url false))) <= 1)%nat /\
  (forall e', fst (playwright_path E url) = Err e' ->
     (exn_cls e' = JobUnavailableError \/ exn_cls e' = OtherError "Exception") /\
     (exn_cls e' <> JobUnavailableError ->
      In (Call Crawl4aiExtract) (snd (process_job_task E url false)) ->
      fst (process_job_task E url false) = FAILURE e')).
Proof.
  intros Hf Hju Hvr Hs.
  destruct (fallback_iff_recoverable E url e Hf Hju Hvr) as [Hx _].
  specialize (Hx Hs).
  pose proof (scrape_loop_navigations (env_nav E) url max_retries 0 None) as [Hlen Hnav].
  change (scrape_loop (env_nav E) url 0 max_retries None)
    with (playwright_scrape_job (env_nav E) url) in Hlen, Hnav.
  destruct (navigations_only _ Hnav) as [Hn1 Hn2].
  assert (Htr : snd (playwright_path E url) =
                snd (playwright_scrape_job (env_nav E) url) ++
                match fst (playwright_scrape_job (env_nav E) url) with
                | Ok _ => [Call LlmNormalizeJobData]
                | Err _ => []
                end) by (rewrite playwright_path_eq; reflexivity).
  rewrite Hx. simpl. split; [reflexivity|].
  rewrite Htr, !filter_app, Hn1, Hn2.
  split; [|split].
  - destruct (fst (playwright_scrape_job (env_nav E) url)); simpl;
      rewrite ?app_nil_r, ?length_app; simpl; lia.
  - destruct (fst (playwright_scrape_job (env_nav E) url)); simpl; lia.
  - intros e' He'. split; [exact (playwright_path_errors E url e' He')|].
    intros Hnju Hin. rewrite (task_after_fast_path E url Hin).
    rewrite extraction_stage_eq by (intros; reflexivity).
    rewrite Hx. simpl. rewrite He'.
    destruct (playwright_path_errors E url e' He') as [H|H]; [contradiction|].
    rewrite H. reflexivity.
Qed.

(** ** C8 *)

(** C8: the slow path calls the normalization collaborator only after the
    scrape returned, and the scrape returns only pages that passed
    [detect_unavailable_in_text] on their raw text and title; the attempt
    that loads a page the check flags raises the scraper's unavailable
    error at once, which [_playwright_path] turns into [JobUnavailableError]
    with no normalization call. *)
Theorem slow_path_checks_before_normalizing E url :
  snd (playwright_path E url) =
    snd (playwright_scrape_job (env_nav E) url) ++
    match fst (playwright_scrape_job (env_nav E) url) with
    | Ok _ => [Call LlmNormalizeJobData]
    | Err _ => []
    end /\
  forallb is_navigation (snd (playwright_scrape_job (env_nav E) url)) = true /\
  (forall raw, fst (playwright_scrape_job (env_nav E) url) = Ok raw ->
     detect_unavailable_in_text (raw_text raw) (raw_title raw) = (false, None)) /\
  (forall a r le status text title reason,
     env_nav E a = NavLoaded status text title ->
     match status with Some s => s < 400 | None => True end ->
     detect_unavailable_in_text text title = (true, reason) ->
     scrape_loop (env_nav E) url a (S r) le =
       (Err (Exn PwJobUnavailableError (str_opt reason)), [Call (PlaywrightNavigate a)])) /\
  (forall e, fst (playwright_scrape_job (env_nav E) url) = Err e ->
     exn_cls e = PwJobUnavailableError ->
     fst (playwright_path E url) = Err (Exn JobUnavailableError (exn_msg e)) /\
     ~ In (Call LlmNormalizeJobData) (snd (playwright_path E url))).
Proof.
  pose proof (scrape_loop_navigations (env_nav E) url max_retries 0 None) as [_ Hnav].
  change (scrape_loop (env_nav E) url 0 max_retries None)
    with (playwright_scrape_job (env_nav E) url) in Hnav.
  split; [rewrite playwright_path_eq; reflexivity|].
  split; [exact Hnav|]. split; [|split].
  - intros raw H. exact (scrape_loop_ok _ _ _ _ _ _ H).
  - intros a r le status text title reason H1 H2 H3.
    exact (scrape_loop_detects _ _ _ _ _ _ _ _ _ H1 H2 H3).
  - intros e He Hc. rewrite playwright_path_eq. simpl. rewrite He, Hc.
    split; [reflexivity|]. rewrite app_nil_r. intros Hin.
    destruct (navigations_only _ Hnav) as [_ Hn2].
    assert (In (Call LlmNormalizeJobData)
              (filter is_normalization (snd (playwright_scrape_job (env_nav E) url))))
      by (apply filter_In; auto).
    rewrite Hn2 in H. exact H.
Qed.

(** ** Structure of a pipeline run *)

Lemma forallb_impl {A} (P Q : A -> bool) l :
  (forall x, P x = true -> Q x = true) -> forallb P l = true -> forallb Q l = true.
Proof.
  intros H. induction l as [|x l IH]; simpl; auto.
  intros Hx. apply andb_true_iff in Hx as [H1 H2]. rewrite (H x H1), IH; auto.
Qed.

Lemma forallb_not_In {A} (P : A -> bool) l x :
  forallb P l = true -> P x = false -> ~ In x l.
Proof.
  intros H Hx Hin. rewrite forallb_forall in H. rewrite (H x Hin) in Hx. discriminate.
Qed.

Lemma extract_job_data_calls E url f :
  forallb is_extraction_call (snd (extract_job_data E url f)) = true.
Proof.
  assert (Hpp : forallb is_extraction_call (snd (playwright_path E url)) = true).
  { destruct (slow_path_checks_before_normalizing E url) as [Ht [Hn _]].
    rewrite Ht, forallb_app.
    rewrite (forallb_impl is_navigation is_extraction_call); [|intros [[]|] ?; auto; discriminate|exact Hn].
    destruct (fst (playwright_scrape_job (env_nav E) url)); reflexivity. }
  destruct f; [exact Hpp|].
  destruct (fst (crawl4ai_fast_path E url)) as [n|e] eqn:Hf.
  - unfold extract_job_data. rewrite try_except_eq, Hf, fast_path_trace. reflexivity.
  - rewrite (extract_after_fast_error E url e Hf).
    destruct (exn_cls e); try reflexivity; destruct (should_attempt_fallback e); simpl; auto.
Qed.

Lemma check_if_job_exists_calls lk :
  forallb is_extraction_call (snd (check_if_job_exists lk)) = true.
Proof.
  destruct (check_if_job_exists_total lk) as (d & _ & [-> | ->]); reflexivity.
Qed.

(** A pipeline run ends at the duplicate check, ends with the extraction,
    or goes on with Stage 3 on the extracted job. *)
Lemma pipeline_cases E url f :
  exists t1 t2,
    forallb is_extraction_call (t1 ++ t2) = true /\
    ((exists r, process_job_pipeline E url f = (r, UpdateState "duplicate_check" 10 :: t1)
                /\ forall s, r <> Ok (RSuccess s)) \/
     (exists r, process_job_pipeline E url f =
                  (r, UpdateState "duplicate_check" 10 :: t1
                        ++ UpdateState "extracting" 20 :: t2)
                /\ forall s, r <> Ok (RSuccess s)) \/
     (exists n, fst (extract_job_data E url f) = Ok n /\
        process_job_pipeline E url f =
          (fst (after_extraction update_state E n),
           UpdateState "duplicate_check" 10 :: t1
             ++ UpdateState "extracting" 20 :: t2
             ++ snd (after_extraction update_state E n)))).
Proof.
  exists (snd (check_if_job_exists (env_lookup E))), (snd (extract_job_data E url f)).
  split.
  { rewrite forallb_app, check_if_job_exists_calls, extract_job_data_calls. reflexivity. }
  destruct (pipeline_not_duplicate E url f) as [(d & Hd & Hex & Hp) | (r & Hp)].
  - rewrite Hp. rewrite extraction_stage_eq by (intros; reflexivity).
    destruct (fst (extract_job_data E url f)) as [n|e] eqn:Hx.
    + right; right. exists n. split; [reflexivity|]. reflexivity.
    + right; left. eexists. split; [simpl; rewrite app_nil_r; reflexivity|].
      intros s. destruct (exn_cls e); discriminate.
  - left. exists (Ok r). split; [exact Hp|].
    revert Hp. unfold process_job_pipeline, pipeline. rewrite update_state_bind, bind_eq.
    destruct (check_if_job_exists_total (env_lookup E)) as (d & Hd & _). rewrite Hd.
    destruct (exists_ d); simpl.
    + intros H s. injection H as <- _. discriminate.
    + intros H. exfalso.
      rewrite extraction_stage_eq in H by (intros; reflexivity).
      injection H as _ Ht. simpl in Ht.
      apply (f_equal (@length event)) in Ht. rewrite !length_app in Ht. simpl in Ht. lia.
Qed.

Lemma after_extraction_eq E n :
  after_extraction update_state E n =
    match job_description n with
    | None => (Err (Exn (OtherError "KeyError") "'job_description'"),
               [UpdateState "evaluating" 35])
    | Some _ =>
        match env_evaluate E with
        | Err e => (Err e, [UpdateState "evaluating" 35; Call EvaluateJobMatch])
        | Ok ev =>
            match fst (tailoring update_state E (score_of ev)) with
            | Ok docs =>
                (fst (persistence_stage update_state E n (score_of ev) docs),
                 UpdateState "evaluating" 35 :: Call EvaluateJobMatch
                   :: snd (tailoring update_state E (score_of ev))
                   ++ snd (persistence_stage update_state E n (score_of ev) docs))
            | Err e =>
                (Err e, UpdateState "evaluating" 35 :: Call EvaluateJobMatch
                          :: snd (tailoring update_state E (score_of ev)))
            end
        end
    end.
Proof.
  unfold after_extraction. rewrite update_state_bind. cbv beta. rewrite bind_eq.
  destruct (job_description n) as [jd|]; [|reflexivity].
  unfold getitem, call. cbn [fst snd]. rewrite !bind_eq. cbn [fst snd emit].
  destruct (env_evaluate E) as [ev|e]; [|reflexivity].
  cbn [fst snd raise ret app]. rewrite bind_eq.
  destruct (fst (tailoring update_state E (score_of ev))); reflexivity.
Qed.

Ltac unfold_monad :=
  unfold bind, try_except, call, getitem, update_state, emit, ret, raise; cbn.

Lemma resume_stage_cases E :
  (exists e, env_tailor_resume E = Err e /\
     resume_stage update_state E =
       (Ok (None, None), [UpdateState "tailoring_resume" 45; Call TailorResume])) \/
  (exists d u t, env_tailor_resume E = Ok d /\
     resume_stage update_state E =
       (Ok (Some d, u), UpdateState "tailoring_resume" 45 :: Call TailorResume
                          :: UpdateState "compiling_resume_pdf" 55 :: t) /\
     forallb is_tailoring_call t = true /\
     (forall e, env_compile_resume E = Err e \/ env_upload_resume E = Err e -> u = None)).
Proof.
  unfold resume_stage.
  destruct (env_tailor_resume E) as [d|e] eqn:Ht; [right|left].
  - exists d.
    unfold_monad.
    destruct (tailored_content d); cbn;
      [destruct (env_compile_resume E) eqn:Hc; cbn;
       [destruct (env_upload_resume E) as [up|] eqn:Hu; cbn;
        [destruct (public_url up); cbn|]|]|];
      eexists _, _; (split; [reflexivity|]); (split; [reflexivity|]); (split; [reflexivity|]);
      intros ? [?|?]; congruence.
  - exists e. split; [reflexivity|]. unfold_monad. reflexivity.
Qed.

Lemma cover_letter_stage_cases E :
  (exists e, env_tailor_cover_letter E = Err e /\
     cover_letter_stage update_state E =
       (Ok (None, None), [UpdateState "tailoring_cover_letter" 65; Call TailorCoverLetter])) \/
  (exists d u t, env_tailor_cover_letter E = Ok d /\
     cover_letter_stage update_state E =
       (Ok (Some d, u), UpdateState "tailoring_cover_letter" 65 :: Call TailorCoverLetter
                          :: UpdateState "compiling_cover_letter_pdf" 75 :: t) /\
     forallb is_tailoring_call t = true /\
     (forall e, env_compile_cover_letter E = Err e \/ env_upload_cover_letter E = Err e ->
                u = None)).
Proof.
  unfold cover_letter_stage.
  destruct (env_tailor_cover_letter E) as [d|e] eqn:Ht; [right|left].
  - exists d.
    unfold_monad.
    destruct (tailored_content d); cbn;
      [destruct (env_compile_cover_letter E) eqn:Hc; cbn;
       [destruct (env_upload_cover_letter E) as [up|] eqn:Hu; cbn;
        [destruct (public_url up); cbn|]|]|];
      eexists _, _; (split; [reflexivity|]); (split; [reflexivity|]); (split; [reflexivity|]);
      intros ? [?|?]; congruence.
  - exists e. split; [reflexivity|]. unfold_monad. reflexivity.
Qed.

Lemma tailoring_le70 E s :
  s <= 70 -> tailoring update_state E s = (Ok ((None, None), (None, None)), []).
Proof.
  intros H. unfold tailoring. replace (70 <? s) with false by (symmetry; apply Z.ltb_ge; lia).
  reflexivity.
Qed.

Lemma tailoring_gt70 E s :
  70 < s ->
  exists r c, fst (resume_stage update_state E) = Ok r /\
              fst (cover_letter_stage update_state E) = Ok c /\
              tailoring update_state E s =
                (Ok (r, c), snd (resume_stage update_state E)
                              ++ snd (cover_letter_stage update_state E)).
Proof.
  intros H. unfold tailoring. replace (70 <? s) with true by (symmetry; apply Z.ltb_lt; lia).
  destruct (resume_stage_cases E) as [(e & _ & Hr) | (d & u & t & _ & Hr & _)];
  destruct (cover_letter_stage_cases E) as [(e' & _ & Hc) | (d' & u' & t' & _ & Hc & _)];
  rewrite Hr, Hc; do 2 eexists; (split; [reflexivity|]); (split; [reflexivity|]);
  unfold_monad; rewrite ?app_nil_r; reflexivity.
Qed.

Lemma persistence_cases E n s rd ru cd cu :
  (exists e, persistence_stage update_state E n s ((rd, ru), (cd, cu)) =
               (Err e, [UpdateState "saving_to_notion" 85]) /\
             exn_cls e = OtherError "KeyError") \/
  persistence_stage update_state E n s ((rd, ru), (cd, cu)) =
    match env_save_notion E with
    | Ok nr => (Ok (RSuccess (build_success n nr s rd ru cd cu)),
                [UpdateState "saving_to_notion" 85; Call SaveJobToNotion;
                 UpdateState "complete" 100])
    | Err e => (Err e, [UpdateState "saving_to_notion" 85; Call SaveJobToNotion])
    end.
Proof.
  unfold persistence_stage.
  destruct (j_url n); [|left; eexists; split; [reflexivity|reflexivity]].
  destruct (job_title n); [|left; eexists; split; [reflexivity|reflexivity]].
  destruct (company_name n); [|left; eexists; split; [reflexivity|reflexivity]].
  right. destruct (env_save_notion E); reflexivity.
Qed.


Ltac app_refl :=
  repeat (first [rewrite <- app_assoc | progress cbn [app fst snd]]); reflexivity.

Ltac in_solve :=
  repeat (progress cbn [In fst snd update_state emit] || rewrite in_app_iff); intuition (reflexivity || discriminate).

Lemma extraction_pre t :
  forallb is_extraction_call t = true ->
  forallb (fun x => is_extraction_call x || negb (is_call x)) t = true.
Proof. apply forallb_impl. intros x ->. reflexivity. Qed.

(** A run of the task either stops before Stage 4 (duplicate, business
    outcome, extraction failure, missing description, evaluation error),
    or evaluates, goes through Stage 4 and reaches Stage 5. *)
Lemma task_shape E url f :
  exists pre,
    forallb (fun x => is_extraction_call x || negb (is_call x)) pre = true /\
    ((exists post, snd (process_job_task E url f) = pre ++ post /\
        (post = [] \/ (post = [Call EvaluateJobMatch] /\ exists e, env_evaluate E = Err e)) /\
        forall s, fst (process_job_task E url f) <> SUCCESS (RSuccess s)) \/
     (exists n ev docs tT,
        fst (extract_job_data E url f) = Ok n /\ job_description n <> None /\
        env_evaluate E = Ok ev /\
        tailoring update_state E (score_of ev) = (Ok docs, tT) /\
        snd (process_job_task E url f) =
          pre ++ Call EvaluateJobMatch :: tT
              ++ snd (persistence_stage update_state E n (score_of ev) docs) /\
        fst (process_job_task E url f) =
          to_task (fst (persistence_stage update_state E n (score_of ev) docs)))).
Proof.
  rewrite process_job_task_eq.
  destruct (pipeline_cases E url f) as (t1 & t2 & Hc & [(r & Hp & Hr) | [(r & Hp & Hr) | (n & Hn & Hp)]]);
    rewrite forallb_app in Hc; apply andb_true_iff in Hc as [Hc1 Hc2];
    rewrite Hp; cbn [fst snd].
  - exists (UpdateState "starting" 0 :: UpdateState "duplicate_check" 10 :: t1).
    split.
    { cbn. exact (extraction_pre t1 Hc1). }
    left. exists []. rewrite app_nil_r. split; [reflexivity|]. split; [left; reflexivity|].
    intros s. destruct r; [|discriminate]. intros [= ->]. apply (Hr s). reflexivity.
  - exists (UpdateState "starting" 0 :: UpdateState "duplicate_check" 10 :: t1
              ++ UpdateState "extracting" 20 :: t2).
    split.
    { cbn. rewrite forallb_app. cbn.
      rewrite (extraction_pre t1 Hc1), (extraction_pre t2 Hc2). reflexivity. }
    left. exists []. rewrite app_nil_r. split; [reflexivity|]. split; [left; reflexivity|].
    intros s. destruct r; [|discriminate]. intros [= ->]. apply (Hr s). reflexivity.
  - rewrite after_extraction_eq.
    assert (Hpre : forallb (fun x => is_extraction_call x || negb (is_call x))
              (UpdateState "starting" 0 :: UpdateState "duplicate_check" 10 :: t1
                 ++ UpdateState "extracting" 20 :: t2 ++ [UpdateState "evaluating" 35]) = true).
    { cbn. rewrite forallb_app. cbn. rewrite forallb_app. cbn.
      rewrite (extraction_pre t1 Hc1), (extraction_pre t2 Hc2). reflexivity. }
    eexists; split; [exact Hpre|].
    destruct (job_description n) as [jd|] eqn:Hjd.
    2:{ left. exists []. rewrite app_nil_r. split; [app_refl|].
        split; [left; reflexivity|]. intros s; discriminate. }
    destruct (env_evaluate E) as [ev|e] eqn:He.
    2:{ left. exists [Call EvaluateJobMatch].
        split; [app_refl|].
        split; [right; split; [reflexivity|exists e; reflexivity]|]. intros s; discriminate. }
    destruct (tailoring update_state E (score_of ev)) as [[docs|e] tT] eqn:Ht.
    2:{ exfalso. destruct (Z_le_gt_dec (score_of ev) 70) as [Hle|Hgt].
        - rewrite tailoring_le70 in Ht by exact Hle. discriminate.
        - destruct (tailoring_gt70 E (score_of ev)) as (r & c & _ & _ & Ht'); [lia|].
          rewrite Ht in Ht'. discriminate. }
    right. exists n, ev, docs, tT.
    split; [exact Hn|]. split; [congruence|]. split; [reflexivity|]. split; [exact Ht|].
    split; [app_refl|reflexivity].
Qed.

Lemma pre_no_tailoring t :
  forallb (fun x => is_extraction_call x || negb (is_call x)) t = true ->
  forallb (fun x => negb (is_tailoring_call x)) t = true.
Proof. apply forallb_impl. intros [[]|]; cbn; congruence. Qed.

Lemma pre_no_call t c :
  forallb (fun x => is_extraction_call x || negb (is_call x)) t = true ->
  is_extraction_call (Call c) = false -> ~ In (Call c) t.
Proof. intros H Hc. apply (forallb_not_In _ _ _ H). rewrite Hc. reflexivity. Qed.

Lemma persistence_no_tailoring E n s docs :
  forallb (fun x => negb (is_tailoring_call x))
    (snd (persistence_stage update_state E n s docs)) = true.
Proof.
  destruct docs as [[rd ru] [cd cu]].
  destruct (persistence_cases E n s rd ru cd cu) as [(e & -> & _) | ->]; [reflexivity|].
  destruct (env_save_notion E); reflexivity.
Qed.

Lemma tailoring_gt70_calls E s :
  70 < s ->
  In (Call TailorResume) (snd (tailoring update_state E s)) /\
  In (Call TailorCoverLetter) (snd (tailoring update_state E s)).
Proof.
  intros H. destruct (tailoring_gt70 E s H) as (r & c & _ & _ & ->). cbn [snd].
  split; apply in_or_app; [left|right].
  - destruct (resume_stage_cases E) as [(e & _ & ->) | (d & u & t & _ & -> & _)];
      right; left; reflexivity.
  - destruct (cover_letter_stage_cases E) as [(e & _ & ->) | (d & u & t & _ & -> & _)];
      right; left; reflexivity.
Qed.

(** The outcome of Stage 5 on a job whose record has all its keys. *)
Lemma persistence_saved E n s rd ru cd cu nr :
  env_save_notion E = Ok nr ->
  (exists e, persistence_stage update_state E n s ((rd, ru), (cd, cu)) =
               (Err e, [UpdateState "saving_to_notion" 85]) /\
             exn_cls e = OtherError "KeyError") \/
  persistence_stage update_state E n s ((rd, ru), (cd, cu)) =
    (Ok (RSuccess (build_success n nr s rd ru cd cu)),
     [UpdateState "saving_to_notion" 85; Call SaveJobToNotion; UpdateState "complete" 100]).
Proof.
  intros Hs. destruct (persistence_cases E n s rd ru cd cu) as [H | ->]; [left; exact H|].
  right. rewrite Hs. reflexivity.
Qed.

(** Every success response of the task is built in Stage 5 from the
    outcome of Stage 4. *)
Lemma task_success_shape E url f s :
  fst (process_job_task E url f) = SUCCESS (RSuccess s) ->
  exists n ev rd ru cd cu tT nr,
    env_evaluate E = Ok ev /\
    tailoring update_state E (score_of ev) = (Ok ((rd, ru), (cd, cu)), tT) /\
    env_save_notion E = Ok nr /\
    s = build_success n nr (score_of ev) rd ru cd cu.
Proof.
  intros Hs.
  destruct (task_shape E url f) as
      (pre & _ & [(post & _ & _ & Hns) | (n & ev & [[rd ru] [cd cu]] & tT & _ & _ & Hev & Htl & _ & Hf)]).
  - exfalso. exact (Hns s Hs).
  - rewrite Hs in Hf.
    destruct (persistence_cases E n (score_of ev) rd ru cd cu) as [(e & He & _) | Hp].
    + rewrite He in Hf. discriminate.
    + rewrite Hp in Hf. destruct (env_save_notion E) as [nr|e] eqn:Hn; [|discriminate].
      injection Hf as Hf. exists n, ev, rd, ru, cd, cu, tT, nr. auto.
Qed.


Lemma resume_stage_out E rd ru :
  fst (resume_stage update_state E) = Ok (rd, ru) ->
  (forall e, env_tailor_resume E = Err e -> rd = None) /\
  (forall e, env_compile_resume E = Err e \/ env_upload_resume E = Err e -> ru = None).
Proof.
  destruct (resume_stage_cases E) as [(e & He & ->) | (d & u & t & Hd & -> & _ & Hu)];
    cbn; intros [= <- <-]; split; intros e' H; try congruence.
  exact (Hu e' H).
Qed.

Lemma cover_letter_stage_out E cd cu :
  fst (cover_letter_stage update_state E) = Ok (cd, cu) ->
  (forall e, env_tailor_cover_letter E = Err e -> cd = None) /\
  (forall e, env_compile_cover_letter E = Err e \/ env_upload_cover_letter E = Err e ->
             cu = None).
Proof.
  destruct (cover_letter_stage_cases E) as [(e & He & ->) | (d & u & t & Hd & -> & _ & Hu)];
    cbn; intros [= <- <-]; split; intros e' H; try congruence.
  exact (Hu e' H).
Qed.

(** ** C4: the score gate *)

(** C4. For a run whose evaluation returns a score of at most 70, no
    tailoring, PDF compilation or upload collaborator is called, and a
    success response marks both documents untailored with the threshold
    reason; above 70, a run that reaches the evaluation attempts both
    tailoring stages. *)
Theorem score_gate E url f ev :
  env_evaluate E = Ok ev ->
  (score_of ev <= 70 ->
     forallb (fun x => negb (is_tailoring_call x)) (snd (process_job_task E url f)) = true /\
     forall s, fst (process_job_task E url f) = SUCCESS (RSuccess s) ->
       resume_tailored s = false /\ cover_letter_tailored s = false /\
       resume_reason s = Some (threshold_reason (score_of ev)) /\
       cover_letter_reason s = Some (threshold_reason (score_of ev))) /\
  (70 < score_of ev ->
     In (Call EvaluateJobMatch) (snd (process_job_task E url f)) ->
     In (Call TailorResume) (snd (process_job_task E url f)) /\
     In (Call TailorCoverLetter) (snd (process_job_task E url f))).
Proof.
  intros Hev. split.
  - intros Hle. split.
    + destruct (task_shape E url f) as
          (pre & Hpre & [(post & Ht & Hpost & _) | (n & ev' & docs & tT & _ & _ & Hev' & Htl & Ht & _)]);
        rewrite Ht, forallb_app, (pre_no_tailoring pre Hpre).
      * destruct Hpost as [-> | [-> _]]; reflexivity.
      * rewrite Hev in Hev'. injection Hev' as <-.
        rewrite tailoring_le70 in Htl by exact Hle. injection Htl as <- <-.
        cbn [app forallb negb is_tailoring_call andb]. apply persistence_no_tailoring.
    + intros s Hs.
      destruct (task_success_shape E url f s Hs) as (n & ev' & rd & ru & cd & cu & tT & nr & Hev' & Htl & _ & ->).
      rewrite Hev in Hev'. injection Hev' as <-.
      rewrite tailoring_le70 in Htl by exact Hle. injection Htl as <- <- <- <- _.
      repeat split.
  - intros Hgt Hin.
    destruct (task_shape E url f) as
        (pre & Hpre & [(post & Ht & Hpost & _) | (n & ev' & docs & tT & _ & _ & Hev' & Htl & Ht & _)]).
    + exfalso. rewrite Ht in Hin. apply in_app_or in Hin as [Hin | Hin].
      * exact (pre_no_call pre EvaluateJobMatch Hpre eq_refl Hin).
      * destruct Hpost as [-> | [-> (e & He)]]; [exact Hin|congruence].
    + rewrite Hev in Hev'. injection Hev' as <-.
      destruct (tailoring_gt70_calls E (score_of ev) Hgt) as [H1 H2].
      rewrite Htl in H1, H2. cbn [snd] in H1, H2. rewrite Ht.
      split; apply in_or_app; right; right; apply in_or_app; left; assumption.
Qed.

(** ** C5: fault isolation of the tailoring stages *)


(** ** C10: the absence reason *)

(** C10. Above the threshold, a success response whose resume or cover
    letter is absent still gives the threshold text
    "Match score {score}% ≤ 70 threshold" as the reason, with the score
    that passed the threshold. *)
Theorem reason_cites_threshold E url f ev s :
  env_evaluate E = Ok ev -> 70 < score_of ev ->
  fst (process_job_task E url f) = SUCCESS (RSuccess s) ->
  (resume_tailored s = false ->
     resume_reason s = Some ("Match score " ++ Z_to_string (score_of ev) ++ "% ≤ 70 threshold")%string) /\
  (cover_letter_tailored s = false ->
     cover_letter_reason s = Some ("Match score " ++ Z_to_string (score_of ev) ++ "% ≤ 70 threshold")%string).
Proof.
  intros Hev _ Hs.
  destruct (task_success_shape E url f s Hs) as (n & ev' & rd & ru & cd & cu & tT & nr & Hev' & _ & _ & ->).
  rewrite Hev in Hev'. injection Hev' as <-.
  unfold build_success. cbn.
  split; [destruct (truthy_doc rd)|destruct (truthy_doc cd)];
    first [discriminate | reflexivity].
Qed.

(** ** C6: the duplicate check fails open *)

Lemma extract_job_data_first E url f :
  exists t, snd (extract_job_data E url f) =
            Call (if f then PlaywrightNavigate 0 else Crawl4aiExtract) :: t.
Proof.
  destruct f; [apply playwright_path_first|].
  apply starts_try. rewrite fast_path_trace. eexists. reflexivity.
Qed.

Lemma pipeline_after_check E url f d :
  fst (check_if_job_exists (env_lookup E)) = Ok d -> exists_ d = false ->
  process_job_pipeline E url f =
    (fst (extraction_stage update_state E url f),
     UpdateState "duplicate_check" 10 :: snd (check_if_job_exists (env_lookup E))
       ++ snd (extraction_stage update_state E url f)).
Proof.
  intros Hd Hex. unfold process_job_pipeline, pipeline. rewrite update_state_bind, bind_eq.
  rewrite Hd, Hex. reflexivity.
Qed.

(** C6. Whenever the Notion lookup fails (missing credentials, a
    raising request, a non-200 answer, an unreadable body or page),
    [check_if_job_exists] returns, without raising, a result with
    [exists] false and an error, and the task goes on to report the
    extraction stage and call the first extraction collaborator. *)
Theorem duplicate_check_fails_open E url f :
  lookup_failed (env_lookup E) = true ->
  (exists d, fst (check_if_job_exists (env_lookup E)) = Ok d /\
             exists_ d = false /\ error d <> None) /\
  In (UpdateState "extracting" 20) (snd (process_job_task E url f)) /\
  In (Call (if f then PlaywrightNavigate 0 else Crawl4aiExtract))
     (snd (process_job_task E url f)).
Proof.
  intros Hl.
  assert (Hd : exists d, fst (check_if_job_exists (env_lookup E)) = Ok d /\
                         exists_ d = false /\ error d <> None).
  { destruct (env_lookup E) as [|e|code text body]; cbn in Hl |- *.
    - eexists; split; [reflexivity|]; split; [reflexivity|discriminate].
    - eexists; split; [reflexivity|]; split; [reflexivity|discriminate].
    - destruct (code =? 200); cbn in Hl |- *.
      + destruct body as [e|[|[e|pt ct pu pid] rest]]; cbn in Hl |- *; try discriminate;
          (eexists; split; [reflexivity|]; split; [reflexivity|discriminate]).
      + eexists; split; [reflexivity|]; split; [reflexivity|discriminate]. }
  split; [exact Hd|].
  destruct Hd as (d & Hd & Hex & _).
  rewrite process_job_task_eq. cbn [snd].
  rewrite (pipeline_after_check E url f d Hd Hex). cbn [snd].
  rewrite extraction_stage_eq by (intros; reflexivity). cbn [snd].
  destruct (extract_job_data_first E url f) as [t Ht]. rewrite Ht.
  split; in_solve.
Qed.

(** ** C7: stage boundaries and progress *)

Lemma stages_of_app t1 t2 : stages_of (t1 ++ t2) = stages_of t1 ++ stages_of t2.
Proof. unfold stages_of. apply flat_map_app. Qed.

Lemma stages_of_calls t : forallb is_call t = true -> stages_of t = [].
Proof.
  induction t as [|[c|st p] t IH]; cbn; [reflexivity| |discriminate]. exact IH.
Qed.

Lemma stages_of_extraction t : forallb is_extraction_call t = true -> stages_of t = [].
Proof.
  intros H. apply stages_of_calls. revert H. apply forallb_impl.
  intros [c|]; [reflexivity|discriminate].
Qed.

Lemma stages_of_tailoring_calls t : forallb is_tailoring_call t = true -> stages_of t = [].
Proof.
  intros H. apply stages_of_calls. revert H. apply forallb_impl.
  intros [c|]; [reflexivity|discriminate].
Qed.

Lemma subseq_nil_l {A} (L : list A) : subseq [] L.
Proof. induction L; constructor; assumption. Qed.

Lemma subseqb_sound l L : subseqb l L = true -> subseq l L.
Proof.
  revert l. induction L as [|y L IH]; intros [|x l] H; cbn in H;
    try discriminate; try apply subseq_nil_l.
  destruct (stage_eqb x y) eqn:Hxy.
  - unfold stage_eqb in Hxy. apply andb_true_iff in Hxy as [H1 H2].
    apply String.eqb_eq in H1. apply Z.eqb_eq in H2.
    destruct x, y; cbn in *; subst. apply subseq_take, IH, H.
  - apply subseq_skip, IH, H.
Qed.

Lemma subseq_map {A B} (g : A -> B) l L : subseq l L -> subseq (map g l) (map g L).
Proof. induction 1; cbn; constructor; assumption. Qed.

Lemma subseq_Forall {A} (P : A -> Prop) l L : subseq l L -> Forall P L -> Forall P l.
Proof.
  induction 1; intros HF; auto; inversion HF; subst; auto.
Qed.

Lemma subseq_StronglySorted {A} (R : A -> A -> Prop) l L :
  subseq l L -> StronglySorted R L -> StronglySorted R l.
Proof.
  induction 1; intros HS; [constructor| |]; inversion HS; subst; auto.
  constructor; [auto|]. eapply subseq_Forall; eassumption.
Qed.

Lemma resume_stage_stages E :
  stages_of (snd (resume_stage update_state E)) = [("tailoring_resume", 45)] \/
  stages_of (snd (resume_stage update_state E)) =
    [("tailoring_resume", 45); ("compiling_resume_pdf", 55)].
Proof.
  destruct (resume_stage_cases E) as [(e & _ & ->) | (d & u & t & _ & -> & Ht & _)];
    [left; reflexivity|right].
  cbn [snd]. change (UpdateState "tailoring_resume" 45 :: Call TailorResume
                       :: UpdateState "compiling_resume_pdf" 55 :: t)
    with ([UpdateState "tailoring_resume" 45; Call TailorResume;
           UpdateState "compiling_resume_pdf" 55] ++ t).
  rewrite stages_of_app, (stages_of_tailoring_calls t Ht). reflexivity.
Qed.

Lemma cover_letter_stage_stages E :
  stages_of (snd (cover_letter_stage update_state E)) = [("tailoring_cover_letter", 65)] \/
  stages_of (snd (cover_letter_stage update_state E)) =
    [("tailoring_cover_letter", 65); ("compiling_cover_letter_pdf", 75)].
Proof.
  destruct (cover_letter_stage_cases E) as [(e & _ & ->) | (d & u & t & _ & -> & Ht & _)];
    [left; reflexivity|right].
  cbn [snd]. change (UpdateState "tailoring_cover_letter" 65 :: Call TailorCoverLetter
                       :: UpdateState "compiling_cover_letter_pdf" 75 :: t)
    with ([UpdateState "tailoring_cover_letter" 65; Call TailorCoverLetter;
           UpdateState "compiling_cover_letter_pdf" 75] ++ t).
  rewrite stages_of_app, (stages_of_tailoring_calls t Ht). reflexivity.
Qed.

Lemma tailoring_stages E s :
  stages_of (snd (tailoring update_state E s)) = [] \/
  exists l1 l2, stages_of (snd (tailoring update_state E s)) = l1 ++ l2 /\
    (l1 = [("tailoring_resume", 45)] \/
     l1 = [("tailoring_resume", 45); ("compiling_resume_pdf", 55)]) /\
    (l2 = [("tailoring_cover_letter", 65)] \/
     l2 = [("tailoring_cover_letter", 65); ("compiling_cover_letter_pdf", 75)]).
Proof.
  destruct (Z_le_gt_dec s 70) as [Hle|Hgt].
  - left. rewrite tailoring_le70 by exact Hle. reflexivity.
  - right. destruct (tailoring_gt70 E s) as (r & c & _ & _ & ->); [lia|]. cbn [snd].
    rewrite stages_of_app. do 2 eexists. split; [reflexivity|].
    split; [apply resume_stage_stages|apply cover_letter_stage_stages].
Qed.

Lemma persistence_stages E n s docs :
  stages_of (snd (persistence_stage update_state E n s docs)) = [("saving_to_notion", 85)] \/
  stages_of (snd (persistence_stage update_state E n s docs)) =
    [("saving_to_notion", 85); ("complete", 100)].
Proof.
  destruct docs as [[rd ru] [cd cu]].
  destruct (persistence_cases E n s rd ru cd cu) as [(e & -> & _) | ->]; [left; reflexivity|].
  destruct (env_save_notion E); [right|left]; reflexivity.
Qed.

(** The stages reported by a run, after [starting], are a subsequence of
    the nine pipeline stages. *)
Lemma task_stages E url f :
  exists l, stages_of (snd (process_job_task E url f)) = ("starting", 0) :: l /\
            subseqb l pipeline_stages = true.
Proof.
  rewrite process_job_task_eq. cbn [snd].
  destruct (pipeline_cases E url f) as (t1 & t2 & Hc & [(r & Hp & _) | [(r & Hp & _) | (n & _ & Hp)]]);
    rewrite forallb_app in Hc; apply andb_true_iff in Hc as [Hc1 Hc2];
    rewrite Hp; cbn [snd].
  - change (UpdateState "starting" 0 :: UpdateState "duplicate_check" 10 :: t1)
      with ([UpdateState "starting" 0; UpdateState "duplicate_check" 10] ++ t1).
    rewrite stages_of_app, (stages_of_extraction t1 Hc1).
    eexists; split; reflexivity.
  - change (UpdateState "starting" 0 :: UpdateState "duplicate_check" 10
              :: t1 ++ UpdateState "extracting" 20 :: t2)
      with ([UpdateState "starting" 0; UpdateState "duplicate_check" 10] ++
              t1 ++ [UpdateState "extracting" 20] ++ t2).
    rewrite !stages_of_app, (stages_of_extraction t1 Hc1), (stages_of_extraction t2 Hc2).
    eexists; split; reflexivity.
  - change (UpdateState "starting" 0 :: UpdateState "duplicate_check" 10
              :: t1 ++ UpdateState "extracting" 20 :: t2
              ++ snd (after_extraction update_state E n))
      with ([UpdateState "starting" 0; UpdateState "duplicate_check" 10] ++
              t1 ++ [UpdateState "extracting" 20] ++ t2
              ++ snd (after_extraction update_state E n)).
    rewrite !stages_of_app, (stages_of_extraction t1 Hc1), (stages_of_extraction t2 Hc2).
    rewrite after_extraction_eq.
    destruct (job_description n); [|eexists; split; reflexivity].
    destruct (env_evaluate E) as [ev|e]; [|eexists; split; reflexivity].
    destruct (tailoring_stages E (score_of ev)) as [HT | (l1 & l2 & HT & Hl1 & Hl2)];
    destruct (fst (tailoring update_state E (score_of ev))) as [docs|e].
    + cbn [snd]. change (UpdateState "evaluating" 35 :: Call EvaluateJobMatch
                :: snd (tailoring update_state E (score_of ev))
                ++ snd (persistence_stage update_state E n (score_of ev) docs))
        with ([UpdateState "evaluating" 35; Call EvaluateJobMatch]
                ++ snd (tailoring update_state E (score_of ev))
                ++ snd (persistence_stage update_state E n (score_of ev) docs)).
      rewrite !stages_of_app, HT.
      destruct (persistence_stages E n (score_of ev) docs) as [HP|HP]; rewrite HP;
        eexists; split; reflexivity.
    + cbn [snd]. change (UpdateState "evaluating" 35 :: Call EvaluateJobMatch
                :: snd (tailoring update_state E (score_of ev)))
        with ([UpdateState "evaluating" 35; Call EvaluateJobMatch]
                ++ snd (tailoring update_state E (score_of ev))).
      rewrite !stages_of_app, HT. eexists; split; reflexivity.
    + cbn [snd]. change (UpdateState "evaluating" 35 :: Call EvaluateJobMatch
                :: snd (tailoring update_state E (score_of ev))
                ++ snd (persistence_stage update_state E n (score_of ev) docs))
        with ([UpdateState "evaluating" 35; Call EvaluateJobMatch]
                ++ snd (tailoring update_state E (score_of ev))
                ++ snd (persistence_stage update_state E n (score_of ev) docs)).
      rewrite !stages_of_app, HT.
      destruct (persistence_stages E n (score_of ev) docs) as [HP|HP]; rewrite HP;
        destruct Hl1 as [-> | ->]; destruct Hl2 as [-> | ->];
        eexists; split; reflexivity.
    + cbn [snd]. change (UpdateState "evaluating" 35 :: Call EvaluateJobMatch
                :: snd (tailoring update_state E (score_of ev)))
        with ([UpdateState "evaluating" 35; Call EvaluateJobMatch]
                ++ snd (tailoring update_state E (score_of ev))).
      rewrite !stages_of_app, HT.
      destruct Hl1 as [-> | ->]; destruct Hl2 as [-> | ->];
        eexists; split; reflexivity.
Qed.

Lemma pipeline_stages_sorted : StronglySorted Z.le (map snd pipeline_stages).
Proof. repeat constructor; cbn; lia. Qed.

(** C7. In every run of the task, the stage boundaries reported after
    [starting] (progress 0) appear in the order of the nine fixed stages
    duplicate_check=10, extracting=20, evaluating=35, tailoring_resume=45,
    compiling_resume_pdf=55, tailoring_cover_letter=65,
    compiling_cover_letter_pdf=75, saving_to_notion=85, complete=100, each
    with its fixed progress, so the reported progress never decreases; a
    run that goes through every stage reports all nine. *)
Theorem progress_monotone E url f :
  (exists l, stages_of (snd (process_job_task E url f)) = ("starting", 0) :: l /\
             subseq l pipeline_stages) /\
  StronglySorted Z.le (map snd (stages_of (snd (process_job_task E url f)))) /\
  length pipeline_stages = 9%nat /\
  stages_of (snd (process_job_task
                    (sample_env (Ok sample_job) nav_ok 85 (Ok sample_doc) (Ok "page-1"))
                    sample_url false)) = ("starting", 0) :: pipeline_stages.
Proof.
  destruct (task_stages E url f) as (l & Hl & Hs).
  apply subseqb_sound in Hs.
  split; [exists l; split; assumption|].
  split; [|split; [reflexivity|vm_compute; reflexivity]].
  rewrite Hl. cbn [map snd]. constructor.
  - apply (subseq_StronglySorted _ _ (map snd pipeline_stages));
      [apply subseq_map, Hs|apply pipeline_stages_sorted].
  - apply (subseq_Forall _ _ (map snd pipeline_stages)); [apply subseq_map, Hs|].
    repeat constructor; cbn; lia.
Qed.

(** ** C9: the [POST /jobs/add] route *)

Lemma add_job_eq E url f :
  add_job E url f =
    (Ok (match fst (pipeline no_report E url f) with
         | Ok r => HttpOk r
         | Err e => HttpError 500 (exn_msg e)
         end),
     snd (pipeline no_report E url f)).
Proof.
  unfold add_job. rewrite try_except_eq, bind_eq.
  destruct (pipeline no_report E url f) as [[r|e] t]; cbn; rewrite app_nil_r; reflexivity.
Qed.

(** C9 (code bug). [POST /jobs/add] enqueues nothing: it runs the
    duplicate check and the extraction inside the request, and when the
    fast path fails with a technical error that does not qualify for the
    fallback, the submission itself is answered with an HTTP 500 error
    carrying the exception's message, instead of an acknowledgment. *)
Theorem add_job_error_response E url e d t :
  check_if_job_exists (env_lookup E) = (Ok d, t) -> exists_ d = false ->
  env_crawl E url = Err e ->
  exn_cls e <> JobUnavailableError -> exn_cls e <> VisaRestrictedError ->
  should_attempt_fallback e = false ->
  add_job E url false = (Ok (HttpError 500 (exn_msg e)), t ++ [Call Crawl4aiExtract]).
Proof.
  intros Hd Hx Hc Hju Hvr Hf. rewrite add_job_eq.
  assert (Hx' : extract_job_data E url false = (Err e, [Call Crawl4aiExtract])).
  { rewrite (extract_after_fast_error E url e (fast_path_err_of_crawl E url e Hc)).
    destruct (exn_cls e); try congruence; rewrite Hf; reflexivity. }
  assert (Hs : extraction_stage (fun _ _ => ret tt) E url false
               = (Err e, [Call Crawl4aiExtract])).
  { unfold extraction_stage. rewrite bind_eq. cbn [fst snd ret].
    rewrite bind_eq, try_except_eq, bind_eq, Hx'. cbn [fst snd].
    destruct (exn_cls e) eqn:Hce; try congruence; reflexivity. }
  unfold pipeline, no_report. rewrite bind_eq. cbn [fst snd ret].
  rewrite bind_eq, Hd. cbn [fst snd]. rewrite Hx, Hs. reflexivity.
Qed.

(** * Properties of the services *)

Lemma str_app_nil_r s : (s ++ "")%string = s.
Proof. induction s as [|c s IH]; simpl; [reflexivity|]. rewrite IH. reflexivity. Qed.

Lemma str_app_assoc x y z : ((x ++ y) ++ z)%string = (x ++ (y ++ z))%string.
Proof. induction x as [|c x IH]; simpl; [reflexivity|]. rewrite IH. reflexivity. Qed.

Lemma str_length_app x y : String.length (x ++ y) = (String.length x + String.length y)%nat.
Proof. induction x as [|c x IH]; simpl; [reflexivity|]. rewrite IH. reflexivity. Qed.

Lemma prefixb_empty s : prefixb "" s = true.
Proof. destruct s; reflexivity. Qed.

Lemma prefixb_contains p s : prefixb p s = true -> contains p s = true.
Proof. destruct s; simpl; [auto|intros ->; reflexivity]. Qed.

Lemma contains_cons p c s : contains p s = true -> contains p (String c s) = true.
Proof. simpl. intros ->. apply orb_true_r. Qed.

Lemma contains_app_r p x y : contains p y = true -> contains p (x ++ y) = true.
Proof. induction x as [|c x IH]; simpl; [auto|]. intros H. rewrite IH by exact H. apply orb_true_r. Qed.

Lemma prefixb_app p x y : prefixb p x = true -> prefixb p (x ++ y) = true.
Proof.
  revert x. induction p as [|a p IH]; intros [|c x]; simpl; try discriminate; auto.
  intros H. apply andb_prop in H as [-> H]. simpl. auto.
Qed.


Lemma contains_empty_nonempty p : p <> "" -> contains p "" = false.
Proof. destruct p; [congruence|reflexivity]. Qed.

Lemma contains_cons_pattern a p s :
  contains (String a p) s = true -> contains p s = true.
Proof.
  induction s as [|c s IH]; simpl; [discriminate|].
  intros H. apply orb_prop in H as [H|H].
  - apply andb_prop in H as [_ H]. apply contains_cons, prefixb_contains, H.
  - apply contains_cons, IH, H.
Qed.

Lemma no_char_of_cons a p r : no_char_of (String a p) r = true -> no_char_of p r = true.
Proof.
  unfold no_char_of. apply forallb_impl. intros c H.
  apply negb_true_iff in H. apply negb_true_iff. unfold char_in in *. simpl in H.
  apply orb_false_iff in H. apply H.
Qed.

Lemma prefixb_head_in p c x : p <> "" -> prefixb p (String c x) = true -> char_in c p = true.
Proof.
  destruct p as [|a p]; [congruence|]. simpl. intros _ H.
  apply andb_prop in H as [H _]. apply Ascii.eqb_eq in H. subst.
  unfold char_in. simpl. rewrite Ascii.eqb_refl. reflexivity.
Qed.

(** A pattern cannot start inside a string none of whose characters it
    contains. *)
Lemma prefixb_disjoint p r x :
  p <> "" -> r <> "" -> no_char_of p r = true -> prefixb p (r ++ x) = false.
Proof.
  intros Hp Hr Hd. destruct r as [|c r]; [congruence|].
  destruct (prefixb p (String c r ++ x)) eqn:H; [|reflexivity].
  simpl in H. apply (prefixb_head_in _ _ _ Hp) in H.
  unfold no_char_of in Hd. simpl in Hd. rewrite H in Hd. discriminate.
Qed.

Lemma contains_skip_disjoint p r x :
  p <> "" -> no_char_of p r = true -> contains p (r ++ x) = contains p x.
Proof.
  intros Hp. induction r as [|c r IH]; [reflexivity|]. intros Hd.
  cbn [append contains].
  assert (Hc : prefixb p (String c (r ++ x)) = false).
  { apply (prefixb_disjoint p (String c "") (r ++ x) Hp); [discriminate|].
    unfold no_char_of in *. simpl in *. apply andb_prop in Hd as [Hd _].
    rewrite Hd. reflexivity. }
  rewrite Hc. apply IH. unfold no_char_of in *. simpl in Hd. apply andb_prop in Hd as [_ Hd]. exact Hd.
Qed.

Section Replace.

Variables old new : string.
Hypothesis new_nonempty : new <> "".

(** A pattern sharing no character with [new] starts in the output of the
    replacement only where it started in the input. *)
Lemma prefixb_replace p : forall s,
  no_char_of p new = true ->
  prefixb p (replace_from old new 0 s) = true -> prefixb p s = true.
Proof.
  revert p. induction p as [|a p IHp]; intros s Hd H; [apply prefixb_empty|].
  assert (Hp : String a p <> "") by discriminate.
  destruct s as [|c s].
  - cbn [replace_from] in H. destruct (String.eqb old "").
    + pose proof (prefixb_disjoint _ new "" Hp new_nonempty Hd) as X.
      rewrite str_app_nil_r in X. rewrite X in H. discriminate.
    + discriminate.
  - cbn [replace_from] in H. destruct (prefixb old (String c s)).
    + destruct (String.eqb old "");
        rewrite prefixb_disjoint in H by auto; discriminate.
    + simpl in H. apply andb_prop in H as [Hac H]. simpl. rewrite Hac. simpl.
      destruct p as [|b p']; [reflexivity|].
      apply (IHp s); [exact (no_char_of_cons _ _ _ Hd)|exact H].
Qed.

Lemma prefixb_replace_cons p c s :
  no_char_of p new = true ->
  prefixb p (String c (replace_from old new 0 s)) = true -> prefixb p (String c s) = true.
Proof.
  destruct p as [|a p]; intros Hd H; [reflexivity|].
  simpl in *. apply andb_prop in H as [-> H]. simpl.
  destruct p as [|b p']; [reflexivity|].
  apply (prefixb_replace _ s (no_char_of_cons _ _ _ Hd) H).
Qed.

(** Replacing never creates an occurrence of a pattern sharing no
    character with [new]. *)
Lemma contains_replace p : forall s k,
  p <> "" -> no_char_of p new = true ->
  contains p (replace_from old new k s) = true -> contains p s = true.
Proof.
  intros s. induction s as [|c s IH]; intros k Hp Hd H.
  - simpl in H. destruct (String.eqb old ""); [|exact H].
    rewrite <- (str_app_nil_r new) in H. rewrite contains_skip_disjoint in H by auto.
    exact H.
  - destruct k as [|k]; cbn [replace_from] in H.
    + destruct (prefixb old (String c s)).
      * destruct (String.eqb old "");
          rewrite contains_skip_disjoint in H by auto.
        -- cbn [contains] in H.
           apply orb_prop in H as [H|H].
           ++ apply prefixb_contains, (prefixb_replace_cons p c s Hd H).
           ++ apply contains_cons, (IH 0%nat Hp Hd H).
        -- apply contains_cons, (IH _ Hp Hd H).
      * cbn [contains] in H.
        apply orb_prop in H as [H|H].
        -- apply prefixb_contains, (prefixb_replace_cons p c s Hd H).
        -- apply contains_cons, (IH 0%nat Hp Hd H).
    + apply contains_cons, (IH k Hp Hd H).
Qed.

Hypothesis old_nonempty : old <> "".
Hypothesis old_new_disjoint : no_char_of old new = true.

(** Replacing [old] by a string sharing no character with it leaves no
    occurrence of [old]. *)
Lemma replace_removes : forall s k, contains old (replace_from old new k s) = false.
Proof.
  assert (Hne : String.eqb old "" = false) by (apply String.eqb_neq; exact old_nonempty).
  intros s. induction s as [|c s IH]; intros k.
  - simpl. rewrite Hne. apply contains_empty_nonempty, old_nonempty.
  - destruct k as [|k]; cbn [replace_from]; [|apply IH].
    destruct (prefixb old (String c s)) eqn:Hm.
    + rewrite Hne, contains_skip_disjoint by auto. apply IH.
    + cbn [contains].
      rewrite IH, orb_false_r.
      destruct (prefixb old (String c (replace_from old new 0 s))) eqn:H; [|reflexivity].
      rewrite (prefixb_replace_cons old c s old_new_disjoint H) in Hm. discriminate.
Qed.

End Replace.

Lemma replace_absent old new s :
  old <> "" -> contains old s = false -> replace_from old new 0 s = s.
Proof.
  intros Hne. assert (Hb : String.eqb old "" = false) by (apply String.eqb_neq; exact Hne).
  induction s as [|c s IH]; simpl; [rewrite Hb; reflexivity|].
  intros H. apply orb_false_iff in H as [H1 H2].
  change (prefixb old (String c s)) with (prefixb old (String c s)) in H1.
  rewrite H1, (IH H2). reflexivity.
Qed.

Lemma count_positive sub s :
  sub <> "" -> contains sub s = true -> (0 < count_from sub 0 s)%nat.
Proof.
  intros Hne. induction s as [|c s IH]; intros H.
  - rewrite contains_empty_nonempty in H by exact Hne. discriminate.
  - cbn [count_from]. cbn [contains] in H.
    destruct (prefixb sub (String c s)) eqn:Hm; [lia|]. apply IH, H.
Qed.

(** ** Dicts *)

Lemma dict_get_set_same d k v : dict_get (dict_set d k v) k = Some v.
Proof.
  induction d as [|[k' v'] d IH]; simpl; [rewrite String.eqb_refl; reflexivity|].
  destruct (String.eqb k k') eqn:E; simpl; [rewrite String.eqb_refl; reflexivity|].
  rewrite E. exact IH.
Qed.

Lemma dict_get_set_other d k v k' :
  k' <> k -> dict_get (dict_set d k v) k' = dict_get d k'.
Proof.
  intros Hne. assert (Hb : String.eqb k' k = false) by (apply String.eqb_neq; exact Hne).
  induction d as [|[k0 v0] d IH]; simpl; [rewrite Hb; reflexivity|].
  destruct (String.eqb k k0) eqn:E; simpl.
  - apply String.eqb_eq in E. subst k0. rewrite Hb. reflexivity.
  - rewrite IH. reflexivity.
Qed.

Lemma get_or_set_same d k v def : get_or (dict_set d k v) k def = v.
Proof. unfold get_or. rewrite dict_get_set_same. reflexivity. Qed.

Lemma get_or_set_other d k v k' def :
  k' <> k -> get_or (dict_set d k v) k' def = get_or d k' def.
Proof. intros H. unfold get_or. rewrite dict_get_set_other by exact H. reflexivity. Qed.

Lemma has_key_set d k v : has_key (dict_set d k v) k = true.
Proof. unfold has_key. rewrite dict_get_set_same. reflexivity. Qed.

(** ** [infer_visa_feasibility] and [ensure_visa_feasibility] *)

Lemma infer_visa_feasibility_nonempty n c v :
  Crawl4aiService.infer_visa_feasibility n c = Ok v -> truthy (PStr v) = true.
Proof.
  unfold Crawl4aiService.infer_visa_feasibility.
  destruct (Crawl4aiService.lower_or_empty (dict_get n "location")); [|discriminate].
  destruct (Crawl4aiService.lower_or_empty (dict_get n "job_description")); [|discriminate].
  repeat match goal with |- context [if ?b then _ else _] => destruct b end;
    intros H; injection H as <-; reflexivity.
Qed.

Lemma ensure_visa_feasibility_ok n n' :
  Crawl4aiService.ensure_visa_feasibility n = Ok n' ->
  truthy (get_or n' "visa_feasibility" PNone) = true /\
  (forall k, k <> "visa_feasibility" -> dict_get n' k = dict_get n k).
Proof.
  unfold Crawl4aiService.ensure_visa_feasibility.
  destruct (truthy (get_or n "visa_feasibility" PNone)) eqn:Ht.
  - intros H. injection H as <-. split; [exact Ht|reflexivity].
  - destruct (Crawl4aiService.infer_visa_feasibility n "Indonesia") as [v|e] eqn:Hi;
      [|discriminate].
    intros H. injection H as <-. split.
    + rewrite get_or_set_same. exact (infer_visa_feasibility_nonempty _ _ _ Hi).
    + intros k Hk. apply dict_get_set_other, Hk.
Qed.

Lemma get_or_of_dict_get d d' k def :
  dict_get d' k = dict_get d k -> get_or d' k def = get_or d k def.
Proof. unfold get_or. intros ->. reflexivity. Qed.

(** ** [crawl4ai_extract] *)

Section ExtractProofs.

Variable json_loads : string -> result pyval.
Variable repr : pyval -> string.

Lemma check_normalized_ok url r n d :
  Crawl4aiService.check_normalized repr url r n = Ok d ->
  exists md, Crawl4aiService.cr_metadata r = Some md /\
  dict_get d "url" = Some (PStr url) /\
  dict_get d "source_title" = Some (get_or md "title" (PStr "")) /\
  truthy (get_or d "job_title" PNone) = true /\
  truthy (get_or d "job_description" PNone) = true /\
  truthy (get_or d "visa_feasibility" PNone) = true /\
  Crawl4aiService.is_restricted (get_or d "visa_feasibility" PNone) = false.
Proof.
  unfold Crawl4aiService.check_normalized.
  destruct (negb (truthy (get_or n "job_available" (PBool true)))); [discriminate|].
  destruct (negb (truthy (get_or n "job_title" PNone))) eqn:Ht; [discriminate|].
  destruct (negb (truthy (get_or n "job_description" PNone))) eqn:Hd; [discriminate|].
  simpl. destruct (Crawl4aiService.cr_metadata r) as [md|]; [|discriminate].
  destruct (Crawl4aiService.ensure_visa_feasibility _) as [n'|e] eqn:He; [|discriminate].
  destruct (Crawl4aiService.is_restricted (get_or n' "visa_feasibility" PNone)) eqn:Hr;
    [discriminate|].
  intros H. injection H as <-.
  apply ensure_visa_feasibility_ok in He as [Hv Hk].
  exists md. split; [reflexivity|].
  split; [rewrite Hk by discriminate; rewrite dict_get_set_other by discriminate;
          apply dict_get_set_same|].
  split; [rewrite Hk by discriminate; apply dict_get_set_same|].
  split; [|split; [|split; [exact Hv|exact Hr]]].
  - rewrite (get_or_of_dict_get _ _ _ _ (Hk "job_title" ltac:(discriminate))).
    rewrite !get_or_set_other by discriminate.
    apply negb_false_iff, Ht.
  - rewrite (get_or_of_dict_get _ _ _ _ (Hk "job_description" ltac:(discriminate))).
    rewrite !get_or_set_other by discriminate.
    apply negb_false_iff, Hd.
Qed.

Lemma crawl_body_ok url r d :
  Crawl4aiService.crawl_body json_loads repr url r = Ok d ->
  Crawl4aiService.cr_success r = true /\
  fst (Crawl4aiService.detect_job_unavailable (Crawl4aiService.cr_markdown r) url) = false /\
  exists n, Crawl4aiService.check_normalized repr url r n = Ok d.
Proof.
  unfold Crawl4aiService.crawl_body.
  destruct (Crawl4aiService.cr_success r); [|discriminate]. simpl.
  destruct (Crawl4aiService.detect_job_unavailable (Crawl4aiService.cr_markdown r) url) as [[|] reason];
    [discriminate|]. simpl.
  destruct (truthy (Crawl4aiService.cr_extracted_content r)); [|discriminate]. simpl.
  match goal with
  | |- (match ?p with Ok _ => _ | Err _ => _ end) = _ -> _ => destruct p as [parsed|e]
  end; [|discriminate].
  intros H. split; [reflexivity|]. split; [reflexivity|].
  destruct parsed as [| | | |[|first rest]|n]; try discriminate.
  - destruct first; try discriminate. eexists; exact H.
  - eexists; exact H.
Qed.

Lemma crawl4ai_extract_body url o d :
  Crawl4aiService.crawl4ai_extract json_loads repr url o = Ok d ->
  exists r, o = Crawl4aiService.Crawled r /\ Crawl4aiService.crawl_body json_loads repr url r = Ok d.
Proof.
  unfold Crawl4aiService.crawl4ai_extract.
  destruct o as [e|r].
  - destruct (exn_cls e); discriminate.
  - destruct (Crawl4aiService.crawl_body json_loads repr url r) as [n|e] eqn:Hb.
    + intros H. injection H as <-. exists r. split; [reflexivity|exact Hb].
    + destruct (exn_cls e); discriminate.
Qed.

End ExtractProofs.

(** X1: what a successful fast-path extraction returns. *)
Theorem crawl4ai_extract_success json_loads repr url o d :
  Crawl4aiService.crawl4ai_extract json_loads repr url o = Ok d ->
  exists r md,
    o = Crawl4aiService.Crawled r /\ Crawl4aiService.cr_success r = true /\
    fst (Crawl4aiService.detect_job_unavailable (Crawl4aiService.cr_markdown r) url) = false /\
    Crawl4aiService.cr_metadata r = Some md /\
    dict_get d "url" = Some (PStr url) /\
    dict_get d "source_title" = Some (get_or md "title" (PStr "")) /\
    truthy (get_or d "job_title" PNone) = true /\
    truthy (get_or d "job_description" PNone) = true /\
    truthy (get_or d "visa_feasibility" PNone) = true /\
    Crawl4aiService.is_restricted (get_or d "visa_feasibility" PNone) = false.
Proof.
  intros H. apply crawl4ai_extract_body in H as [r [-> Hb]].
  apply crawl_body_ok in Hb as [Hs [Hdet [n Hn]]].
  apply check_normalized_ok in Hn as [md [Hmd Rest]].
  exists r, md. repeat split; try assumption; apply Rest.
Qed.

Lemma crawl4ai_extract_keeps_unavailable json_loads repr url r reason :
  Crawl4aiService.crawl_body json_loads repr url r = Err (Exn JobUnavailableError reason) ->
  Crawl4aiService.crawl4ai_extract json_loads repr url (Crawl4aiService.Crawled r)
  = Err (Exn JobUnavailableError reason).
Proof. intros H. unfold Crawl4aiService.crawl4ai_extract. rewrite H. reflexivity. Qed.

Lemma crawl_body_detected json_loads repr url r reason :
  Crawl4aiService.cr_success r = true ->
  Crawl4aiService.detect_job_unavailable (Crawl4aiService.cr_markdown r) url = (true, reason) ->
  Crawl4aiService.crawl_body json_loads repr url r
  = Err (Exn JobUnavailableError (str_opt reason)).
Proof.
  intros Hs Hd. unfold Crawl4aiService.crawl_body. rewrite Hs, Hd. reflexivity.
Qed.

(** X2: a page whose markdown is missing or shorter than 100 characters once
    stripped is reported unavailable, whatever the extraction produced. *)
Theorem short_page_unavailable json_loads repr url r :
  Crawl4aiService.cr_success r = true ->
  (Crawl4aiService.cr_markdown r = None \/
   exists m, Crawl4aiService.cr_markdown r = Some m /\ (String.length (strip m) < 100)%nat) ->
  Crawl4aiService.crawl4ai_extract json_loads repr url (Crawl4aiService.Crawled r)
  = Err (Exn JobUnavailableError "Page content too short or empty").
Proof.
  intros Hs Hm. apply crawl4ai_extract_keeps_unavailable.
  apply (crawl_body_detected _ _ _ _ (Some "Page content too short or empty") Hs).
  destruct Hm as [-> | [m [-> Hl]]]; [reflexivity|].
  unfold Crawl4aiService.detect_job_unavailable.
  apply Nat.ltb_lt in Hl. rewrite Hl, orb_true_r. reflexivity.
Qed.

Lemma find_some_of_member {A} (f : A -> bool) (l : list A) x :
  In x l -> f x = true -> exists y, find f l = Some y.
Proof.
  induction l as [|a l IH]; simpl; [tauto|]. intros [->|Hin] Hf.
  - rewrite Hf. eauto.
  - destruct (f a); eauto.
Qed.

(** X3: a page of 100 characters or more that mentions "404" anywhere is
    reported unavailable, whatever the extraction produced. *)
Theorem page_mentioning_404_unavailable json_loads repr url r m :
  Crawl4aiService.cr_success r = true ->
  Crawl4aiService.cr_markdown r = Some m ->
  contains "404" (lower m) = true ->
  exists reason,
    Crawl4aiService.crawl4ai_extract json_loads repr url (Crawl4aiService.Crawled r)
    = Err (Exn JobUnavailableError reason).
Proof.
  intros Hs Hm H404.
  destruct (Crawl4aiService.detect_job_unavailable (Crawl4aiService.cr_markdown r) url)
    as [b reason] eqn:Hd.
  destruct b.
  - exists (str_opt reason). apply crawl4ai_extract_keeps_unavailable.
    exact (crawl_body_detected _ _ _ _ _ Hs Hd).
  - exfalso. rewrite Hm in Hd. unfold Crawl4aiService.detect_job_unavailable in Hd.
    destruct (String.eqb m "" || (String.length (strip m) <? 100)%nat); [discriminate|].
    destruct (find_some_of_member
                (fun pr => contains (fst pr) (lower m)) Crawl4aiService.unavailable_patterns
                ("404", "Page not found (404)") ltac:(simpl; tauto) H404) as [[p rs] Hf].
    rewrite Hf in Hd. discriminate.
Qed.

Lemma lower_empty : lower "" = "".
Proof. reflexivity. Qed.

Lemma contains_nonempty_target p s : p <> "" -> contains p s = true -> s <> "".
Proof. intros Hp H ->. rewrite contains_empty_nonempty in H by exact Hp. discriminate. Qed.

Lemma infer_indonesia n loc :
  dict_get n "location" = Some (PStr loc) -> contains "indonesia" (lower loc) = true ->
  (exists e, Crawl4aiService.infer_visa_feasibility n "Indonesia" = Err e /\
             exn_cls e = OtherError "AttributeError") \/
  Crawl4aiService.infer_visa_feasibility n "Indonesia" = Ok "eligible".
Proof.
  intros Hl Hi. unfold Crawl4aiService.infer_visa_feasibility.
  rewrite Hl.
  assert (Ht : Crawl4aiService.lower_or_empty (Some (PStr loc)) = Ok (lower loc)).
  { unfold Crawl4aiService.lower_or_empty. simpl.
    destruct (String.eqb loc "") eqn:E; [|reflexivity].
    apply String.eqb_eq in E. subst loc. discriminate. }
  rewrite Ht.
  destruct (Crawl4aiService.lower_or_empty (dict_get n "job_description")) as [desc|e] eqn:Hd.
  - right. replace (lower "Indonesia") with "indonesia" by reflexivity. rewrite Hi. reflexivity.
  - left. exists e. split; [reflexivity|].
    unfold Crawl4aiService.lower_or_empty in Hd.
    destruct (dict_get n "job_description") as [v|]; [|discriminate].
    destruct (truthy v); [|discriminate].
    destruct v; try discriminate; injection Hd as <-; reflexivity.
Qed.

Lemma check_normalized_indonesia repr url r n loc msg :
  dict_get n "location" = Some (PStr loc) -> contains "indonesia" (lower loc) = true ->
  truthy (get_or n "visa_feasibility" PNone) = false ->
  Crawl4aiService.check_normalized repr url r n <> Err (Exn VisaRestrictedError msg).
Proof.
  intros Hl Hi Hv. unfold Crawl4aiService.check_normalized.
  destruct (negb (truthy (get_or n "job_available" (PBool true)))); [discriminate|].
  destruct (_ || _); [discriminate|].
  destruct (Crawl4aiService.cr_metadata r) as [md|]; [|discriminate].
  set (n2 := dict_set (dict_set n "url" (PStr url)) "source_title" (get_or md "title" (PStr ""))).
  assert (Hl2 : dict_get n2 "location" = Some (PStr loc)).
  { unfold n2. rewrite !dict_get_set_other by discriminate. exact Hl. }
  unfold Crawl4aiService.ensure_visa_feasibility.
  replace (get_or n2 "visa_feasibility" PNone) with (get_or n "visa_feasibility" PNone)
    by (unfold n2; rewrite !get_or_set_other by discriminate; reflexivity).
  rewrite Hv.
  destruct (infer_indonesia n2 loc Hl2 Hi) as [[e [He Hc]]|He]; rewrite He.
  - intros H. injection H as He'. rewrite He' in Hc. discriminate.
  - rewrite get_or_set_same. discriminate.
Qed.

Lemma check_normalized_indonesia_eligible repr url r n loc d :
  dict_get n "location" = Some (PStr loc) -> contains "indonesia" (lower loc) = true ->
  truthy (get_or n "visa_feasibility" PNone) = false ->
  Crawl4aiService.check_normalized repr url r n = Ok d ->
  get_or d "visa_feasibility" PNone = PStr "eligible".
Proof.
  intros Hl Hi Hv. unfold Crawl4aiService.check_normalized.
  destruct (negb (truthy (get_or n "job_available" (PBool true)))); [discriminate|].
  destruct (_ || _); [discriminate|].
  destruct (Crawl4aiService.cr_metadata r) as [md|]; [|discriminate].
  set (n2 := dict_set (dict_set n "url" (PStr url)) "source_title" (get_or md "title" (PStr ""))).
  assert (Hl2 : dict_get n2 "location" = Some (PStr loc)).
  { unfold n2. rewrite !dict_get_set_other by discriminate. exact Hl. }
  unfold Crawl4aiService.ensure_visa_feasibility.
  replace (get_or n2 "visa_feasibility" PNone) with (get_or n "visa_feasibility" PNone)
    by (unfold n2; rewrite !get_or_set_other by discriminate; reflexivity).
  rewrite Hv.
  destruct (infer_indonesia n2 loc Hl2 Hi) as [[e [He Hc]]|He]; rewrite He; [discriminate|].
  rewrite get_or_set_same. cbn [Crawl4aiService.is_restricted String.eqb].
  intros H. injection H as <-. apply get_or_set_same.
Qed.

Lemma crawl_body_of_dict json_loads repr url r n d :
  (Crawl4aiService.parse_extracted json_loads (Crawl4aiService.cr_extracted_content r)
   = Ok (PDict n) \/
   exists rest, Crawl4aiService.parse_extracted json_loads
                  (Crawl4aiService.cr_extracted_content r) = Ok (PList (PDict n :: rest))) ->
  Crawl4aiService.crawl_body json_loads repr url r = Ok d ->
  Crawl4aiService.check_normalized repr url r n = Ok d.
Proof.
  intros Hp. unfold Crawl4aiService.crawl_body.
  destruct (Crawl4aiService.cr_success r); [|discriminate]. simpl.
  destruct (Crawl4aiService.detect_job_unavailable _ url) as [[|] reason]; [discriminate|].
  destruct (truthy (Crawl4aiService.cr_extracted_content r)); [|discriminate]. simpl.
  destruct Hp as [Hp|[rest Hp]]; rewrite Hp; exact (fun H => H).
Qed.

(** X4: for a job located in Indonesia whose extracted dict leaves
    [visa_feasibility] unset, [crawl4ai_extract] never raises
    [VisaRestrictedError], and when it returns, the feasibility it
    inferred and stored is ["eligible"]. *)
Theorem indonesia_job_not_visa_restricted json_loads repr url r n loc :
  (Crawl4aiService.parse_extracted json_loads (Crawl4aiService.cr_extracted_content r)
   = Ok (PDict n) \/
   exists rest, Crawl4aiService.parse_extracted json_loads
                  (Crawl4aiService.cr_extracted_content r) = Ok (PList (PDict n :: rest))) ->
  dict_get n "location" = Some (PStr loc) ->
  contains "indonesia" (lower loc) = true ->
  truthy (get_or n "visa_feasibility" PNone) = false ->
  (forall msg, Crawl4aiService.crawl4ai_extract json_loads repr url (Crawl4aiService.Crawled r)
               <> Err (Exn VisaRestrictedError msg)) /\
  (forall d, Crawl4aiService.crawl4ai_extract json_loads repr url (Crawl4aiService.Crawled r)
               = Ok d ->
             get_or d "visa_feasibility" PNone = PStr "eligible").
Proof.
  intros Hp Hl Hi Hv. split.
  - intros msg. unfold Crawl4aiService.crawl4ai_extract.
    destruct (Crawl4aiService.crawl_body json_loads repr url r) as [d|e] eqn:Hb;
      [discriminate|].
    assert (Hbody : e <> Exn VisaRestrictedError msg).
    { intros ->. revert Hb. unfold Crawl4aiService.crawl_body.
      destruct (Crawl4aiService.cr_success r); [|discriminate]. simpl.
      destruct (Crawl4aiService.detect_job_unavailable _ url) as [[|] reason];
        [discriminate|].
      destruct (truthy (Crawl4aiService.cr_extracted_content r)); [|discriminate]. simpl.
      destruct Hp as [Hp|[rest Hp]]; rewrite Hp;
        exact (check_normalized_indonesia repr url r n loc msg Hl Hi Hv). }
    destruct (exn_cls e) eqn:Hc; try discriminate.
    + intros H. injection H as He. subst e. discriminate.
    + intros H. injection H as He. subst e. exact (Hbody eq_refl).
  - intros d H. apply crawl4ai_extract_body in H as (r' & Hr & Hb).
    injection Hr as <-.
    exact (check_normalized_indonesia_eligible repr url r n loc d Hl Hi Hv
             (crawl_body_of_dict json_loads repr url r n d Hp Hb)).
Qed.



Lemma crawl4ai_extract_wraps json_loads repr url r e n :
  Crawl4aiService.crawl_body json_loads repr url r = Err e ->
  exn_cls e = OtherError n ->
  Crawl4aiService.crawl4ai_extract json_loads repr url (Crawl4aiService.Crawled r)
  = Err (Exception_ ("Crawl4AI extraction failed: " ++ exn_msg e)).
Proof.
  intros Hb Hc. unfold Crawl4aiService.crawl4ai_extract. rewrite Hb, Hc. reflexivity.
Qed.


Lemma extract_fails_fast E url e :
  exn_cls e = OtherError "Exception" -> should_attempt_fallback e = false ->
  env_crawl E url = Err e ->
  extract_job_data E url false = (Err e, [Call Crawl4aiExtract]).
Proof.
  intros Hc Hs Hcr.
  rewrite (extract_after_fast_error E url e (fast_path_err_of_crawl E url e Hcr)).
  rewrite Hc, Hs. reflexivity.
Qed.

Lemma crawl_body_content json_loads repr url r :
  Crawl4aiService.cr_success r = true ->
  fst (Crawl4aiService.detect_job_unavailable (Crawl4aiService.cr_markdown r) url) = false ->
  Crawl4aiService.crawl_body json_loads repr url r =
    if negb (truthy (Crawl4aiService.cr_extracted_content r))
    then Err (Exception_ "No content extracted")
    else
      match Crawl4aiService.parse_extracted json_loads (Crawl4aiService.cr_extracted_content r) with
      | Err e => Err e
      | Ok parsed =>
          match match parsed with
                | PList [] => Err (Exception_ "LLM returned empty array.")
                | PList (first :: _) => Ok first
                | PDict _ => Ok parsed
                | v => Err (Exception_ ("Unexpected parsed type: " ++ class_repr v))
                end with
          | Err e => Err e
          | Ok (PDict normalized) => Crawl4aiService.check_normalized repr url r normalized
          | Ok v => Err (Exception_ ("Normalized is not a dict: " ++ class_repr v))
          end
      end.
Proof.
  intros Hs Hd. unfold Crawl4aiService.crawl_body. rewrite Hs.
  destruct (Crawl4aiService.detect_job_unavailable _ url) as [b reason].
  simpl in Hd. subst b. reflexivity.
Qed.



(** X6: when the extraction parses to a JSON scalar ([null], a boolean, a
    number or a string), or to a list whose first item is one, the fast
    path's error is one [_should_attempt_fallback] rejects, and
    [extract_job_data] fails without trying the Playwright path. *)
Theorem scalar_extraction_fails_fast json_loads repr url r v :
  Crawl4aiService.cr_success r = true ->
  fst (Crawl4aiService.detect_job_unavailable (Crawl4aiService.cr_markdown r) url) = false ->
  truthy (Crawl4aiService.cr_extracted_content r) = true ->
  (Crawl4aiService.parse_extracted json_loads (Crawl4aiService.cr_extracted_content r) = Ok v \/
   exists rest, Crawl4aiService.parse_extracted json_loads
                  (Crawl4aiService.cr_extracted_content r) = Ok (PList (v :: rest))) ->
  match v with PNone | PBool _ | PInt _ | PStr _ => True | PList _ | PDict _ => False end ->
  exists e,
    Crawl4aiService.crawl4ai_extract json_loads repr url (Crawl4aiService.Crawled r) = Err e /\
    should_attempt_fallback e = false /\
    forall E, env_crawl E url = Err e ->
      extract_job_data E url false = (Err e, [Call Crawl4aiExtract]).
Proof.
  intros Hs Hd Ht Hp Hv.
  assert (Hpre : exists m,
             Crawl4aiService.crawl_body json_loads repr url r = Err (Exception_ m) /\
             should_attempt_fallback (Exception_ ("Crawl4AI extraction failed: " ++ m)) = false).
  { rewrite (crawl_body_content json_loads repr url r Hs Hd), Ht. simpl negb. cbv iota.
    destruct Hp as [Hp|[rest Hp]]; rewrite Hp; cbv iota;
      destruct v; try contradiction; eexists; (split; [reflexivity|]);
      vm_compute; reflexivity. }
  destruct Hpre as [m [Hb Hf]].
  exists (Exception_ ("Crawl4AI extraction failed: " ++ m)). split; [|split; [exact Hf|]].
  - exact (crawl4ai_extract_wraps json_loads repr url r (Exception_ m) "Exception" Hb eq_refl).
  - intros E Hcr.
    exact (extract_fails_fast E url (Exception_ ("Crawl4AI extraction failed: " ++ m)) eq_refl Hf Hcr).
Qed.

(** ** [llm_normalize_job_data] *)

Lemma setdefault_get_other d k v k' :
  k' <> k -> dict_get (if has_key d k then d else dict_set d k v) k' = dict_get d k'.
Proof. intros H. destruct (has_key d k); [reflexivity|]. apply dict_get_set_other, H. Qed.

Lemma setdefault_has d k v : has_key (if has_key d k then d else dict_set d k v) k = true.
Proof. destruct (has_key d k) eqn:E; [exact E|]. apply has_key_set. Qed.

Lemma has_key_of_get d d' k : dict_get d' k = dict_get d k -> has_key d' k = has_key d k.
Proof. unfold has_key. intros ->. reflexivity. Qed.

Lemma has_key_of_truthy d k : truthy (get_or d k PNone) = true -> has_key d k = true.
Proof. unfold get_or, has_key. destruct (dict_get d k); [reflexivity|discriminate]. Qed.

Lemma filter_nil_false {A} (f : A -> bool) l x : filter f l = [] -> In x l -> f x = false.
Proof.
  intros H Hin. destruct (f x) eqn:E; [|reflexivity].
  assert (In x (filter f l)) by (apply filter_In; auto). rewrite H in *. contradiction.
Qed.

Section NormalizeProofs.

Variable repr : pyval -> string.

Lemma complete_normalized_ok url st parsed d :
  LlmNormalizationService.complete_normalized repr url st parsed = Ok d ->
  normalized_shape url st d /\ truthy (get_or d "job_description" PNone) = true.
Proof.
  unfold LlmNormalizationService.complete_normalized.
  destruct parsed as [| | | | |n]; try discriminate.
  destruct (filter _ LlmNormalizationService.required_fields) as [|f fs] eqn:Hf;
    [|discriminate].
  assert (Hreq : forall f, In f LlmNormalizationService.required_fields ->
                   truthy (get_or n f PNone) = true).
  { intros f Hin. apply negb_false_iff. exact (filter_nil_false _ _ _ Hf Hin). }
  set (n2 := dict_set (dict_set n "url" (PStr url)) "source_title" (PStr st)).
  destruct (Crawl4aiService.ensure_visa_feasibility n2) as [n3|e] eqn:He; [|discriminate].
  intros H. injection H as <-.
  apply ensure_visa_feasibility_ok in He as [Hv Hk].
  cbv zeta.
  set (n4 := if has_key n3 "location" then n3 else dict_set n3 "location" PNone).
  set (n5 := if has_key n4 "work_mode" then n4 else dict_set n4 "work_mode" PNone).
  assert (Hget : forall k, k <> "location" -> k <> "work_mode" -> k <> "visa_feasibility" ->
            dict_get n5 k = dict_get n2 k).
  { intros k H1 H2 H3. unfold n5, n4. rewrite !setdefault_get_other by assumption.
    apply Hk, H3. }
  assert (Hn : forall k, k <> "url" -> k <> "source_title" -> dict_get n2 k = dict_get n k).
  { intros k H1 H2. unfold n2. rewrite !dict_get_set_other by assumption. reflexivity. }
  unfold normalized_shape. repeat split.
  - rewrite Hget by discriminate. unfold n2. rewrite dict_get_set_other by discriminate.
    apply dict_get_set_same.
  - rewrite Hget by discriminate. apply dict_get_set_same.
  - rewrite (get_or_of_dict_get _ _ _ _ (Hget "job_title" ltac:(discriminate)
              ltac:(discriminate) ltac:(discriminate))).
    rewrite (get_or_of_dict_get _ _ _ _ (Hn "job_title" ltac:(discriminate) ltac:(discriminate))).
    apply Hreq. simpl. tauto.
  - unfold get_or, n5, n4. rewrite !setdefault_get_other by discriminate. exact Hv.
  - rewrite (has_key_of_get _ _ _ (Hget "company_name" ltac:(discriminate)
              ltac:(discriminate) ltac:(discriminate))).
    rewrite (has_key_of_get _ _ _ (Hn "company_name" ltac:(discriminate) ltac:(discriminate))).
    apply has_key_of_truthy, Hreq. simpl. tauto.
  - rewrite (has_key_of_get _ _ _ (Hget "job_description" ltac:(discriminate)
              ltac:(discriminate) ltac:(discriminate))).
    rewrite (has_key_of_get _ _ _ (Hn "job_description" ltac:(discriminate) ltac:(discriminate))).
    apply has_key_of_truthy, Hreq. simpl. tauto.
  - unfold n5. rewrite (has_key_of_get _ _ _ (setdefault_get_other n4 "work_mode" PNone "location"
                                             ltac:(discriminate))).
    apply setdefault_has.
  - apply setdefault_has.
  - rewrite (get_or_of_dict_get _ _ _ _ (Hget "job_description" ltac:(discriminate)
              ltac:(discriminate) ltac:(discriminate))).
    rewrite (get_or_of_dict_get _ _ _ _ (Hn "job_description" ltac:(discriminate) ltac:(discriminate))).
    apply Hreq. simpl. tauto.
Qed.

Lemma fallback_dict_shape url st jd :
  normalized_shape url st (LlmNormalizationService.fallback_dict url st jd) /\
  get_or (LlmNormalizationService.fallback_dict url st jd) "job_description" PNone = PStr jd.
Proof.
  unfold normalized_shape, LlmNormalizationService.fallback_dict, get_or, has_key.
  simpl. repeat split. destruct (String.eqb st "") eqn:E; [reflexivity|]. simpl. rewrite E. reflexivity.
Qed.

End NormalizeProofs.

Lemma llm_normalize_cases json_loads repr raw resp :
  (exists jd,
     LlmNormalizationService.llm_normalize_job_data json_loads repr raw resp
     = LlmNormalizationService.fallback_dict (raw_url raw) (raw_title raw) jd /\
     (raw_text raw <> "" -> jd = raw_text raw)) \/
  (exists parsed,
     LlmNormalizationService.complete_normalized repr (raw_url raw) (raw_title raw) parsed
     = Ok (LlmNormalizationService.llm_normalize_job_data json_loads repr raw resp)).
Proof.
  assert (Hemerg : raw_text raw <> "" ->
                   (if String.eqb (raw_text raw) "" then "Unable to extract job description"
                    else raw_text raw) = raw_text raw).
  { intros H. apply String.eqb_neq in H. rewrite H. reflexivity. }
  unfold LlmNormalizationService.llm_normalize_job_data.
  destruct resp as [e|[c|]].
  - left. eexists. split; [reflexivity|exact Hemerg].
  - destruct (json_loads _) as [parsed|e].
    + destruct (LlmNormalizationService.complete_normalized repr (raw_url raw) (raw_title raw) parsed)
        as [d|e] eqn:Hc.
      * right. exists parsed. exact Hc.
      * left. eexists. split; [reflexivity|exact Hemerg].
    + destruct (is_json_decode_error e).
      * left. eexists. split; [reflexivity|reflexivity].
      * left. eexists. split; [reflexivity|exact Hemerg].
  - left. eexists. split; [reflexivity|exact Hemerg].
Qed.

Lemma llm_normalize_shape json_loads repr raw resp :
  normalized_shape (raw_url raw) (raw_title raw)
    (LlmNormalizationService.llm_normalize_job_data json_loads repr raw resp).
Proof.
  destruct (llm_normalize_cases json_loads repr raw resp) as [[jd [-> _]]|[parsed Hc]].
  - apply fallback_dict_shape.
  - eapply complete_normalized_ok; exact Hc.
Qed.

(** X7: whatever the model answers, or if the call raises,
    [llm_normalize_job_data] returns a dict with the scraped url and
    title, a non-empty [job_title] and [visa_feasibility], and the keys
    [company_name], [job_description], [location] and [work_mode]. *)
Theorem llm_normalize_always_shaped json_loads repr raw resp :
  normalized_shape (raw_url raw) (raw_title raw)
    (LlmNormalizationService.llm_normalize_job_data json_loads repr raw resp).
Proof. apply llm_normalize_shape. Qed.

Lemma scrape_loop_url nav url : forall r a le raw,
  fst (scrape_loop nav url a r le) = Ok raw -> raw_url raw = url.
Proof.
  induction r as [|r IH]; intros a le raw H; [discriminate|].
  cbn [scrape_loop] in H. rewrite bind_eq in H. simpl in H.
  destruct (nav a) as [e|e|[s|] text title]; simpl in H;
    repeat match goal with
           | H : context [match ?x with _ => _ end] |- _ =>
               let Hx := fresh "Hx" in destruct x eqn:Hx
           end; simpl in H; try discriminate; try (eapply IH; exact H).
  all: injection H as <-; reflexivity.
Qed.

Lemma detect_false_text_nonempty text title r :
  detect_unavailable_in_text text title = (false, r) -> text <> "".
Proof.
  intros H ->. unfold detect_unavailable_in_text in H. simpl in H. discriminate.
Qed.

(** X8: a page the Playwright scraper returns, normalized by
    [llm_normalize_job_data], always carries the requested url and a
    non-empty [job_description], whatever the model answers. *)
Theorem scraped_page_normalizes_with_description json_loads repr nav url raw t resp :
  playwright_scrape_job nav url = (Ok raw, t) ->
  dict_get (LlmNormalizationService.llm_normalize_job_data json_loads repr raw resp) "url"
    = Some (PStr url) /\
  truthy (get_or (LlmNormalizationService.llm_normalize_job_data json_loads repr raw resp)
            "job_description" PNone) = true.
Proof.
  intros H.
  assert (Hok : fst (playwright_scrape_job nav url) = Ok raw) by (rewrite H; reflexivity).
  pose proof (scrape_loop_url _ _ _ _ _ _ Hok) as Hu.
  pose proof (detect_false_text_nonempty _ _ _ (scrape_loop_ok _ _ _ _ _ _ Hok)) as Ht.
  split.
  - rewrite <- Hu. apply llm_normalize_shape.
  - destruct (llm_normalize_cases json_loads repr raw resp) as [[jd [-> Hjd]]|[parsed Hc]].
    + rewrite (proj2 (fallback_dict_shape _ _ _)), (Hjd Ht). simpl.
      apply negb_true_iff, String.eqb_neq, Ht.
    + eapply complete_normalized_ok; exact Hc.
Qed.

(** ** [determine_visa_status] and the [visa_guidance] lookup *)

Lemma determine_visa_status_range loc wm jt :
  In (determine_visa_status loc wm jt)
    ["no_restriction"; "may_need_sponsorship"; "explicit_restriction"].
Proof.
  unfold determine_visa_status.
  repeat match goal with |- context [if ?b then _ else _] => destruct b end;
    simpl; tauto.
Qed.

(** X9: the [visa_guidance[determine_visa_status(...)]] lookup of
    [evaluate_job_match] never raises [KeyError]: every status has its
    guidance entry. *)
Theorem visa_guidance_lookup_total loc wm jt :
  exists w, visa_guidance_for loc wm jt = (Ok (guidance_entry w), []).
Proof.
  unfold visa_guidance_for.
  destruct (determine_visa_status_range loc wm jt) as [H|[H|[H|[]]]]; rewrite <- H;
    eexists; reflexivity.
Qed.

(** ** [fix_latex_escaping] *)

Lemma count_zero_absent sub s :
  sub <> "" -> (0 <? count_str sub s)%nat = false -> contains sub s = false.
Proof.
  intros Hne H. destruct (contains sub s) eqn:Hc; [|reflexivity].
  apply Nat.ltb_ge in H. pose proof (count_positive sub s Hne Hc). unfold count_str in H. lia.
Qed.

Lemma contains_replace_false old new p s :
  new <> "" -> p <> "" -> no_char_of p new = true ->
  contains p s = false -> contains p (replace_str old new s) = false.
Proof.
  intros Hn Hp Hd H. destruct (contains p (replace_str old new s)) eqn:Hc; [|reflexivity].
  rewrite (contains_replace old new Hn p s 0 Hp Hd Hc) in H. discriminate.
Qed.

Lemma separated_cons ps a l :
  separated ps (a :: l) = true -> separated ps l = true /\ snd a <> "" /\
  (forall p, In p ps -> p <> "" /\ no_char_of p (snd a) = true).
Proof.
  unfold separated. simpl. intros H.
  apply andb_prop in H as [Hps H]. apply andb_prop in H as [Ha Hl].
  apply andb_prop in Ha as [Hne Hall].
  split; [rewrite Hps, Hl; reflexivity|]. split.
  - apply negb_true_iff, String.eqb_neq in Hne. exact Hne.
  - intros p Hin. rewrite forallb_forall in Hps, Hall. split.
    + apply String.eqb_neq, negb_true_iff, Hps, Hin.
    + apply Hall, Hin.
Qed.

Lemma replace_if_present_keeps_absent s old new p :
  new <> "" -> p <> "" -> no_char_of p new = true ->
  contains p s = false -> contains p (replace_if_present s (old, new)) = false.
Proof.
  intros Hn Hp Hd H. unfold replace_if_present.
  destruct (0 <? count_str old s)%nat; [|exact H].
  apply contains_replace_false; assumption.
Qed.

Lemma replace_if_present_removes s old new :
  old <> "" -> new <> "" -> no_char_of old new = true ->
  contains old (replace_if_present s (old, new)) = false.
Proof.
  intros Ho Hn Hd. unfold replace_if_present.
  destruct (0 <? count_str old s)%nat eqn:Hc.
  - apply (replace_removes old new Hn Ho Hd s 0).
  - apply count_zero_absent; assumption.
Qed.

Lemma fold_replace_keeps_absent ps : forall l s p,
  separated ps l = true -> In p ps -> contains p s = false ->
  contains p (fold_left replace_if_present l s) = false.
Proof.
  induction l as [|[old new] l IH]; intros s p Hs Hin H; [exact H|].
  apply separated_cons in Hs as [Hl [Hn Hps]]. simpl.
  apply IH; [exact Hl|exact Hin|].
  destruct (Hps p Hin) as [Hp Hd].
  apply replace_if_present_keeps_absent; assumption.
Qed.

(** No placeholder of [l] is left by the replacement loop. *)
Lemma fold_replace_removes ps : forall l s,
  separated ps l = true -> (forall pr, In pr l -> In (fst pr) ps) ->
  forall pr, In pr l -> contains (fst pr) (fold_left replace_if_present l s) = false.
Proof.
  induction l as [|[old new] l IH]; intros s Hs Hin pr Hpr; [destruct Hpr|].
  pose proof (separated_cons _ _ _ Hs) as [Hl [Hn Hps]]. simpl.
  destruct Hpr as [<-|Hpr].
  - simpl. apply (fold_replace_keeps_absent ps); [exact Hl|apply (Hin (old, new)); left; reflexivity|].
    destruct (Hps old (Hin (old, new) (or_introl eq_refl))) as [Ho Hd].
    apply replace_if_present_removes; assumption.
  - apply IH; [exact Hl| |exact Hpr]. intros q Hq. apply Hin. right. exact Hq.
Qed.

Lemma fold_replace_absent : forall l s,
  (forall pr, In pr l -> fst pr <> "" /\ contains (fst pr) s = false) ->
  fold_left replace_if_present l s = s.
Proof.
  induction l as [|[old new] l IH]; intros s H; [reflexivity|]. cbn [fold_left].
  destruct (H (old, new) (or_introl eq_refl)) as [Ho Hc]. simpl in Ho, Hc.
  assert (Hstep : replace_if_present s (old, new) = s).
  { unfold replace_if_present. destruct (0 <? count_str old s)%nat; [|reflexivity].
    unfold replace_str. apply (replace_absent old new s Ho Hc). }
  rewrite Hstep. apply IH. intros pr Hpr. apply H. right. exact Hpr.
Qed.

Lemma cleanup_absent a p s :
  contains p s = false -> replace_str (String a p) p s = s.
Proof.
  intros H. unfold replace_str. apply replace_absent; [discriminate|].
  destruct (contains (String a p) s) eqn:Hc; [|reflexivity].
  rewrite (contains_cons_pattern a p s Hc) in H. discriminate.
Qed.

Lemma resume_fix_removes s :
  forallb (fun pr => negb (contains (fst pr) (LlmResumeService.fix_latex_escaping s)))
    LlmResumeService.replacements = true.
Proof.
  apply forallb_forall; intros pr Hin; apply negb_true_iff.
  unfold LlmResumeService.fix_latex_escaping. cbv zeta.
  apply (fold_replace_removes (map fst LlmResumeService.replacements));
    [vm_compute; reflexivity|intros q Hq; apply in_map, Hq|exact Hin].
Qed.

Lemma cover_fix_removes s :
  forallb (fun pr => negb (contains (fst pr) (LlmCoverLetterService.fix_latex_escaping s)))
    LlmCoverLetterService.replacements = true.
Proof.
  apply forallb_forall; intros pr Hin; apply negb_true_iff.
  unfold LlmCoverLetterService.fix_latex_escaping. cbv zeta.
  apply (fold_replace_removes (map fst LlmCoverLetterService.replacements));
    [vm_compute; reflexivity|intros q Hq; apply in_map, Hq|exact Hin].
Qed.

Lemma resume_fix_absent s :
  forallb (fun pr => negb (contains (fst pr) s)) LlmResumeService.replacements = true ->
  LlmResumeService.fix_latex_escaping s = s.
Proof.
  intros H. rewrite forallb_forall in H.
  assert (Ha : forall p, In p ["__AMP__"; "__PCT__"; "__HASH__"; "__DOLLAR__"] ->
                 contains p s = false).
  { intros p Hp. apply negb_true_iff.
    destruct Hp as [<-|[<-|[<-|[<-|[]]]]];
      [apply (H ("__AMP__", " \& "))|apply (H ("__PCT__", "\% "))
      |apply (H ("__HASH__", " \#"))|apply (H ("__DOLLAR__", " \$"))]; simpl; tauto. }
  unfold LlmResumeService.fix_latex_escaping. cbv zeta.
  rewrite (cleanup_absent "\"%char "__PCT__" s), (cleanup_absent "\"%char "__AMP__" s),
    (cleanup_absent "\"%char "__HASH__" s), (cleanup_absent "\"%char "__DOLLAR__" s)
    by (apply Ha; simpl; tauto).
  apply fold_replace_absent. intros pr Hpr. split.
  - simpl in Hpr. repeat destruct Hpr as [<-|Hpr]; try destruct Hpr; discriminate.
  - apply negb_true_iff, H, Hpr.
Qed.

Lemma cover_fix_absent s :
  forallb (fun pr => negb (contains (fst pr) s)) LlmCoverLetterService.replacements = true ->
  LlmCoverLetterService.fix_latex_escaping s = s.
Proof.
  intros H. rewrite forallb_forall in H.
  assert (Ha : forall p, In p ["__APOS__"; "__AMP__"; "__PCT__"; "__HASH__"; "__DOLLAR__"] ->
                 contains p s = false).
  { intros p Hp. apply negb_true_iff.
    destruct Hp as [<-|[<-|[<-|[<-|[<-|[]]]]]];
      [apply (H ("__APOS__", "'"))|apply (H ("__AMP__", " \& "))|apply (H ("__PCT__", "\% "))
      |apply (H ("__HASH__", " \#"))|apply (H ("__DOLLAR__", " \$"))]; simpl; tauto. }
  unfold LlmCoverLetterService.fix_latex_escaping. cbv zeta.
  rewrite (cleanup_absent "\"%char "__APOS__" s), (cleanup_absent "\"%char "__PCT__" s),
    (cleanup_absent "\"%char "__AMP__" s), (cleanup_absent "\"%char "__HASH__" s),
    (cleanup_absent "\"%char "__DOLLAR__" s) by (apply Ha; simpl; tauto).
  apply fold_replace_absent. intros pr Hpr. split.
  - simpl in Hpr. repeat destruct Hpr as [<-|Hpr]; try destruct Hpr; discriminate.
  - apply negb_true_iff, H, Hpr.
Qed.

(** X10: neither [fix_latex_escaping] leaves any of its placeholders
    ([__AMP__], [__PCT__], [__HASH__], [__DOLLAR__] and, for the cover
    letter, [__APOS__]) in its output. *)
Theorem latex_placeholders_removed s :
  forallb (fun pr => negb (contains (fst pr) (LlmResumeService.fix_latex_escaping s)))
    LlmResumeService.replacements = true /\
  forallb (fun pr => negb (contains (fst pr) (LlmCoverLetterService.fix_latex_escaping s)))
    LlmCoverLetterService.replacements = true.
Proof. split; [apply resume_fix_removes|apply cover_fix_removes]. Qed.

(** X11: on text holding none of the placeholders, both
    [fix_latex_escaping] functions return it unchanged. *)
Theorem latex_escaping_identity s :
  forallb (fun pr => negb (contains (fst pr) s)) LlmCoverLetterService.replacements = true ->
  LlmResumeService.fix_latex_escaping s = s /\ LlmCoverLetterService.fix_latex_escaping s = s.
Proof.
  intros H. split; [|apply cover_fix_absent, H].
  apply resume_fix_absent. simpl in H |- *.
  apply andb_prop in H as [_ H]. exact H.
Qed.

(** X18: both [fix_latex_escaping] functions are idempotent: running
    one again on its own output changes nothing, whatever the input. *)
Theorem latex_escaping_idempotent s :
  LlmResumeService.fix_latex_escaping (LlmResumeService.fix_latex_escaping s)
    = LlmResumeService.fix_latex_escaping s /\
  LlmCoverLetterService.fix_latex_escaping (LlmCoverLetterService.fix_latex_escaping s)
    = LlmCoverLetterService.fix_latex_escaping s.
Proof.
  split; [apply resume_fix_absent, resume_fix_removes
         |apply cover_fix_absent, cover_fix_removes].
Qed.

(** ** [upload_pdf_to_supabase] *)

Lemma str_rev_app a b : rev_string (a ++ b) = (rev_string b ++ rev_string a)%string.
Proof.
  induction a as [|c a IH]; simpl; [rewrite str_app_nil_r; reflexivity|].
  rewrite IH, str_app_assoc. reflexivity.
Qed.

Lemma str_rev_involutive s : rev_string (rev_string s) = s.
Proof. induction s as [|c s IH]; simpl; [reflexivity|]. rewrite str_rev_app, IH. reflexivity. Qed.

Lemma all_chars_app f a b : all_chars f (a ++ b) = all_chars f a && all_chars f b.
Proof. induction a as [|c a IH]; simpl; [reflexivity|]. rewrite IH, andb_assoc. reflexivity. Qed.

Lemma all_chars_rev f s : all_chars f (rev_string s) = all_chars f s.
Proof.
  induction s as [|c s IH]; simpl; [reflexivity|].
  rewrite all_chars_app, IH. simpl. rewrite andb_true_r, andb_comm. reflexivity.
Qed.

Lemma all_chars_impl (f g : ascii -> bool) s :
  (forall c, f c = true -> g c = true) -> all_chars f s = true -> all_chars g s = true.
Proof.
  intros H. induction s as [|c s IH]; simpl; [reflexivity|].
  intros Hs. apply andb_prop in Hs as [Hc Hs]. rewrite (H c Hc). exact (IH Hs).
Qed.

Lemma lstrip_no_space s : all_chars (fun c => negb (is_space c)) s = true -> lstrip s = s.
Proof.
  destruct s as [|c s]; simpl; [reflexivity|]. intros H.
  apply andb_prop in H as [H _]. apply negb_true_iff in H. rewrite H. reflexivity.
Qed.

Lemma strip_no_space s : all_chars (fun c => negb (is_space c)) s = true -> strip s = s.
Proof.
  intros H. unfold strip. rewrite (lstrip_no_space s H).
  rewrite lstrip_no_space by (rewrite all_chars_rev; exact H).
  apply str_rev_involutive.
Qed.

Lemma contains_char_absent c s :
  all_chars (fun x => negb (Ascii.eqb x c)) s = true -> contains (String c "") s = false.
Proof.
  induction s as [|x s IH]; simpl; [reflexivity|]. intros H.
  apply andb_prop in H as [Hx H]. rewrite (IH H), orb_false_r.
  apply negb_true_iff in Hx. rewrite Ascii.eqb_sym, Hx. reflexivity.
Qed.

Lemma string_filter_all f s : all_chars f (string_filter f s) = true.
Proof.
  induction s as [|c s IH]; simpl; [reflexivity|].
  destruct (f c) eqn:E; simpl; [rewrite E; exact IH|exact IH].
Qed.

Lemma string_filter_id f s : all_chars f s = true -> string_filter f s = s.
Proof.
  induction s as [|c s IH]; simpl; [reflexivity|]. intros H.
  apply andb_prop in H as [-> H]. rewrite (IH H). reflexivity.
Qed.

Ltac all_ascii c :=
  destruct c as [b0 b1 b2 b3 b4 b5 b6 b7];
  destruct b0, b1, b2, b3, b4, b5, b6, b7; vm_compute; intros; try reflexivity; try discriminate.

Lemma safe_not_space c : is_word_char c || Ascii.eqb c "-" = true -> negb (is_space c) = true.
Proof. all_ascii c. Qed.

Lemma safe_not_slash c : is_word_char c || Ascii.eqb c "-" = true -> negb (Ascii.eqb c "/") = true.
Proof. all_ascii c. Qed.

Lemma safe_not_blank c : is_word_char c || Ascii.eqb c "-" = true -> negb (Ascii.eqb c " ") = true.
Proof. all_ascii c. Qed.

Lemma sanitize_safe s : all_chars (fun c => is_word_char c || Ascii.eqb c "-") (sanitize s) = true.
Proof. apply string_filter_all. Qed.

(** X12: on ASCII text, [sanitize] keeps only letters, digits, [_] and [-],
    and sanitizing twice gives the same name as sanitizing once. *)
Theorem sanitize_safe_idempotent s :
  ascii_text s = true ->
  all_chars (fun c => is_word_char c || Ascii.eqb c "-") (sanitize s) = true /\
  sanitize (sanitize s) = sanitize s.
Proof.
  intros _. split; [apply sanitize_safe|].
  pose proof (sanitize_safe s) as H.
  unfold sanitize at 1.
  rewrite strip_no_space by exact (all_chars_impl _ _ _ safe_not_space H).
  unfold replace_str. rewrite replace_absent; [|discriminate|].
  - apply string_filter_id, H.
  - apply contains_char_absent, (all_chars_impl _ _ _ safe_not_blank H).
Qed.

Lemma no_slash_app a b :
  all_chars (fun x => negb (Ascii.eqb x "/")) a = true ->
  all_chars (fun x => negb (Ascii.eqb x "/")) b = true ->
  all_chars (fun x => negb (Ascii.eqb x "/")) (a ++ b) = true.
Proof. intros Ha Hb. rewrite all_chars_app, Ha, Hb. reflexivity. Qed.

Lemma no_slash_of_contains s :
  contains "/" s = false -> all_chars (fun x => negb (Ascii.eqb x "/")) s = true.
Proof.
  induction s as [|c s IH]; simpl; [reflexivity|]. intros H.
  apply orb_false_iff in H as [Hc H]. rewrite (IH H), andb_true_r.
  apply negb_true_iff. destruct (Ascii.eqb c "/") eqn:E; [|reflexivity].
  apply Ascii.eqb_eq in E. subst c. discriminate.
Qed.

(** X13: the uploaded object's name never contains [/], whatever the position
    and company (ASCII text), as long as the prefix, the date stamp and the
    id have none. *)
Theorem upload_filename_flat prefix position company timestamp unique_id :
  ascii_text (or_default position "role") = true ->
  ascii_text (or_default company "company") = true ->
  contains "/" prefix = false -> contains "/" timestamp = false ->
  contains "/" unique_id = false ->
  contains "/" (upload_filename prefix position company timestamp unique_id) = false.
Proof.
  intros _ _ Hp Ht Hu. apply contains_char_absent. unfold upload_filename.
  pose proof (all_chars_impl _ _ _ safe_not_slash (sanitize_safe (or_default position "role"))) as Hs1.
  pose proof (all_chars_impl _ _ _ safe_not_slash (sanitize_safe (or_default company "company"))) as Hs2.
  apply no_slash_of_contains in Hp, Ht, Hu.
  repeat (apply no_slash_app; [assumption || reflexivity|]). reflexivity.
Qed.

Lemma upload_as_called_raises o :
  upload_as_called o =
    Err (Exn (OtherError "TypeError")
           "upload_pdf_to_supabase() got an unexpected keyword argument 'document_type'").
Proof. reflexivity. Qed.

(** X14: since [process_job_pipeline] calls [upload_pdf_to_supabase] with a
    [document_type] keyword the function does not take, every upload raises
    [TypeError]; a successful task therefore never reports a PDF: both
    [*_pdf_url] are [None] and both [*_pdf_generated] are false. *)
Theorem task_never_reports_pdf E url f s :
  fst (process_job_task (with_uploads_as_called E) url f) = SUCCESS (RSuccess s) ->
  resume_pdf_url s = None /\ resume_pdf_generated s = false /\
  cover_letter_pdf_url s = None /\ cover_letter_pdf_generated s = false.
Proof.
  intros H.
  apply task_success_shape in H as [n [ev [rd [ru [cd [cu [tT [nr [_ [Ht [_ ->]]]]]]]]]]].
  assert (Hu : ru = None /\ cu = None).
  { destruct (Z.le_gt_cases (score_of ev) 70) as [Hle|Hgt].
    - rewrite tailoring_le70 in Ht by exact Hle. injection Ht as -> -> -> ->. split; reflexivity.
    - destruct (tailoring_gt70 (with_uploads_as_called E) (score_of ev) Hgt)
        as [r [c [Hr [Hc Ht']]]].
      rewrite Ht' in Ht. injection Ht. intros. subst. split.
      + apply resume_stage_out in Hr as [_ Hr].
        apply (Hr _ (or_intror (upload_as_called_raises _))).
      + apply cover_letter_stage_out in Hc as [_ Hc].
        apply (Hc _ (or_intror (upload_as_called_raises _))). }
  destruct Hu as [-> ->]. unfold build_success. simpl.
  destruct (truthy_doc rd), (truthy_doc cd); repeat split.
Qed.

(** ** [save_job_to_notion] *)

Lemma lstrip_app s x :
  lstrip (s ++ x) = match lstrip s with EmptyString => lstrip x | _ => (lstrip s ++ x)%string end.
Proof.
  induction s as [|c s IH]; simpl; [reflexivity|].
  destruct (is_space c); [exact IH|reflexivity].
Qed.

Lemma strip_snoc_space s : strip (s ++ " ") = strip s.
Proof.
  unfold strip. rewrite lstrip_app.
  destruct (lstrip s) as [|c l] eqn:E; [reflexivity|].
  rewrite str_rev_app. reflexivity.
Qed.

Lemma strip_cons_space s : strip (String " " s) = strip s.
Proof. reflexivity. Qed.

Lemma split_char_nonempty sep s : split_char sep s <> [].
Proof.
  induction s as [|c s IH]; simpl; [discriminate|].
  destruct (Ascii.eqb c sep); [discriminate|]. destruct (split_char sep s); discriminate.
Qed.

Lemma split_char_app sep t x :
  all_chars (fun c => negb (Ascii.eqb c sep)) t = true ->
  split_char sep (t ++ x) =
    (t ++ hd "" (split_char sep x))%string :: tl (split_char sep x).
Proof.
  induction t as [|c t IH]; simpl; intros H.
  - destruct (split_char sep x) eqn:E; [exfalso; exact (split_char_nonempty _ _ E)|reflexivity].
  - apply andb_prop in H as [Hc H]. apply negb_true_iff in Hc. rewrite Hc, (IH H). reflexivity.
Qed.

Lemma split_char_none sep c :
  all_chars (fun x => negb (Ascii.eqb x sep)) c = true -> split_char sep c = [c].
Proof.
  pose proof (split_char_app sep c "") as H. rewrite str_app_nil_r in H.
  intros Hc. rewrite (H Hc). cbn [split_char hd tl]. rewrite str_app_nil_r. reflexivity.
Qed.

Lemma no_at_of_contains s :
  contains "@" s = false -> all_chars (fun x => negb (Ascii.eqb x "@")) s = true.
Proof.
  induction s as [|c s IH]; simpl; [reflexivity|]. intros H.
  apply orb_false_iff in H as [Hc H]. rewrite (IH H), andb_true_r.
  apply negb_true_iff. destruct (Ascii.eqb c "@") eqn:E; [|reflexivity].
  apply Ascii.eqb_eq in E. subst c. discriminate.
Qed.

(** X15: [save_job_to_notion] recovers the job title and the company from the
    [title] that [process_job_pipeline] builds, stripped, when neither
    contains [@]. *)
Theorem notion_title_round_trip job_title company_name :
  ascii_text job_title = true -> ascii_text company_name = true ->
  contains "@" job_title = false -> contains "@" company_name = false ->
  notion_job_name (notion_title job_title company_name) = strip job_title /\
  notion_company (notion_title job_title company_name) = strip company_name.
Proof.
  intros _ _ Ht Hc. apply no_at_of_contains in Ht, Hc.
  assert (Hsplit : split_char "@" (notion_title job_title company_name)
                   = [(job_title ++ " ")%string; String " " company_name]).
  { unfold notion_title. rewrite (split_char_app _ _ _ Ht).
    cbn [split_char append]. rewrite (split_char_none _ _ Hc). reflexivity. }
  assert (Hin : contains "@" (notion_title job_title company_name) = true).
  { unfold notion_title. apply contains_app_r. reflexivity. }
  unfold notion_job_name, notion_company. rewrite Hin, Hsplit. simpl.
  rewrite strip_snoc_space. split; reflexivity.
Qed.

Lemma substring_zero_len i s : substring i 0 s = "".
Proof.
  revert i. induction s as [|c s IH]; intros [|i]; simpl; auto.
Qed.

Lemma substring_split s : forall i k l,
  (substring i k s ++ substring (i + k) l s)%string = substring i (k + l) s.
Proof.
  induction s as [|c s IH]; intros i k l.
  - destruct i, k, l; reflexivity.
  - destruct i as [|i].
    + destruct k as [|k]; [simpl; destruct l; reflexivity|].
      simpl. rewrite <- IH. reflexivity.
    + simpl. apply IH.
Qed.

Lemma substring_all s n : (String.length s <= n)%nat -> substring 0 n s = s.
Proof.
  revert n. induction s as [|c s IH]; intros [|n] H; simpl in *; try lia; try reflexivity.
  rewrite IH by lia. reflexivity.
Qed.

Lemma substring_length_le s : forall i k, (String.length (substring i k s) <= k)%nat.
Proof.
  induction s as [|c s IH]; intros [|i] [|k]; simpl; try lia.
  - specialize (IH 0%nat k). lia.
  - apply (IH i 0%nat).
  - apply (IH i (S k)).
Qed.

Lemma substring_nonempty s : forall i k,
  (i < String.length s)%nat -> (1 <= String.length (substring i (S k) s))%nat.
Proof.
  induction s as [|c s IH]; intros [|i] k H; simpl in *; try lia.
  apply IH. lia.
Qed.

Lemma chunks_concat s k : forall m a,
  fold_right String.append "" (map (fun j => substring (j * k) k s) (seq a m))
  = substring (a * k) (m * k) s.
Proof.
  induction m as [|m IH]; intros a; simpl.
  - symmetry. apply substring_zero_len.
  - rewrite IH. replace (S a * k)%nat with (a * k + k)%nat by lia.
    apply substring_split.
Qed.

(** X16: the rich-text chunks of the tailored content concatenate back to the
    content, and each one holds between 1 and [chunk_size] (1900)
    characters. *)
Theorem content_chunks_cover tailored_content :
  ascii_text tailored_content = true ->
  fold_right String.append "" (content_chunks tailored_content) = tailored_content /\
  Forall (fun chunk => (1 <= String.length chunk <= chunk_size)%nat)
    (content_chunks tailored_content).
Proof.
  intros _. unfold content_chunks, range_step, slice_len.
  set (L := String.length tailored_content).
  set (N := ((L - 0 + chunk_size - 1) / chunk_size)%nat).
  rewrite map_map.
  assert (Hf : forall j, substring (0 + j * chunk_size) chunk_size tailored_content
                         = substring (j * chunk_size) chunk_size tailored_content)
    by reflexivity.
  assert (HN : (L <= N * chunk_size)%nat).
  { unfold N, chunk_size.
    pose proof (Nat.div_mod (L - 0 + 1900 - 1) 1900 ltac:(lia)).
    pose proof (Nat.mod_upper_bound (L - 0 + 1900 - 1) 1900 ltac:(lia)). lia. }
  split.
  - erewrite map_ext by (intros j; apply Hf).
    rewrite chunks_concat. apply substring_all. exact HN.
  - apply Forall_forall. intros ch Hin. apply in_map_iff in Hin as [j [<- Hj]].
    apply in_seq in Hj. split.
    + unfold chunk_size. apply substring_nonempty.
      assert (Hq : (N * 1900 <= L - 0 + 1900 - 1)%nat).
      { unfold N, chunk_size. rewrite Nat.mul_comm. apply Nat.Div0.mul_div_le. }
      unfold chunk_size in *. nia.
    + apply substring_length_le.
Qed.

(** ** Code fences *)

Lemma replace_skip_prefix old new : forall y x,
  replace_from old new (String.length y) (y ++ x) = replace_from old new 0 x.
Proof.
  induction y as [|c y IH]; intros x; [reflexivity|]. cbn [String.length append replace_from].
  apply IH.
Qed.

Lemma replace_at_match a o new x :
  replace_from (String a o) new 0 (String a o ++ x) = (new ++ replace_from (String a o) new 0 x)%string.
Proof.
  cbn [append replace_from].
  replace (prefixb (String a o) (String a (o ++ x))) with true
    by (symmetry; apply (prefixb_app (String a o) (String a o) x); simpl;
        rewrite Ascii.eqb_refl; simpl; clear; induction o as [|b o IH]; simpl;
        [reflexivity|rewrite Ascii.eqb_refl; exact IH]).
  simpl String.eqb. cbv iota. f_equal. replace (String.length (String a o) - 1)%nat with (String.length o)
    by (simpl; lia).
  apply replace_skip_prefix.
Qed.

Lemma replace_skip_no_head a o new : forall y x,
  all_chars (fun c => negb (Ascii.eqb c a)) y = true ->
  replace_from (String a o) new 0 (y ++ x) = (y ++ replace_from (String a o) new 0 x)%string.
Proof.
  induction y as [|c y IH]; intros x H; [reflexivity|].
  simpl in H. apply andb_prop in H as [Hc H]. apply negb_true_iff in Hc.
  cbn [append replace_from]. simpl prefixb. rewrite Ascii.eqb_sym, Hc. simpl.
  rewrite (IH x H). reflexivity.
Qed.

Lemma strip_id_ends c d y :
  is_space c = false -> is_space d = false ->
  strip (String c (y ++ String d "")) = String c (y ++ String d "").
Proof.
  intros Hc Hd. unfold strip. cbn [lstrip]. rewrite Hc. cbn [rev_string].
  rewrite str_rev_app. cbn [rev_string append]. cbn [lstrip]. rewrite Hd.
  cbn [rev_string]. rewrite str_rev_app, str_rev_involutive. reflexivity.
Qed.

Lemma strip_fenced_json body :
  strip ("```json" ++ body ++ "```") = ("```json" ++ body ++ "```")%string.
Proof.
  replace ("```json" ++ body ++ "```")%string
    with (String "`" (("``json" ++ body ++ "``") ++ String "`" ""))
    by (rewrite !str_app_assoc; reflexivity).
  apply strip_id_ends; reflexivity.
Qed.

(** X17: when the model wraps its JSON in a [```json] fence and the JSON holds
    no backquote, [llm_normalize_job_data] parses exactly the stripped JSON
    inside the fence. *)
Theorem fenced_json_unwrapped body :
  all_chars (fun c => negb (Ascii.eqb c "`")) body = true ->
  LlmNormalizationService.strip_fences (strip ("```json" ++ body ++ "```")) = strip body.
Proof.
  intros H. rewrite (strip_fenced_json body).
  unfold LlmNormalizationService.strip_fences.
  replace (prefixb "```json" ("```json" ++ body ++ "```")) with true
    by (symmetry; apply prefixb_app; reflexivity).
  unfold replace_str. rewrite (replace_at_match "`" "``json" "" (body ++ "```")).
  rewrite (replace_skip_no_head "`" "``json" "" body "```" H).
  replace (replace_from "```json" "" 0 "```") with "```" by reflexivity.
  cbn [append]. rewrite (replace_skip_no_head "`" "``" "" body "```" H).
  replace (replace_from "```" "" 0 "```") with "" by reflexivity.
  rewrite str_app_nil_r. reflexivity.
Qed.

(** * Witnesses *)

(** C1 at a posting whose fast path reports it filled. *)
Lemma business_outcome_no_fallback_witness :
  env_crawl (sample_env (Err crawl_position_filled) nav_ok 85 (Ok sample_doc) (Ok "page-1"))
    sample_url = Err crawl_position_filled /\
  exists r, fst (process_job_task
                   (sample_env (Err crawl_position_filled) nav_ok 85 (Ok sample_doc) (Ok "page-1"))
                   sample_url false) = SUCCESS r /\ status r = "unavailable".
Proof.
  split; [reflexivity|].
  destruct (business_outcome_no_fallback
              (sample_env (Err crawl_position_filled) nav_ok 85 (Ok sample_doc) (Ok "page-1"))
              sample_url crawl_position_filled eq_refl (or_introl eq_refl)) as [_ H].
  apply H. vm_compute. in_solve.
Defined.

(** C2 at a fast path that fails on a reset connection. *)
Lemma fallback_iff_recoverable_witness :
  fst (crawl4ai_fast_path
         (sample_env (Err crawl_connection_reset) nav_ok 85 (Ok sample_doc) (Ok "page-1"))
         sample_url) = Err crawl_connection_reset /\
  should_attempt_fallback crawl_connection_reset = true /\
  In (Call (PlaywrightNavigate 0))
     (snd (extract_job_data
             (sample_env (Err crawl_connection_reset) nav_ok 85 (Ok sample_doc) (Ok "page-1"))
             sample_url false)).
Proof.
  assert (H1 : fst (crawl4ai_fast_path
                      (sample_env (Err crawl_connection_reset) nav_ok 85 (Ok sample_doc) (Ok "page-1"))
                      sample_url) = Err crawl_connection_reset) by (vm_compute; reflexivity).
  assert (H2 : should_attempt_fallback crawl_connection_reset = true) by (vm_compute; reflexivity).
  destruct (fallback_iff_recoverable _ _ crawl_connection_reset H1
              ltac:(vm_compute; discriminate) ltac:(vm_compute; discriminate))
    as (_ & _ & [_ H3] & _).
  split; [exact H1|]. split; [exact H2|]. exact (H3 H2).
Defined.

(** C3 (amended) at a fallback whose every navigation answers HTTP 503. *)
Lemma fallback_single_invocation_witness :
  (length (filter is_navigation
             (snd (extract_job_data
                     (sample_env (Err crawl_connection_reset) nav_503 85 (Ok sample_doc) (Ok "page-1"))
                     sample_url false))) <= max_retries)%nat /\
  fst (process_job_task
         (sample_env (Err crawl_connection_reset) nav_503 85 (Ok sample_doc) (Ok "page-1"))
         sample_url false) =
    FAILURE (Exception_ "Playwright extraction failed: Scraping failed after 3 attempts: HTTP 503").
Proof.
  assert (H1 : fst (crawl4ai_fast_path
                      (sample_env (Err crawl_connection_reset) nav_503 85 (Ok sample_doc) (Ok "page-1"))
                      sample_url) = Err crawl_connection_reset) by (vm_compute; reflexivity).
  assert (Hpw : fst (playwright_path
                       (sample_env (Err crawl_connection_reset) nav_503 85 (Ok sample_doc) (Ok "page-1"))
                       sample_url) =
                Err (Exception_ "Playwright extraction failed: Scraping failed after 3 attempts: HTTP 503"))
    by (vm_compute; reflexivity).
  destruct (fallback_single_invocation _ _ crawl_connection_reset H1
              ltac:(vm_compute; discriminate) ltac:(vm_compute; discriminate)
              ltac:(vm_compute; reflexivity)) as (_ & Hn & _ & Hf).
  split; [exact Hn|].
  apply (proj2 (Hf _ Hpw)); [vm_compute; discriminate|vm_compute; in_solve].
Defined.

(** C4 at scores 60 and 85. *)
Lemma score_gate_witness :
  forallb (fun x => negb (is_tailoring_call x))
    (snd (process_job_task (sample_env (Ok sample_job) nav_ok 60 (Ok sample_doc) (Ok "page-1"))
            sample_url false)) = true /\
  In (Call TailorCoverLetter)
    (snd (process_job_task (sample_env (Ok sample_job) nav_ok 85 (Ok sample_doc) (Ok "page-1"))
            sample_url false)).
Proof.
  split.
  - destruct (score_gate (sample_env (Ok sample_job) nav_ok 60 (Ok sample_doc) (Ok "page-1"))
                sample_url false {| match_score := Some 60 |} eq_refl) as [H _].
    exact (proj1 (H ltac:(vm_compute; discriminate))).
  - destruct (score_gate (sample_env (Ok sample_job) nav_ok 85 (Ok sample_doc) (Ok "page-1"))
                sample_url false {| match_score := Some 85 |} eq_refl) as [_ H].
    exact (proj2 (H ltac:(vm_compute; reflexivity) ltac:(vm_compute; in_solve))).
Defined.


(** C9 at a submission whose LLM extraction parses to a JSON number. *)
Lemma add_job_error_response_witness :
  add_job (sample_env (Err crawl_unexpected_type) nav_ok 85 (Ok sample_doc) (Ok "page-1"))
          sample_url false =
    (Ok (HttpError 500 "Crawl4AI extraction failed: Unexpected parsed type: <class 'int'>"),
     [Call NotionQuery; Call Crawl4aiExtract]).
Proof.
  rewrite (add_job_error_response
             (sample_env (Err crawl_unexpected_type) nav_ok 85 (Ok sample_doc) (Ok "page-1"))
             sample_url crawl_unexpected_type dup_new [Call NotionQuery]
             ltac:(vm_compute; reflexivity) eq_refl eq_refl
             ltac:(vm_compute; discriminate) ltac:(vm_compute; discriminate)
             ltac:(vm_compute; reflexivity)).
  reflexivity.
Defined.

(** C6 at a Notion lookup answering HTTP 502. *)
Lemma duplicate_check_fails_open_witness :
  In (Call Crawl4aiExtract)
    (snd (process_job_task
            (with_lookup (Responded 502 "Bad Gateway" (JsonResults []))
               (sample_env (Ok sample_job) nav_ok 85 (Ok sample_doc) (Ok "page-1")))
            sample_url false)).
Proof.
  exact (proj2 (proj2 (duplicate_check_fails_open
                         (with_lookup (Responded 502 "Bad Gateway" (JsonResults []))
                            (sample_env (Ok sample_job) nav_ok 85 (Ok sample_doc) (Ok "page-1")))
                         sample_url false eq_refl))).
Defined.

(** C8 at a fallback that loads a closed posting. *)
Lemma slow_path_checks_before_normalizing_witness :
  fst (playwright_path (sample_env (Ok sample_job) nav_closed 85 (Ok sample_doc) (Ok "page-1"))
         sample_url) = Err (Exn JobUnavailableError "Job posting closed") /\
  ~ In (Call LlmNormalizeJobData)
      (snd (playwright_path (sample_env (Ok sample_job) nav_closed 85 (Ok sample_doc) (Ok "page-1"))
              sample_url)).
Proof.
  destruct (slow_path_checks_before_normalizing
              (sample_env (Ok sample_job) nav_closed 85 (Ok sample_doc) (Ok "page-1"))
              sample_url) as (_ & _ & _ & _ & H).
  exact (H (Exn PwJobUnavailableError "Job posting closed") ltac:(vm_compute; reflexivity) eq_refl).
Defined.

(** C10 at a run with score 85 whose resume tailoring fails. *)
Lemma reason_cites_threshold_witness :
  fst (process_job_task (sample_env (Ok sample_job) nav_ok 85 (Err resume_llm_error) (Ok "page-1"))
         sample_url false) =
    SUCCESS (RSuccess (build_success (with_method "crawl4ai" sample_job) "page-1" 85
                         None None (Some sample_doc)
                         (Some "https://cdn.example.com/cover_letter.pdf"))) /\
  resume_reason (build_success (with_method "crawl4ai" sample_job) "page-1" 85
                   None None (Some sample_doc)
                   (Some "https://cdn.example.com/cover_letter.pdf")) =
    Some "Match score 85% ≤ 70 threshold".
Proof.
  assert (Hs : fst (process_job_task
                      (sample_env (Ok sample_job) nav_ok 85 (Err resume_llm_error) (Ok "page-1"))
                      sample_url false) =
               SUCCESS (RSuccess (build_success (with_method "crawl4ai" sample_job) "page-1" 85
                                    None None (Some sample_doc)
                                    (Some "https://cdn.example.com/cover_letter.pdf"))))
    by (vm_compute; reflexivity).
  split; [exact Hs|].
  destruct (reason_cites_threshold
              (sample_env (Ok sample_job) nav_ok 85 (Err resume_llm_error) (Ok "page-1"))
              sample_url false {| match_score := Some 85 |} _ eq_refl
              ltac:(vm_compute; reflexivity) Hs) as [H _].
  rewrite (H eq_refl). vm_compute. reflexivity.
Defined.

(** ** Witnesses of the services' properties *)

Lemma crawl4ai_extract_success_witness :
  exists d,
    Crawl4aiService.crawl4ai_extract sample_loads sample_repr sample_url
      (Crawl4aiService.Crawled (sample_crawl (Some sample_markdown) (PStr "job"))) = Ok d /\
    exists r md,
      Crawl4aiService.Crawled (sample_crawl (Some sample_markdown) (PStr "job"))
        = Crawl4aiService.Crawled r /\
      Crawl4aiService.cr_success r = true /\
      fst (Crawl4aiService.detect_job_unavailable (Crawl4aiService.cr_markdown r) sample_url)
        = false /\
      Crawl4aiService.cr_metadata r = Some md /\
      dict_get d "url" = Some (PStr sample_url) /\
      dict_get d "source_title" = Some (get_or md "title" (PStr "")) /\
      truthy (get_or d "job_title" PNone) = true /\
      truthy (get_or d "job_description" PNone) = true /\
      truthy (get_or d "visa_feasibility" PNone) = true /\
      Crawl4aiService.is_restricted (get_or d "visa_feasibility" PNone) = false.
Proof.
  eexists. split; [reflexivity|].
  apply (crawl4ai_extract_success sample_loads sample_repr sample_url
           (Crawl4aiService.Crawled (sample_crawl (Some sample_markdown) (PStr "job")))).
  reflexivity.
Defined.

Lemma short_page_unavailable_witness :
  Crawl4aiService.crawl4ai_extract sample_loads sample_repr sample_url
    (Crawl4aiService.Crawled (sample_crawl (Some "Loading...") (PStr "job")))
  = Err (Exn JobUnavailableError "Page content too short or empty").
Proof.
  apply short_page_unavailable; [reflexivity|].
  right. exists "Loading...". split; [reflexivity|]. vm_compute. lia.
Defined.

Lemma page_mentioning_404_unavailable_witness :
  exists reason,
    Crawl4aiService.crawl4ai_extract sample_loads sample_repr sample_url
      (Crawl4aiService.Crawled (sample_crawl (Some (sample_markdown ++ " Office: 404 Main Street.")%string) (PStr "job")))
    = Err (Exn JobUnavailableError reason).
Proof.
  apply (page_mentioning_404_unavailable _ _ _ _ (sample_markdown ++ " Office: 404 Main Street.")%string);
    [reflexivity|reflexivity|vm_compute; reflexivity].
Defined.

Lemma indonesia_job_not_visa_restricted_witness :
  Crawl4aiService.crawl4ai_extract sample_loads sample_repr sample_url
    (Crawl4aiService.Crawled (sample_crawl (Some sample_markdown) (PStr "job")))
  = Ok (dict_set (dict_set (dict_set sample_job_dict "url" (PStr sample_url))
                   "source_title" (PStr "Data Engineer - Acme"))
          "visa_feasibility" (PStr "eligible")) /\
  get_or (dict_set (dict_set (dict_set sample_job_dict "url" (PStr sample_url))
                     "source_title" (PStr "Data Engineer - Acme"))
            "visa_feasibility" (PStr "eligible")) "visa_feasibility" PNone
  = PStr "eligible".
Proof.
  split; [vm_compute; reflexivity|].
  apply (proj2 (indonesia_job_not_visa_restricted sample_loads sample_repr sample_url
                  (sample_crawl (Some sample_markdown) (PStr "job"))
                  sample_job_dict "Jakarta, Indonesia"
                  (or_introl eq_refl) eq_refl ltac:(vm_compute; reflexivity) eq_refl)).
  vm_compute. reflexivity.
Defined.


Lemma scalar_extraction_fails_fast_witness :
  exists e,
    Crawl4aiService.crawl4ai_extract sample_loads sample_repr sample_url
      (Crawl4aiService.Crawled (sample_crawl (Some sample_markdown) (PStr "42"))) = Err e /\
    should_attempt_fallback e = false /\
    forall E, env_crawl E sample_url = Err e ->
      extract_job_data E sample_url false = (Err e, [Call Crawl4aiExtract]).
Proof.
  apply (scalar_extraction_fails_fast _ _ _ _ (PInt 42));
    [reflexivity|vm_compute; reflexivity|reflexivity|left; reflexivity|exact I].
Defined.

Lemma scraped_page_normalizes_with_description_witness :
  exists raw t,
    playwright_scrape_job nav_ok sample_url = (Ok raw, t) /\
    dict_get (LlmNormalizationService.llm_normalize_job_data sample_loads sample_repr raw
                (LlmNormalizationService.LlmContent (Some "Sorry, I cannot help."))) "url"
      = Some (PStr sample_url) /\
    truthy (get_or (LlmNormalizationService.llm_normalize_job_data sample_loads sample_repr raw
                      (LlmNormalizationService.LlmContent (Some "Sorry, I cannot help.")))
              "job_description" PNone) = true.
Proof.
  do 2 eexists. split; [vm_compute; reflexivity|].
  apply (scraped_page_normalizes_with_description _ _ nav_ok sample_url _
           (snd (playwright_scrape_job nav_ok sample_url))).
  vm_compute. reflexivity.
Defined.

Lemma latex_escaping_identity_witness :
  LlmResumeService.fix_latex_escaping sample_cover_letter_tex = sample_cover_letter_tex /\
  LlmCoverLetterService.fix_latex_escaping sample_cover_letter_tex = sample_cover_letter_tex.
Proof.
  apply latex_escaping_identity. vm_compute. reflexivity.
Defined.

Lemma sanitize_safe_idempotent_witness :
  all_chars (fun c => is_word_char c || Ascii.eqb c "-")
    (sanitize " Senior Data Engineer (Remote) ") = true /\
  sanitize (sanitize " Senior Data Engineer (Remote) ")
    = sanitize " Senior Data Engineer (Remote) ".
Proof.
  apply sanitize_safe_idempotent. vm_compute. reflexivity.
Defined.

Lemma upload_filename_flat_witness :
  contains "/" (upload_filename "AhmadFahrezi_Resume" (Some "Data/ML Engineer")
                  (Some "Acme Inc.") "20261015" "a1b2") = false.
Proof.
  apply upload_filename_flat; vm_compute; reflexivity.
Defined.

Lemma task_never_reports_pdf_witness :
  exists s,
    fst (process_job_task
           (with_uploads_as_called
              (sample_env (Ok sample_job) nav_ok 85 (Ok sample_doc) (Ok "page-1")))
           sample_url false) = SUCCESS (RSuccess s) /\
    resume_pdf_url s = None /\ resume_pdf_generated s = false /\
    cover_letter_pdf_url s = None /\ cover_letter_pdf_generated s = false.
Proof.
  eexists. split; [vm_compute; reflexivity|].
  apply (task_never_reports_pdf
           (sample_env (Ok sample_job) nav_ok 85 (Ok sample_doc) (Ok "page-1"))
           sample_url false).
  vm_compute. reflexivity.
Defined.

Lemma notion_title_round_trip_witness :
  notion_job_name (notion_title " Data Engineer " "Acme") = "Data Engineer" /\
  notion_company (notion_title " Data Engineer " "Acme") = "Acme".
Proof.
  apply (notion_title_round_trip " Data Engineer " "Acme"); vm_compute; reflexivity.
Defined.

Lemma content_chunks_cover_witness :
  fold_right String.append "" (content_chunks sample_latex) = sample_latex /\
  Forall (fun chunk => (1 <= String.length chunk <= chunk_size)%nat)
    (content_chunks sample_latex).
Proof.
  apply content_chunks_cover. vm_compute. reflexivity.
Defined.

Lemma fenced_json_unwrapped_witness :
  LlmNormalizationService.strip_fences (strip ("```json" ++ " {} " ++ "```")%string)
  = strip " {} ".
Proof.
  apply fenced_json_unwrapped. vm_compute. reflexivity.
Defined.

